(** * Courier onboarding cookbook: preference evaluation, escalation and
      webhook ingestion, embedded from the JavaScript sources.

    Every module below embeds one source file:
    - [Prefs], [PrefsMethods]           src/Configurations/user_preferences_management.js
    - [Escalation], [EscalationMethods] the SlackEscalation class (slack_escalation.js)
    - [Webhook], [WebhookEvents]        the webhook handler (webhook_handler.js)

    JavaScript numbers are IEEE binary64 values ([spec_float] at precision 53,
    exponent bound 1024); strings are sequences of code units below 256. *)

From Stdlib Require Import ZArith String Ascii List Lia SpecFloat Sorted.
From stdpp Require Import base option list gmap strings fin_maps pretty.

Local Open Scope string_scope.
Local Open Scope Z_scope.
Set Warnings "-register-all".

(** ** Outcomes of a JavaScript computation *)

Inductive JsError :=
| TypeError
| RangeError
| ReferenceError (ident : string)
| ApiError.

(** [Ret]: normal completion.  [Throws]: abrupt completion with an exception
    (for an async function: the returned promise rejects).  [Unmodelled]: the
    run leaves the fragment of ECMAScript covered here (for instance [Number]
    applied to a text that is not a run of decimal digits). *)
Inductive Outcome (A : Type) :=
| Ret (a : A)
| Throws (e : JsError)
| Unmodelled.
Arguments Ret {A} a.
Arguments Throws {A} e.
Arguments Unmodelled {A}.

#[global] Instance JsError_eq_dec : EqDecision JsError.
Proof. solve_decision. Defined.
#[global] Instance Outcome_eq_dec `{EqDecision A} : EqDecision (Outcome A).
Proof. solve_decision. Defined.

#[global] Instance Outcome_ret : MRet Outcome := fun A a => Ret a.
#[global] Instance Outcome_bind : MBind Outcome := fun A B k c =>
  match c with
  | Ret a => k a
  | Throws e => Throws e
  | Unmodelled => Unmodelled
  end.

(** ** Numbers *)

#[global] Instance spec_float_eq_dec : EqDecision spec_float.
Proof. solve_decision. Defined.

Module Num.

Definition prec : Z := 53.
Definition emax : Z := 1024.

Definition NaN : spec_float := S754_nan.
Definition of_Z (n : Z) : spec_float := binary_normalize prec emax n 0 false.
Definition add (x y : spec_float) : spec_float := SFadd prec emax x y.
Definition mul (x y : spec_float) : spec_float := SFmul prec emax x y.
Definition div (x y : spec_float) : spec_float := SFdiv prec emax x y.

(** The relational operators; each is false as soon as an operand is NaN. *)
Definition lt (x y : spec_float) : bool := SFltb x y.
Definition gt (x y : spec_float) : bool := SFltb y x.
Definition ge (x y : spec_float) : bool := SFleb y x.
Definition le (x y : spec_float) : bool := SFleb x y.

Definition is_nan (x : spec_float) : bool :=
  match x with S754_nan => true | _ => false end.
Definition is_zero (x : spec_float) : bool :=
  match x with S754_zero _ => true | _ => false end.
Definition is_neg_zero (x : spec_float) : bool :=
  match x with S754_zero true => true | _ => false end.

(** Math.min and Math.max of two numbers: NaN if either is NaN, and -0 is
    below +0. *)
Definition min (x y : spec_float) : spec_float :=
  match SFcompare x y with
  | None => NaN
  | Some Lt => x
  | Some Gt => y
  | Some Eq => if is_neg_zero y then y else x
  end.
Definition max (x y : spec_float) : spec_float :=
  match SFcompare x y with
  | None => NaN
  | Some Lt => y
  | Some Gt => x
  | Some Eq => if is_neg_zero x then y else x
  end.

(** [in_range lo x hi]: lo <= x <= hi as JavaScript evaluates it. *)
Definition in_range (lo x hi : spec_float) : Prop :=
  le lo x = true /\ le x hi = true.

(** ToIntegerOrInfinity on a finite double: truncation toward zero.  NaN
    and the infinities have no integer. *)
Definition trunc (x : spec_float) : option Z :=
  match x with
  | S754_zero _ => Some 0
  | S754_finite s m e =>
      let a := if 0 <=? e then Zpos m * 2 ^ e else Zpos m / 2 ^ (- e) in
      Some (if s then - a else a)
  | _ => None
  end.

(** The integer a double is equal to, when it is equal to one. *)
Definition integer (x : spec_float) : option Z :=
  match x with
  | S754_zero _ => Some 0
  | S754_finite s m e =>
      if 0 <=? e then Some (if s then - (Zpos m * 2 ^ e) else Zpos m * 2 ^ e)
      else if Zpos m mod 2 ^ (- e) =? 0
           then Some (if s then - (Zpos m / 2 ^ (- e)) else Zpos m / 2 ^ (- e))
           else None
  | _ => None
  end.

(** A non-negative double with a full 53-bit mantissa and exponent at least
    -52 is an integer multiple of 2^-52; [grid] is that multiple. *)
Definition grid (x : spec_float) : option Z :=
  match x with
  | S754_zero _ => Some 0
  | S754_finite false m e =>
      if (-52 <=? e) && (2 ^ 52 <=? Zpos m) && (Zpos m <? 2 ^ 53)
      then Some (Zpos m * 2 ^ (e + 52))
      else None
  | _ => None
  end.

(** Math.max(1, Math.min(100, x)). *)
Definition clamp (x : spec_float) : spec_float :=
  max (of_Z 1) (min (of_Z 100) x).

(** Integers below [small] cover every hh:mm written with two digits. *)
Definition small : Z := 6040.

(** [P] holds of 0, ..., n-1. *)
Fixpoint check_below (n : nat) (P : Z -> bool) : bool :=
  match n with
  | O => true
  | S k => P (Z.of_nat k) && check_below k P
  end.

End Num.

(** ** Text helpers *)

Definition is_digit (c : ascii) : bool :=
  let n := N_of_ascii c in (48 <=? n)%N && (n <=? 57)%N.

Definition digit_val (c : ascii) : Z := Z.of_N (N_of_ascii c) - 48.

Fixpoint all_digits (s : string) : bool :=
  match s with
  | EmptyString => true
  | String c s' => is_digit c && all_digits s'
  end.

Fixpoint digits_value (acc : Z) (s : string) : Z :=
  match s with
  | EmptyString => acc
  | String c s' => digits_value (10 * acc + digit_val c) s'
  end.

(** [Number(text)] on the texts it is modelled for: the empty text is 0 and a
    run of decimal digits is the double nearest to its value. *)
Definition Number_of_text (s : string) : Outcome spec_float :=
  if all_digits s then Ret (Num.of_Z (digits_value 0 s)) else Unmodelled.

(** [text.split(sep)] for a one-character separator. *)
Fixpoint split_on (sep : ascii) (cur : string) (s : string) : list string :=
  match s with
  | EmptyString => [String.rev cur]
  | String c s' =>
      if Ascii.eqb c sep then String.rev cur :: split_on sep EmptyString s'
      else split_on sep (String c cur) s'
  end.
Definition split (sep : ascii) (s : string) : list string :=
  split_on sep EmptyString s.

(** * Values *)

Module Js.

(** Values that reach the preference manager and the escalation check:
    JSON-like trees.  An object is its finite map of own enumerable
    properties; an array is the object of its index properties, which is
    all that spread, [Object.keys] and property reads observe here. *)
Inductive JsVal :=
| JUndef
| JNull
| JBool (b : bool)
| JNum (x : spec_float)
| JStr (s : string)
| JObj (props : gmap string JsVal).

Definition JTrue : JsVal := JBool true.
Definition JFalse : JsVal := JBool false.
Definition num (n : Z) : JsVal := JNum (Num.of_Z n).

(** ToBoolean. *)
Definition truthy (v : JsVal) : bool :=
  match v with
  | JUndef | JNull => false
  | JBool b => b
  | JNum x => negb (Num.is_zero x || Num.is_nan x)
  | JStr s => negb (String.eqb s "")
  | JObj _ => true
  end.

Definition typeof_boolean (v : JsVal) : bool :=
  match v with JBool _ => true | _ => false end.

(** Own enumerable properties: what [{...v}] copies and [Object.keys(v)]
    lists.  A text has one index property per code unit. *)
Definition chars_props (s : string) : gmap string JsVal :=
  list_to_map
    (imap (fun i c => (pretty i, JStr (String c EmptyString)))
          (list_ascii_of_string s)).

Definition own_props (v : JsVal) : gmap string JsVal :=
  match v with
  | JObj m => m
  | JStr s => chars_props s
  | _ => ∅
  end.

(** [v.k] for the property names this file reads (none of them is defined
    on a built-in prototype): a TypeError on undefined and null, the own
    property or undefined otherwise. *)
Definition get (v : JsVal) (k : string) : Outcome JsVal :=
  match v with
  | JUndef | JNull => Throws TypeError
  | _ => Ret (default JUndef (own_props v !! k))
  end.

(** [v?.k]. *)
Definition get_opt (v : JsVal) (k : string) : JsVal :=
  match v with
  | JUndef | JNull => JUndef
  | _ => default JUndef (own_props v !! k)
  end.

(** [obj[k] = x] on a plain object for an [x] that is not an object or
    null: an own property is created or overwritten, except that the name
    __proto__ reaches the accessor of Object.prototype when the object has
    no own property of that name, and that accessor ignores such values. *)
Definition assign (k : string) (x : JsVal) (obj : gmap string JsVal)
  : gmap string JsVal :=
  if decide (k = "__proto__") then
    match obj !! k with
    | Some _ => <[k := x]> obj
    | None => obj
    end
  else <[k := x]> obj.

(** ToNumber, on the values it is modelled for. *)
Definition to_number (v : JsVal) : Outcome spec_float :=
  match v with
  | JUndef => Ret Num.NaN
  | JNull => Ret (Num.of_Z 0)
  | JBool b => Ret (Num.of_Z (if b then 1 else 0))
  | JNum x => Ret x
  | JStr s => Number_of_text s
  | JObj _ => Unmodelled
  end.

(** [v === "text"]. *)
Definition is_text (v : JsVal) (text : string) : bool :=
  match v with JStr s => String.eqb s text | _ => false end.

(** [v + 1], on the values it is modelled for: numeric addition, or
    concatenation when [v] is a text. *)
Definition plus_one (v : JsVal) : Outcome JsVal :=
  match v with
  | JStr s => Ret (JStr (s ++ "1"))
  | JObj _ => Unmodelled
  | _ => x ← to_number v; Ret (JNum (Num.add x (Num.of_Z 1)))
  end.

(** [v || w]. *)
Definition or_else (v w : JsVal) : JsVal := if truthy v then v else w.

End Js.

(** * src/Configurations/user_preferences_management.js *)

Module Prefs.
Import Js.

(** *** The manager's default record *)

Record Frequency := {
  digest : JsVal;
  max_per_day : spec_float;
  quiet_hours : JsVal
}.

Record Preferences := {
  channels : gmap string JsVal;
  categories : gmap string JsVal;
  frequency : Frequency;
  language : JsVal;
  unsubscribed : JsVal
}.

Definition default_quiet_hours : JsVal :=
  JObj (<["enabled" := JTrue]>
       (<["start" := JStr "21:00"]>
       (<["end" := JStr "09:00"]>
       (<["timezone" := JStr "America/New_York"]> ∅)))).

(** The record built by the constructor. *)
Definition defaultPreferences : Preferences := {|
  channels :=
    <["email" := JTrue]> (<["sms" := JFalse]> (<["push" := JTrue]>
    (<["inbox" := JTrue]> (<["slack" := JFalse]> ∅))));
  categories :=
    <["marketing" := JTrue]> (<["product_updates" := JTrue]>
    (<["onboarding" := JTrue]> (<["security" := JTrue]>
    (<["billing" := JTrue]> (<["team_activity" := JTrue]> ∅)))));
  frequency := {|
    digest := JStr "daily";
    max_per_day := Num.of_Z 10;
    quiet_hours := default_quiet_hours |};
  language := JStr "en";
  unsubscribed := JFalse
|}.

Definition frequency_props (f : Frequency) : gmap string JsVal :=
  <["digest" := digest f]>
  (<["max_per_day" := JNum (max_per_day f)]>
  (<["quiet_hours" := quiet_hours f]> ∅)).

Definition preferences_props (p : Preferences) : gmap string JsVal :=
  <["channels" := JObj (channels p)]>
  (<["categories" := JObj (categories p)]>
  (<["frequency" := JObj (frequency_props (frequency p))]>
  (<["language" := language p]>
  (<["unsubscribed" := unsubscribed p]> ∅)))).

(** The record as a value, for the callers that receive it as one. *)
Definition to_js (p : Preferences) : JsVal := JObj (preferences_props p).

(** *** Clock and time zones

    Instants are milliseconds since the epoch.  A zone is known by its
    offset from UTC in minutes at the instant of the call; [zone_offset]
    is the zone table of the runtime (a name it does not know makes
    [toLocaleString] throw a RangeError) and [local_offset] is the offset
    of the zone the process runs in. *)
Record Env := {
  now : Z;
  local_offset : Z;
  zone_offset : string -> option Z;
  iso_now : string
}.

Definition ms_per_minute : Z := 60000.
Definition ms_per_day : Z := 86400000.

(** Wall-clock minutes since the epoch in a zone with offset [off]. *)
Definition wall_minutes (E : Env) (off : Z) : Z := now E / ms_per_minute + off.

(** Lines 349-355: the hours and minutes that [getHours] and [getMinutes]
    report for the current instant shown in the zone [timezone]. *)
Definition user_clock (E : Env) (timezone : JsVal) : Outcome (Z * Z) :=
  match timezone with
  | JUndef => let w := wall_minutes E (local_offset E) in
              Ret ((w / 60) mod 24, w mod 60)
  | JStr name =>
      match zone_offset E name with
      | Some off => let w := wall_minutes E off in
                    Ret ((w / 60) mod 24, w mod 60)
      | None => Throws RangeError
      end
  | _ => Unmodelled
  end.

(** [text.split(':').map(Number)] destructured into its first two
    elements; a missing element is undefined, which arithmetic turns into
    NaN.  Calling [split] on anything but a text is a TypeError. *)
Definition hour_minute (v : JsVal) : Outcome (spec_float * spec_float) :=
  match v with
  | JStr s =>
      nums ← mapM Number_of_text (split ":" s);
      Ret (default Num.NaN (nums !! 0%nat), default Num.NaN (nums !! 1%nat))
  | _ => Throws TypeError
  end.

(** The text hh:mm of a time of day, two digits each. *)
Definition two_digits (n : Z) : string :=
  String (ascii_of_N (Z.to_N (48 + n / 10)))
    (String (ascii_of_N (Z.to_N (48 + n mod 10))) EmptyString).
Definition clock_text (h m : Z) : string :=
  two_digits h ++ ":" ++ two_digits m.

Definition minutes_of (hm : spec_float * spec_float) : spec_float :=
  Num.add (Num.mul (fst hm) (Num.of_Z 60)) (snd hm).

(** isQuietHours (lines 346-370). *)
Definition isQuietHours (E : Env) (quietHoursConfig : JsVal) : Outcome bool :=
  enabled ← get quietHoursConfig "enabled";
  if negb (truthy enabled) then Ret false else
  timezone ← get quietHoursConfig "timezone";
  '(currentHour, currentMinute) ← user_clock E timezone;
  let currentTime := minutes_of (Num.of_Z currentHour, Num.of_Z currentMinute) in
  start ← get quietHoursConfig "start";
  startHM ← hour_minute start;
  end_ ← get quietHoursConfig "end";
  endHM ← hour_minute end_;
  let startTime := minutes_of startHM in
  let endTime := minutes_of endHM in
  if Num.gt startTime endTime
  then Ret (Num.ge currentTime startTime || Num.lt currentTime endTime)
  else Ret (Num.ge currentTime startTime && Num.lt currentTime endTime).

(** A Date object: its time value, or [None] for an Invalid Date. *)
Definition Date := option Z.

Definition max_time_value : Z := 8640000000000000.

Definition time_clip (t : Z) : Date :=
  if Z.abs t <=? max_time_value then Some t else None.

(** The start of the current day on the process's own wall clock, as an
    instant: what [setHours(0, 0, 0, 0)] leaves in a fresh Date. *)
Definition local_midnight (E : Env) : Z :=
  now E - (now E + local_offset E * ms_per_minute) mod ms_per_day.

(** getNextAvailableTime (lines 373-385). *)
Definition getNextAvailableTime (E : Env) (quietHoursConfig : JsVal)
  : Outcome Date :=
  end_ ← get quietHoursConfig "end";
  '(endHour, endMinute) ← hour_minute end_;
  match Num.trunc endHour, Num.trunc endMinute with
  | Some h, Some m =>
      match time_clip (local_midnight E + h * 3600000 + m * ms_per_minute) with
      | Some t =>
          if t <? now E then Ret (time_clip (t + ms_per_day)) else Ret (Some t)
      | None => Ret None
      end
  | _, _ => Ret None
  end.

(** *** The Courier client

    The hosted API is outside the repository; the model keeps what this
    file stores in it and reads back: the preference record of a
    recipient, the profile attributes merged into it and the instants of
    the messages logged for it. *)
Record Courier := {
  pref_store : gmap string JsVal;
  profile_store : gmap string (gmap string JsVal);
  log_store : gmap string (list Z);
  update_reply : JsVal
}.

(** [courier.preferences.get]: fails for a recipient without a record. *)
Definition preferences_get (c : Courier) (userId : string) : Outcome JsVal :=
  match pref_store c !! userId with
  | Some v => Ret v
  | None => Throws ApiError
  end.

Definition preferences_update (c : Courier) (userId : string) (v : JsVal)
  : Courier :=
  {| pref_store := <[userId := v]> (pref_store c);
     profile_store := profile_store c;
     log_store := log_store c;
     update_reply := update_reply c |}.

(** [courier.profiles.merge]: the given attributes overwrite the stored
    ones key by key. *)
Definition profiles_merge (c : Courier) (userId : string)
    (attrs : gmap string JsVal) : Courier :=
  {| pref_store := pref_store c;
     profile_store :=
       <[userId := attrs ∪ default ∅ (profile_store c !! userId)]>
         (profile_store c);
     log_store := log_store c;
     update_reply := update_reply c |}.

(** [courier.logs.list({recipient, start})]: the entries logged for the
    recipient at or after [start]. *)
Definition logs_list (c : Courier) (userId : string) (start : Z) : list Z :=
  filter (fun t => start <= t) (default [] (log_store c !! userId)).

(** getTodayMessageCount (lines 388-398). *)
Definition getTodayMessageCount (E : Env) (c : Courier) (userId : string) : Z :=
  let today := local_midnight E in
  Z.of_nat (length (logs_list c userId today)).

(** The object applyPreferences returns. *)
Record Decision := {
  send : bool;
  reason : option string;
  reschedule : option Date
}.

(** applyPreferences (lines 290-315). *)
Definition applyPreferences (E : Env) (c : Courier) (userId : string)
    (preferences : JsVal) : Outcome Decision :=
  unsub ← get preferences "unsubscribed";
  if truthy unsub
  then Ret {| send := false; reason := Some "user_unsubscribed";
              reschedule := None |}
  else
  freq ← get preferences "frequency";
  qh ← get freq "quiet_hours";
  quiet ← isQuietHours E qh;
  if (quiet : bool)
  then next ← getNextAvailableTime E qh;
       Ret {| send := false; reason := Some "quiet_hours";
              reschedule := Some next |}
  else
  let todayCount := getTodayMessageCount E c userId in
  cap ← get freq "max_per_day";
  cap_n ← to_number cap;
  if Num.ge (Num.of_Z todayCount) cap_n
  then Ret {| send := false; reason := Some "daily_limit_reached";
              reschedule := None |}
  else Ret {| send := true; reason := None; reschedule := None |}.

(** *** Validation and merging *)

(** The loop of lines 405-411 over the own keys of [preferences.channels],
    writing into [validated.channels]. *)
Definition validate_channels (src target : gmap string JsVal)
  : gmap string JsVal :=
  map_fold (fun channel v validated =>
              if typeof_boolean v then assign channel v validated
              else validated)
           target src.

(** The loop of lines 414-425 over [preferences.categories]. *)
Definition validate_categories (src target : gmap string JsVal)
  : gmap string JsVal :=
  map_fold (fun category v validated =>
              if typeof_boolean v then
                if bool_decide (category = "security")
                   || bool_decide (category = "billing")
                then assign category JTrue validated
                else assign category v validated
              else validated)
           target src.

(** Lines 428-438, on [validated.frequency]. *)
Definition validate_frequency (src : JsVal) (target : Frequency) : Frequency :=
  if truthy src then
    let d := get_opt src "digest" in
    let m := get_opt src "max_per_day" in
    let q := get_opt src "quiet_hours" in
    {| digest := if truthy d then d else digest target;
       max_per_day :=
         match m with
         | JNum x => Num.max (Num.of_Z 1) (Num.min (Num.of_Z 100) x)
         | _ => max_per_day target
         end;
       quiet_hours := if truthy q then q else quiet_hours target |}
  else target.

(** validatePreferences (lines 401-441).  [this] is the current value of
    [this.defaultPreferences].  The copy made on line 402 is one level
    deep: [validated.channels], [validated.categories] and
    [validated.frequency] are the very objects held by the default record,
    so every write below lands in both, and the record returned is also
    the value of [this.defaultPreferences] once the call is over.  Only
    the first property read can throw, before anything is written. *)
Definition validatePreferences (this : Preferences) (preferences : JsVal)
  : Outcome Preferences :=
  ch ← get preferences "channels";
  let channels' :=
    if truthy ch then validate_channels (own_props ch) (channels this)
    else channels this in
  let cat := get_opt preferences "categories" in
  let categories' :=
    if truthy cat then validate_categories (own_props cat) (categories this)
    else categories this in
  let fr := get_opt preferences "frequency" in
  Ret {| channels := channels';
         categories := categories';
         frequency := validate_frequency fr (frequency this);
         language := language this;
         unsubscribed := unsubscribed this |}.

(** mergeWithDefaults (lines 444-465): every object in the result is
    freshly built. *)
Definition mergeWithDefaults (this : Preferences) (preferences : JsVal)
  : Outcome JsVal :=
  let top := own_props preferences ∪ preferences_props this in
  ch ← get preferences "channels";
  let cat := get_opt preferences "categories" in
  let fr := get_opt preferences "frequency" in
  let qh := get_opt fr "quiet_hours" in
  let quiet := own_props qh ∪ own_props (quiet_hours (frequency this)) in
  let freq :=
    <["quiet_hours" := JObj quiet]>
      (own_props fr ∪ frequency_props (frequency this)) in
  Ret (JObj (<["frequency" := JObj freq]>
            (<["categories" := JObj (own_props cat ∪ categories this)]>
            (<["channels" := JObj (own_props ch ∪ channels this)]> top)))).

(** What getUserPreferences hands out: a freshly merged record, or, on
    the catch path, the manager's default record itself. *)
Inductive PrefRef :=
| Fresh (v : JsVal)
| TheDefaults.

(** getUserPreferences (lines 45-57). *)
Definition getUserPreferences (this : Preferences) (c : Courier)
    (userId : string) : PrefRef :=
  match response ← preferences_get c userId; mergeWithDefaults this response with
  | Ret v => Fresh v
  | _ => TheDefaults
  end.

(** The state a method runs in: the manager's default record and the
    Courier account. *)
Definition State : Type := Preferences * Courier.

(** updatePreferences (lines 60-88); the catch block logs and rethrows. *)
Definition updatePreferences (E : Env) (st : State) (userId : string)
    (updates : JsVal) : State * Outcome JsVal :=
  let '(this, c) := st in
  match validatePreferences this updates with
  | Ret validated =>
      let c1 := preferences_update c userId (to_js validated) in
      let response := update_reply c in
      let c2 := profiles_merge c1 userId
                  (<["preferences_updated_at" := JStr (iso_now E)]>
                  (<["preferences_version" := num (now E)]> ∅)) in
      ((validated, c2),
       _ ← applyPreferences E c2 userId (to_js validated); Ret response)
  | Throws e => (st, Throws e)
  | Unmodelled => (st, Unmodelled)
  end.

(** [v.k = x] for one of the fixed property names of a record. *)
Definition set_field (k : string) (x : JsVal) (v : JsVal) : JsVal :=
  match v with
  | JObj m => JObj (<[k := x]> m)
  | _ => v
  end.

(** [Object.keys(v.channels).forEach(ch => v.channels[ch] = x)]. *)
Definition set_all_channels (x : JsVal) (v : JsVal) : JsVal :=
  match get_opt v "channels" with
  | JObj ch => set_field "channels" (JObj ((fun _ => x) <$> ch)) v
  | _ => v
  end.

(** unsubscribeAll (lines 137-157).  On the catch path of
    getUserPreferences the writes go to the default record itself. *)
Definition unsubscribeAll (E : Env) (st : State) (userId : string)
    (reason_ : string) : State * Outcome JsVal :=
  let '(this, c) := st in
  let c1 := profiles_merge c userId
              (<["unsubscribed" := JTrue]>
              (<["unsubscribed_at" := JStr (iso_now E)]>
              (<["unsubscribe_reason" := JStr reason_]> ∅))) in
  match getUserPreferences this c userId with
  | Fresh preferences =>
      let preferences := set_field "unsubscribed" JTrue preferences in
      let preferences := set_all_channels JFalse preferences in
      updatePreferences E (this, c1) userId preferences
  | TheDefaults =>
      let this' := {| channels := (fun _ => JFalse) <$> channels this;
                      categories := categories this;
                      frequency := frequency this;
                      language := language this;
                      unsubscribed := JTrue |} in
      updatePreferences E (this', c1) userId (to_js this')
  end.

(** [obj[k] = x] with [k] the name __proto__ and [x] an object or null
    replaces the prototype of [obj] (unless [obj] has an own property of
    that name); prototypes are outside the model. *)
Definition sets_prototype (k : string) (x : JsVal) : bool :=
  bool_decide (k = "__proto__")
  && match x with JObj _ | JNull => true | _ => false end.

(** updateCategoryPreference (lines 99-104); [enabled] is whatever the
    caller passes.  For a recipient whose record cannot be fetched
    getUserPreferences hands out the default record itself, so the write of
    line 101 lands in it before validatePreferences runs. *)
Definition updateCategoryPreference (E : Env) (st : State) (userId : string)
    (category : string) (enabled : JsVal) : State * Outcome JsVal :=
  let '(this, c) := st in
  if sets_prototype category enabled then (st, Unmodelled) else
  match getUserPreferences this c userId with
  | Fresh preferences =>
      let cats := own_props (get_opt preferences "categories") in
      let preferences :=
        set_field "categories" (JObj (assign category enabled cats))
                  preferences in
      updatePreferences E st userId preferences
  | TheDefaults =>
      let this' := {| channels := channels this;
                      categories := assign category enabled (categories this);
                      frequency := frequency this;
                      language := language this;
                      unsubscribed := unsubscribed this |} in
      updatePreferences E (this', c) userId (to_js this')
  end.

(** The record the evaluator works from for a recipient. *)
Definition effectivePreferences (st : State) (userId : string) : JsVal :=
  match getUserPreferences (fst st) (snd st) userId with
  | Fresh v => v
  | TheDefaults => to_js (fst st)
  end.

(** *** Vocabulary of the statements *)

(** What a property holds after [obj[k] = x]. *)
Definition assigned (k : string) (x : JsVal) (old : option JsVal)
  : option JsVal :=
  if decide (k = "__proto__") then
    match old with Some _ => Some x | None => None end
  else Some x.

(** The categories line 418 keeps switched on. *)
Definition required (k : string) : bool :=
  bool_decide (k = "security") || bool_decide (k = "billing").

Definition nullish (v : JsVal) : bool :=
  match v with JUndef | JNull => true | _ => false end.

(** The required categories are switched on in a record. *)
Definition required_on (p : Preferences) : Prop :=
  categories p !! "security" = Some JTrue
  /\ categories p !! "billing" = Some JTrue.

(** [v.channels[ch]] and [v.categories[cat]], read without throwing. *)
Definition channel_of (v : JsVal) (ch : string) : JsVal :=
  get_opt (get_opt v "channels") ch.
Definition category_of (v : JsVal) (cat : string) : JsVal :=
  get_opt (get_opt v "categories") cat.

(** Following the specification's words for the daily cap: the messages
    recorded for the recipient since midnight on the wall clock of the
    recipient's own zone, whose offset is [off]. *)
Definition spec_today_count_in_zone (E : Env) (c : Courier) (userId : string)
    (off : Z) : Z :=
  let midnight := now E - (now E + off * ms_per_minute) mod ms_per_day in
  Z.of_nat (length (logs_list c userId midnight)).

(** The shape of a merged record: [top], [ch], [cat], [fr] and [qh] are
    the own properties of the stored record and of its channels,
    categories, frequency and quiet hours. *)
Definition merged_record (this : Preferences)
    (top ch cat fr qh : gmap string JsVal) : JsVal :=
  JObj (<["frequency" :=
            JObj (<["quiet_hours" :=
                      JObj (qh ∪ own_props (quiet_hours (frequency this)))]>
                    (fr ∪ frequency_props (frequency this)))]>
       (<["categories" := JObj (cat ∪ categories this)]>
       (<["channels" := JObj (ch ∪ channels this)]>
       (top ∪ preferences_props this)))).

(** *** Scenarios *)

(** A zone table that knows New York, five hours behind UTC. *)
Definition new_york (name : string) : option Z :=
  if String.eqb name "America/New_York" then Some (-300) else None.

(** An instant at which the wall clock in New York shows [h]:[m], for a
    process that runs on UTC. *)
Definition at_new_york (h m : Z) : Env :=
  {| now := (h * 60 + m + 300) * ms_per_minute;
     local_offset := 0;
     zone_offset := new_york;
     iso_now := "1970-01-01T00:00:00.000Z" |}.

(** An account in which the listed recipients have an empty stored record
    and the listed message instants are logged. *)
Definition account (recipients : list string) (logs : gmap string (list Z))
  : Courier :=
  {| pref_store := list_to_map ((fun r => (r, JObj ∅)) <$> recipients);
     profile_store := ∅;
     log_store := logs;
     update_reply := JUndef |}.

Definition noon : Env := at_new_york 12 0.

(** A fresh manager over an account that holds alice and bob. *)
Definition fresh_state : State :=
  (defaultPreferences, account ["alice"; "bob"] ∅).

(** 03:00 UTC on the second day of the epoch, 22:00 of the first day in New
    York, with one message logged for erin an hour before UTC midnight. *)
Definition late_evening : Env :=
  {| now := 27 * 3600000;
     local_offset := 0;
     zone_offset := new_york;
     iso_now := "1970-01-02T03:00:00.000Z" |}.
Definition erin_account : Courier :=
  account ["erin"] {[ "erin" := [23 * 3600000] ]}.

(** An update that tries to switch both required categories off. *)
Definition disable_required : JsVal :=
  JObj {[ "categories" :=
            JObj (<["security" := JFalse]> (<["billing" := JFalse]>
                 (<["marketing" := JFalse]> ∅))) ]}.

(** An update whose max_per_day is the number NaN. *)
Definition nan_update : JsVal :=
  JObj {[ "frequency" := JObj {[ "max_per_day" := JNum Num.NaN ]} ]}.

(** An update that switches the email channel off. *)
Definition email_off : JsVal :=
  JObj {[ "channels" := JObj {[ "email" := JFalse ]} ]}.

(** A record with quiet hours switched off and a cap of [cap] a day. *)
Definition capped_record (unsub : bool) (cap : Z) : JsVal :=
  JObj (<["unsubscribed" := JBool unsub]>
       (<["frequency" :=
            JObj (<["max_per_day" := num cap]>
                 (<["quiet_hours" :=
                      JObj (<["enabled" := JFalse]>
                           (<["timezone" := JStr "America/New_York"]> ∅))]>
                  ∅))]> ∅)).

End Prefs.

(** * user_preferences_management.js: the other methods of the manager *)

Module PrefsMethods.
Import Js Prefs.

(** updateChannelPreference (lines 91-96); [enabled] is whatever the
    caller passes. *)
Definition updateChannelPreference (E : Env) (st : State) (userId : string)
    (channel : string) (enabled : JsVal) : State * Outcome JsVal :=
  let '(this, c) := st in
  if sets_prototype channel enabled then (st, Unmodelled) else
  match getUserPreferences this c userId with
  | Fresh preferences =>
      let chs := own_props (get_opt preferences "channels") in
      let preferences :=
        set_field "channels" (JObj (assign channel enabled chs)) preferences in
      updatePreferences E st userId preferences
  | TheDefaults =>
      let this' := {| channels := assign channel enabled (channels this);
                      categories := categories this;
                      frequency := frequency this;
                      language := language this;
                      unsubscribed := unsubscribed this |} in
      updatePreferences E (this', c) userId (to_js this')
  end.

(** setQuietHours (lines 126-134): the fields given are laid over the
    quiet hours of the record read. *)
Definition setQuietHours (E : Env) (st : State) (userId : string)
    (quietHours : JsVal) : State * Outcome JsVal :=
  let '(this, c) := st in
  match getUserPreferences this c userId with
  | Fresh preferences =>
      let freq := get_opt preferences "frequency" in
      let laid :=
        JObj (own_props quietHours ∪ own_props (get_opt freq "quiet_hours")) in
      let preferences :=
        set_field "frequency" (set_field "quiet_hours" laid freq) preferences in
      updatePreferences E st userId preferences
  | TheDefaults =>
      let f := frequency this in
      let this' := {| channels := channels this;
                      categories := categories this;
                      frequency :=
                        {| digest := digest f;
                           max_per_day := max_per_day f;
                           quiet_hours :=
                             JObj (own_props quietHours
                                   ∪ own_props (quiet_hours f)) |};
                      language := language this;
                      unsubscribed := unsubscribed this |} in
      updatePreferences E (this', c) userId (to_js this')
  end.

(** resubscribe (lines 160-177). *)
Definition resubscribe (E : Env) (st : State) (userId : string)
  : State * Outcome JsVal :=
  let '(this, c) := st in
  let c1 := profiles_merge c userId
              (<["unsubscribed" := JFalse]>
              (<["resubscribed_at" := JStr (iso_now E)]> ∅)) in
  match getUserPreferences this c userId with
  | Fresh preferences =>
      let preferences := set_field "unsubscribed" JFalse preferences in
      let chs := own_props (get_opt preferences "channels") in
      let preferences :=
        set_field "channels"
                  (JObj (<["inbox" := JTrue]> (<["email" := JTrue]> chs)))
                  preferences in
      updatePreferences E (this, c1) userId preferences
  | TheDefaults =>
      let this' := {| channels := <["inbox" := JTrue]>
                                    (<["email" := JTrue]> (channels this));
                      categories := categories this;
                      frequency := frequency this;
                      language := language this;
                      unsubscribed := JFalse |} in
      updatePreferences E (this', c1) userId (to_js this')
  end.

(** *** Vocabulary of the statements *)

(** [v.frequency.quiet_hours], read without throwing. *)
Definition quiet_of (v : JsVal) : JsVal :=
  get_opt (get_opt v "frequency") "quiet_hours".

(** [m] holds booleans only. *)
Definition all_boolean (m : gmap string JsVal) : Prop :=
  forall k v, m !! k = Some v -> typeof_boolean v = true.

End PrefsMethods.

(** * slack_escalation.js: the SlackEscalation class *)

Module Escalation.
Import Js.

(** What identifyBlockers can report (its texts carry pictographs). *)
Inductive Blocker :=
| NoTeamInvited
| NoProjectCreated
| NoIntegrationConnected
| ProfileIncomplete
| FailedActions (n : nat)
| LowEmailEngagement
| NoSpecificBlockers.

(** A message handed to [courier.send] by sendSlackAlert: the template
    enterprise-stuck-alert for the channel #customer-success.  Its body is
    computed from the recipient, the profile read by checkAndEscalate, the
    blockers and the clock, by helpers that read properties of the profile
    only and cannot throw; the record keeps the first three. *)
Record Alert := {
  about : string;
  snapshot : gmap string JsVal;
  blockers : list Blocker
}.

(** The Courier account and the JavaScript realm the class runs in:
    profiles by recipient, the log entries of each recipient, the messages
    sent so far (oldest first), and the properties of the global object. *)
Record World := {
  profiles : gmap string (gmap string JsVal);
  logs : gmap string (list JsVal);
  sent : list Alert;
  global_object : gmap string JsVal
}.

Definition with_sent (w : World) (a : list Alert) : World :=
  {| profiles := profiles w; logs := logs w; sent := a;
     global_object := global_object w |}.

(** [courier.profiles.merge]: the given attributes overwrite the stored
    ones key by key. *)
Definition profiles_merge (w : World) (userId : string)
    (attrs : gmap string JsVal) : World :=
  {| profiles := <[userId := attrs ∪ default ∅ (profiles w !! userId)]>
                   (profiles w);
     logs := logs w; sent := sent w; global_object := global_object w |}.

(** [courier.profiles.get]. *)
Definition profiles_get (w : World) (userId : string) : JsVal :=
  JObj (default ∅ (profiles w !! userId)).

(** An identifier that no enclosing function and no module-level
    declaration binds is looked up on the global object; when it is not
    there either, reading it throws a ReferenceError. *)
Definition free_identifier (w : World) (x : string) : Outcome JsVal :=
  match global_object w !! x with
  | Some v => Ret v
  | None => Throws (ReferenceError x)
  end.

(** [list.some(pred)] and the length of [list.filter(pred)]. *)
Fixpoint some (pred : JsVal -> Outcome bool) (l : list JsVal) : Outcome bool :=
  match l with
  | [] => Ret false
  | x :: l' => b ← pred x; if (b : bool) then Ret true else some pred l'
  end.

Fixpoint count (pred : JsVal -> Outcome bool) (l : list JsVal) : Outcome nat :=
  match l with
  | [] => Ret 0%nat
  | x :: l' => b ← pred x; n ← count pred l';
               Ret (if (b : bool) then S n else n)
  end.

Definition field_is (k text : string) (log : JsVal) : Outcome bool :=
  v ← get log k; Ret (is_text v text).

Definition field_set (k : string) (log : JsVal) : Outcome bool :=
  v ← get log k; Ret (truthy v).

(** The double written 0.3. *)
Definition three_tenths : spec_float :=
  S754_finite false 5404319552844595 (-54).

(** identifyBlockers (lines 3497-3536). *)
Definition identifyBlockers (w : World) (userId : string)
  : Outcome (list Blocker) :=
  let logs := default [] (logs w !! userId) in
  invited ← some (field_is "event" "team_invited") logs;
  created ← some (field_is "event" "project_created") logs;
  connected ← some (field_is "event" "integration_connected") logs;
  completed ← some (field_is "event" "profile_completed") logs;
  failed ← count (field_is "status" "failed") logs;
  opened ← count (field_set "opened_at") logs;
  emails ← count (field_is "type" "email") logs;
  let low :=
    Num.gt (Num.of_Z (Z.of_nat emails)) (Num.of_Z 0)
    && Num.lt (Num.div (Num.of_Z (Z.of_nat opened)) (Num.of_Z (Z.of_nat emails)))
              three_tenths in
  let found :=
    ((if (invited : bool) then [] else [NoTeamInvited])
     ++ (if (created : bool) then [] else [NoProjectCreated])
     ++ (if (connected : bool) then [] else [NoIntegrationConnected])
     ++ (if (completed : bool) then [] else [ProfileIncomplete])
     ++ (if (0 <? failed)%nat then [FailedActions failed] else [])
     ++ (if low then [LowEmailEngagement] else []))%list in
  Ret (if (0 <? length found)%nat then found else [NoSpecificBlockers]).

(** sendSlackAlert (lines 3394-3495). *)
Definition sendSlackAlert (w : World) (userId : string)
    (profile : gmap string JsVal) : World * Outcome unit :=
  match identifyBlockers w userId with
  | Ret found =>
      (with_sent w (sent w ++ [{| about := userId; snapshot := profile;
                                  blockers := found |}])%list,
       Ret tt)
  | Throws e => (w, Throws e)
  | Unmodelled => (w, Unmodelled)
  end.

(** markAsEscalated (lines 3572-3581).  The argument of the merge is
    evaluated first; it reads [profile], which is not a parameter or a
    local of this method and is not declared by the module. *)
Definition markAsEscalated (iso_now : string) (w : World) (userId : string)
  : World * Outcome unit :=
  match (profile ← free_identifier w "profile";
         previous ← get profile "escalation_count";
         plus_one (or_else previous (num 0))) with
  | Ret escalation_count =>
      (profiles_merge w userId
         (<["escalated" := JTrue]>
         (<["escalated_at" := JStr iso_now]>
         (<["escalation_count" := escalation_count]> ∅))),
       Ret tt)
  | Throws e => (w, Throws e)
  | Unmodelled => (w, Unmodelled)
  end.

(** The escalation criteria of lines 3380-3384. *)
Definition shouldEscalate (profile : JsVal) : Outcome bool :=
  if negb (is_text (get_opt profile "plan") "enterprise") then Ret false else
  if is_text (get_opt profile "onboarding_status") "completed" then Ret false
  else
  days ← to_number (get_opt profile "days_since_signup");
  if negb (Num.gt days (Num.of_Z 3)) then Ret false else
  Ret (negb (truthy (get_opt profile "escalated"))).

(** checkAndEscalate (lines 3376-3392). *)
Definition checkAndEscalate (iso_now : string) (w : World) (userId : string)
  : World * Outcome bool :=
  let profile := profiles_get w userId in
  match shouldEscalate profile with
  | Ret true =>
      match sendSlackAlert w userId (own_props profile) with
      | (w1, Ret _) =>
          match markAsEscalated iso_now w1 userId with
          | (w2, Ret _) => (w2, Ret true)
          | (w2, Throws e) => (w2, Throws e)
          | (w2, Unmodelled) => (w2, Unmodelled)
          end
      | (w1, Throws e) => (w1, Throws e)
      | (w1, Unmodelled) => (w1, Unmodelled)
      end
  | other => (w, other)
  end.

(** *** Scenario *)

(** An enterprise account, five days after signup, onboarding unfinished,
    never escalated; nothing defines a global [profile]. *)
Definition stuck_profile : gmap string JsVal :=
  <["plan" := JStr "enterprise"]>
  (<["onboarding_status" := JStr "in_progress"]>
  (<["days_since_signup" := num 5]>
  (<["company" := JStr "Acme"]> ∅))).

Definition stuck_world : World :=
  {| profiles := {[ "acme-admin" := stuck_profile ]};
     logs := ∅;
     sent := [];
     global_object := ∅ |}.

End Escalation.

(** * slack_escalation.js: the other methods of the class *)

Module EscalationMethods.
Import Js Escalation.

(** The clock the class reads and the Date constructor: the time value it
    gives for an argument, [None] for an Invalid Date. *)
Record Clock := {
  now : Z;
  Date_of : JsVal -> option Z
}.

(** The double written 1.5. *)
Definition one_and_a_half : spec_float := Num.div (Num.of_Z 3) (Num.of_Z 2).

(** Math.round: the integer nearest to [x], the larger one at a tie; a
    result of zero keeps the sign of [x]. *)
Definition round (x : spec_float) : spec_float :=
  match x with
  | S754_finite s m e =>
      if 0 <=? e then x
      else
        let n := if s then Z.neg m else Z.pos m in
        let r := (2 * n + 2 ^ (- e)) / 2 ^ (1 - e) in
        if (r =? 0) && s then S754_zero true else Num.of_Z r
  | _ => x
  end.

(** [new Date() - new Date(v)]: the difference of two time values is
    rounded once, as a subtraction of doubles is; NaN for an Invalid
    Date. *)
Definition elapsed_since (C : Clock) (v : JsVal) : spec_float :=
  match Date_of C v with
  | Some t => Num.of_Z (now C - t)
  | None => Num.NaN
  end.

(** calculateRiskScore (lines 3538-3557). *)
Definition calculateRiskScore (C : Clock) (profile : JsVal)
  : Outcome spec_float :=
  signup ← get profile "days_since_signup";
  days ← to_number signup;
  let score := Num.of_Z 0 in
  let score :=
    if Num.gt days (Num.of_Z 7) then Num.add score (Num.of_Z 3)
    else if Num.gt days (Num.of_Z 3) then Num.add score (Num.of_Z 2)
    else score in
  let last_login := get_opt profile "last_login" in
  let score :=
    if negb (truthy last_login) then Num.add score (Num.of_Z 3)
    else if Num.gt (elapsed_since C last_login) (Num.of_Z (72 * 60 * 60 * 1000))
    then Num.add score (Num.of_Z 2)
    else score in
  progress ← to_number (get_opt profile "onboarding_progress");
  let score :=
    if Num.lt progress (Num.of_Z 20) then Num.add score (Num.of_Z 3)
    else if Num.lt progress (Num.of_Z 50) then Num.add score (Num.of_Z 1)
    else score in
  value ← to_number (get_opt profile "account_value");
  let score :=
    if Num.gt value (Num.of_Z 100000)
    then Num.min (Num.mul score one_and_a_half) (Num.of_Z 10)
    else score in
  Ret (round score).

(** getEnterpriseUsers (lines 3593-3597), as the class has it: a
    placeholder that returns no user. *)
Definition getEnterpriseUsers : list JsVal := [].

(** The loop of scheduleEscalationChecks (lines 3584-3591) over the users
    that [this.getEnterpriseUsers()] resolves to: each is checked in
    turn, and a check that rejects ends the loop. *)
Fixpoint scheduleEscalationChecks (iso_now : string) (w : World)
    (enterpriseUsers : list JsVal) : World * Outcome unit :=
  match enterpriseUsers with
  | [] => (w, Ret tt)
  | user :: rest =>
      match get user "id" with
      | Ret (JStr id) =>
          match checkAndEscalate iso_now w id with
          | (w1, Ret _) => scheduleEscalationChecks iso_now w1 rest
          | (w1, Throws e) => (w1, Throws e)
          | (w1, Unmodelled) => (w1, Unmodelled)
          end
      | Ret _ => (w, Unmodelled)
      | Throws e => (w, Throws e)
      | Unmodelled => (w, Unmodelled)
      end
  end.

(** *** Vocabulary of the statements and scenario *)

(** A user whose check sends nothing: the profile stored under its id does
    not meet the criteria. *)
Definition passed_over (w : World) (user : JsVal) : Prop :=
  exists id,
    get user "id" = Ret (JStr id)
    /\ shouldEscalate (profiles_get w id) = Ret false.

(** A clock at the epoch with a Date constructor that accepts nothing. *)
Definition epoch_clock : Clock := {| now := 0; Date_of := fun _ => None |}.

(** A profile that is not eligible for escalation. *)
Definition free_profile : gmap string JsVal :=
  <["plan" := JStr "free"]> (<["days_since_signup" := num 9]> ∅).

(** Three accounts: one on the free plan and two stuck enterprise ones. *)
Definition three_accounts : World :=
  {| profiles := <["frank" := free_profile]>
                   (<["acme-admin" := stuck_profile]>
                   (<["globex-admin" := stuck_profile]> ∅));
     logs := ∅;
     sent := [];
     global_object := ∅ |}.

Definition user_of (id : string) : JsVal := JObj {[ "id" := JStr id ]}.

End EscalationMethods.

(** * webhook_handler.js *)

(** ** SHA-256 and HMAC, as [crypto.createHmac('sha256', key)] computes them *)

Module Sha256.

(** Words are integers below 2^32; bytes are integers below 256. *)
Definition w32 (x : Z) : Z := x mod 2 ^ 32.
Definition rotr (n x : Z) : Z := Z.lor (Z.shiftr x n) (w32 (Z.shiftl x (32 - n))).
Definition Ch (x y z : Z) : Z :=
  Z.lxor (Z.land x y) (Z.land (Z.lxor x (2 ^ 32 - 1)) z).
Definition Maj (x y z : Z) : Z :=
  Z.lxor (Z.lxor (Z.land x y) (Z.land x z)) (Z.land y z).
Definition Sigma0 (x : Z) : Z := Z.lxor (Z.lxor (rotr 2 x) (rotr 13 x)) (rotr 22 x).
Definition Sigma1 (x : Z) : Z := Z.lxor (Z.lxor (rotr 6 x) (rotr 11 x)) (rotr 25 x).
Definition sigma0 (x : Z) : Z := Z.lxor (Z.lxor (rotr 7 x) (rotr 18 x)) (Z.shiftr x 3).
Definition sigma1 (x : Z) : Z := Z.lxor (Z.lxor (rotr 17 x) (rotr 19 x)) (Z.shiftr x 10).

(** The constants of the standard are the first 32 bits of the fractional
    parts of the cube roots (round constants) and square roots (initial
    hash value) of the first primes. *)
Definition is_prime (n : Z) : bool :=
  forallb (fun d => negb (n mod Z.of_nat d =? 0)) (seq 2 (Z.to_nat n - 2)).

Definition primes_below (n : nat) : list Z :=
  List.filter is_prime (Z.of_nat <$> seq 2 (n - 2)).

(** The integer cube root of [n], bit by bit from [bits] down. *)
Fixpoint root3 (bits : nat) (n r : Z) : Z :=
  match bits with
  | O => r
  | S b =>
      let c := r + 2 ^ Z.of_nat b in
      if c * c * c <=? n then root3 b n c else root3 b n r
  end.

Definition K : list Z :=
  (fun p => w32 (root3 40 (p * 2 ^ 96) 0)) <$> primes_below 312.

Definition H0 : list Z :=
  (fun p => w32 (Z.sqrt (p * 2 ^ 64))) <$> primes_below 20.

(** Big-endian bytes of a word of [n] bytes. *)
Fixpoint be_bytes (n : nat) (x : Z) : list Z :=
  match n with
  | O => []
  | S k => (Z.shiftr x (8 * Z.of_nat k)) mod 256 :: be_bytes k x
  end.

Definition be_word (bs : list Z) : Z :=
  fold_left (fun acc b => acc * 256 + b) bs 0.

(** The message followed by 0x80, zeros, and its length in bits on 8
    bytes, a multiple of 64 bytes in all. *)
Definition pad (msg : list Z) : list Z :=
  let len := Z.of_nat (length msg) in
  let zeros := Z.to_nat ((55 - len) mod 64) in
  (msg ++ [128] ++ repeat 0 zeros ++ be_bytes 8 (8 * len))%list.

Fixpoint chunks (fuel : nat) (size : nat) (l : list Z) : list (list Z) :=
  match fuel, l with
  | O, _ | _, [] => []
  | S f, _ => take size l :: chunks f size (drop size l)
  end.

(** The message schedule, most recent word first. *)
Fixpoint extend (n : nat) (rev_w : list Z) : list Z :=
  match n with
  | O => rev_w
  | S k =>
      let at_ i := nth i rev_w 0 in
      extend k (w32 (sigma1 (at_ 1%nat) + at_ 6%nat + sigma0 (at_ 14%nat) + at_ 15%nat)
                :: rev_w)
  end.

Definition schedule (block : list Z) : list Z :=
  rev (extend 48 (rev (be_word <$> chunks 16 4 block))).

Definition round (st : list Z) (kw : Z * Z) : list Z :=
  match st with
  | [a; b; c; d; e; f; g; h] =>
      let t1 := h + Sigma1 e + Ch e f g + fst kw + snd kw in
      let t2 := Sigma0 a + Maj a b c in
      [w32 (t1 + t2); a; b; c; w32 (d + t1); e; f; g]
  | _ => st
  end.

Definition compress (h : list Z) (block : list Z) : list Z :=
  zip_with (fun x y => w32 (x + y)) h
           (fold_left round (zip K (schedule block)) h).

Definition digest (msg : list Z) : list Z :=
  let p := pad msg in
  concat (be_bytes 4 <$> fold_left compress (chunks (length p) 64 p) H0).

Definition block_size : nat := 64.

(** HMAC with SHA-256. *)
Definition hmac (key msg : list Z) : list Z :=
  let key := if (block_size <? length key)%nat then digest key else key in
  let key := (key ++ repeat 0 (block_size - length key))%list in
  digest ((Z.lxor 0x5c <$> key) ++ digest ((Z.lxor 0x36 <$> key) ++ msg))%list.

End Sha256.

(** [digest('hex')]: two lowercase digits a byte. *)
Definition hex_digit (n : Z) : ascii :=
  ascii_of_N (Z.to_N (if n <? 10 then 48 + n else 87 + n)).
Fixpoint hex (bs : list Z) : string :=
  match bs with
  | [] => EmptyString
  | b :: bs' => String (hex_digit (b / 16)) (String (hex_digit (b mod 16)) (hex bs'))
  end.

(** The UTF-8 bytes of a text whose code units are below 256. *)
Definition utf8_char (c : ascii) : list Z :=
  let n := Z.of_N (N_of_ascii c) in
  if n <? 128 then [n] else [Z.lor 192 (Z.shiftr n 6); Z.lor 128 (Z.land n 63)].
Fixpoint utf8 (s : string) : list Z :=
  match s with
  | EmptyString => []
  | String c s' => (utf8_char c ++ utf8 s')%list
  end.


(** A byte. *)
Definition is_byte (b : Z) : Prop := 0 <= b < 256.

(** Every character. *)
Definition all_ascii : list ascii := ascii_of_nat <$> seq 0 256.

(** Two encodings are either of the same character or differ within their
    common length. *)
Definition apart (c1 c2 : ascii) : bool :=
  let k := Nat.min (length (utf8_char c1)) (length (utf8_char c2)) in
  bool_decide (c1 = c2)
  || negb (bool_decide (take k (utf8_char c1) = take k (utf8_char c2))).

(** ** The handler *)

Module Webhook.

(** Values of a parsed request body and of profile attributes.  An object
    is the list of its properties in the order the runtime enumerates
    them, which is the order JSON.stringify writes them in. *)
Inductive Value :=
| VUndef
| VNull
| VBool (b : bool)
| VNum (x : spec_float)
| VStr (s : string)
| VArr (items : list Value)
| VObj (fields : list (string * Value)).

Definition VTrue : Value := VBool true.
Definition VFalse : Value := VBool false.
Definition vnum (n : Z) : Value := VNum (Num.of_Z n).

Definition truthy (v : Value) : bool :=
  match v with
  | VUndef | VNull => false
  | VBool b => b
  | VNum x => negb (Num.is_zero x || Num.is_nan x)
  | VStr s => negb (String.eqb s "")
  | VArr _ | VObj _ => true
  end.

Definition or_else (v w : Value) : Value := if truthy v then v else w.

Definition nullish (v : Value) : bool :=
  match v with VUndef | VNull => true | _ => false end.

Fixpoint assoc (k : string) (fields : list (string * Value)) : option Value :=
  match fields with
  | [] => None
  | (k', v) :: rest => if String.eqb k k' then Some v else assoc k rest
  end.

(** [v.k] on a value that is not undefined or null, for the property
    names this file reads. *)
Definition field (v : Value) (k : string) : Value :=
  match v with
  | VObj fields => default VUndef (assoc k fields)
  | VArr items =>
      if String.eqb k "length" then vnum (Z.of_nat (length items)) else VUndef
  | VStr s =>
      if String.eqb k "length" then vnum (Z.of_nat (String.length s)) else VUndef
  | _ => VUndef
  end.

(** [v.k], and the destructuring [const { k, ... } = v]: a TypeError on
    undefined and null. *)
Definition prop (v : Value) (k : string) : Outcome Value :=
  if nullish v then Throws TypeError else Ret (field v k).

(** [v === "text"]. *)
Definition is_text (v : Value) (text : string) : bool :=
  match v with VStr s => String.eqb s text | _ => false end.

(** Number::toString on NaN, the infinities and the integers below 2^53 in
    magnitude.  Number::toString writes the shortest digits that read back
    as the same double; up to 2^53 neighbouring doubles are at most 1 apart,
    so these are the digits of the integer itself.  Above 2^53 they are
    fewer than the digits of the integer (the double 1234567890123456768
    is written 1234567890123456800), and a fraction needs the digits of a
    shortest decimal: both are left out of the model. *)
Definition number_text (x : spec_float) : Outcome string :=
  match x with
  | S754_nan => Ret "NaN"
  | S754_infinity s => Ret (if s then "-Infinity" else "Infinity")
  | _ =>
      match Num.integer x with
      | Some n => if Z.abs n <? 2 ^ 53 then Ret (pretty n) else Unmodelled
      | None => Unmodelled
      end
  end.

(** ToString, as a template literal applies it. *)
Definition to_text (v : Value) : Outcome string :=
  match v with
  | VUndef => Ret "undefined"
  | VNull => Ret "null"
  | VBool b => Ret (if b then "true" else "false")
  | VNum x => number_text x
  | VStr s => Ret s
  | VArr _ | VObj _ => Unmodelled
  end.

(** ToNumber. *)
Definition to_number (v : Value) : Outcome spec_float :=
  match v with
  | VUndef => Ret Num.NaN
  | VNull => Ret (Num.of_Z 0)
  | VBool b => Ret (Num.of_Z (if b then 1 else 0))
  | VNum x => Ret x
  | VStr s => Number_of_text s
  | VArr _ | VObj _ => Unmodelled
  end.

(** [v + 1]. *)
Definition plus_one (v : Value) : Outcome Value :=
  match v with
  | VStr s => Ret (VStr (s ++ "1"))
  | _ => x ← to_number v; Ret (VNum (Num.add x (Num.of_Z 1)))
  end.

(** *** JSON.stringify *)

Definition dquote : string := String (ascii_of_N 34) EmptyString.
Definition backslash : string := String (ascii_of_N 92) EmptyString.

Definition escape_char (c : ascii) : string :=
  let n := Z.of_N (N_of_ascii c) in
  if n =? 34 then backslash ++ dquote
  else if n =? 92 then backslash ++ backslash
  else if n =? 8 then backslash ++ "b"
  else if n =? 12 then backslash ++ "f"
  else if n =? 10 then backslash ++ "n"
  else if n =? 13 then backslash ++ "r"
  else if n =? 9 then backslash ++ "t"
  else if n <? 32 then backslash ++ "u00" ++ hex [n]
  else String c EmptyString.

Fixpoint escape (s : string) : string :=
  match s with
  | EmptyString => EmptyString
  | String c s' => escape_char c ++ escape s'
  end.

Definition quote (s : string) : string := dquote ++ escape s ++ dquote.

Fixpoint join (sep : string) (parts : list string) : string :=
  match parts with
  | [] => EmptyString
  | [x] => x
  | x :: rest => x ++ sep ++ join sep rest
  end.

(** The text JSON.stringify returns, or [None] when it returns undefined.
    An undefined property is left out and an undefined array element is
    written null. *)
Fixpoint stringify (v : Value) : Outcome (option string) :=
  match v with
  | VUndef => Ret None
  | VNull => Ret (Some "null")
  | VBool b => Ret (Some (if b then "true" else "false"))
  | VNum x =>
      match x with
      | S754_nan | S754_infinity _ => Ret (Some "null")
      | _ => t ← number_text x; Ret (Some t)
      end
  | VStr s => Ret (Some (quote s))
  | VArr items =>
      parts ← (fix each (l : list Value) : Outcome (list string) :=
                 match l with
                 | [] => Ret []
                 | x :: rest =>
                     t ← stringify x; ts ← each rest;
                     Ret (default "null" t :: ts)
                 end) items;
      Ret (Some ("[" ++ join "," parts ++ "]"))
  | VObj fields =>
      parts ← (fix each (l : list (string * Value)) : Outcome (list string) :=
                 match l with
                 | [] => Ret []
                 | (k, x) :: rest =>
                     t ← stringify x; ts ← each rest;
                     Ret (match t with
                          | Some t => (quote k ++ ":" ++ t) :: ts
                          | None => ts
                          end)
                 end) fields;
      Ret (Some ("{" ++ join "," parts ++ "}"))
  end.

(** *** Signature check *)

(** verifyWebhookSignature (lines 14-24).  An undefined key, payload or
    signature is refused by [createHmac], [update] and [Buffer.from] with a
    TypeError, and [timingSafeEqual] throws a RangeError when its two
    buffers differ in length. *)
Definition verifyWebhookSignature (payload signature secret : option string)
  : Outcome bool :=
  match secret, payload, signature with
  | None, _, _ => Throws TypeError
  | Some _, None, _ => Throws TypeError
  | Some key, Some text, None => Throws TypeError
  | Some key, Some text, Some given =>
      let expectedSignature := hex (Sha256.hmac (utf8 key) (utf8 text)) in
      let a := utf8 given in
      let b := utf8 expectedSignature in
      if (length a =? length b)%nat then Ret (bool_decide (a = b))
      else Throws RangeError
  end.

(** *** The world the handlers act on *)

(** What the runtime provides: the clock, the Date constructor (the time
    value it gives for an argument, [None] for an Invalid Date) and the
    environment variables read by the file. *)
Record Env := {
  now : Z;
  iso_now : string;
  Date_of : Value -> option Z;
  webhook_secret : option string;
  slack_token : Value
}.

Inductive Effect :=
| ConsoleLog (line : string) (arg : Value)
| ConsoleError (line : string) (arg : Value)
| CourierSend (message : Value)
| AutomationInvoke (automation : string) (user_id : Value)
| MessageRetry (messageId : Value).

(** A callback handed to setTimeout, with the variables it closes over. *)
Inductive Timer :=
| RetryTimer (delay : Value) (messageId userId retryCount : Value)
| FollowUpTimer (delay : Z) (userId : Value) (nextTemplate : string).

(** Profiles by recipient, the calls made so far (oldest first) and the
    timers that have not fired yet (oldest first). *)
Record World := {
  profiles : gmap string (gmap string Value);
  effects : list Effect;
  timers : list Timer
}.

(** A computation that acts on the world; what it did before throwing
    stays done. *)
Record M (A : Type) := Run { run : World -> World * Outcome A }.
Arguments Run {A} _.
Arguments run {A} _ _.

#[global] Instance M_ret : MRet M := fun A a => Run (fun w => (w, Ret a)).
#[global] Instance M_bind : MBind M := fun A B k c =>
  Run (fun w =>
         match run c w with
         | (w1, Ret a) => run (k a) w1
         | (w1, Throws e) => (w1, Throws e)
         | (w1, Unmodelled) => (w1, Unmodelled)
         end).

Definition lift {A} (o : Outcome A) : M A := Run (fun w => (w, o)).

Definition log_to (w : World) (es : list Effect) : World :=
  {| profiles := profiles w; effects := (effects w ++ es)%list;
     timers := timers w |}.

Definition with_timers (w : World) (ts : list Timer) : World :=
  {| profiles := profiles w; effects := effects w; timers := ts |}.

Definition with_profile (w : World) (id : string) (p : gmap string Value)
  : World :=
  {| profiles := <[id := p]> (profiles w); effects := effects w;
     timers := timers w |}.

Definition tell (e : Effect) : M unit :=
  Run (fun w => (log_to w [e], Ret tt)).

Definition setTimeout (t : Timer) : M unit :=
  Run (fun w => (with_timers w (timers w ++ [t])%list, Ret tt)).

(** [courier.profiles.get], for a recipient named by a text. *)
Definition profiles_get (userId : Value) : M (gmap string Value) :=
  match userId with
  | VStr id => Run (fun w => (w, Ret (default ∅ (profiles w !! id))))
  | _ => lift Unmodelled
  end.

(** [courier.profiles.merge]: each attribute given overwrites the stored
    one; an attribute whose value is undefined does not survive the JSON
    encoding of the request. *)
Definition merge_attrs (attrs : list (string * Value))
    (old : gmap string Value) : gmap string Value :=
  foldl (fun m kv => match snd kv with
                     | VUndef => m
                     | v => <[fst kv := v]> m
                     end) old attrs.

Definition profiles_merge (userId : Value) (attrs : list (string * Value))
  : M unit :=
  match userId with
  | VStr id =>
      Run (fun w =>
             (with_profile w id
                (merge_attrs attrs (default ∅ (profiles w !! id))), Ret tt))
  | _ => lift Unmodelled
  end.

Definition courier_send (fields : list (string * Value)) : M unit :=
  tell (CourierSend (VObj fields)).

(** A lookup [table[key]] in an object literal of the file.  The names
    that every object inherits are left out of the model. *)
Definition inherited_names : list string :=
  [ "constructor"; "__proto__"; "hasOwnProperty"; "isPrototypeOf";
    "propertyIsEnumerable"; "toLocaleString"; "toString"; "valueOf";
    "__defineGetter__"; "__defineSetter__"; "__lookupGetter__";
    "__lookupSetter__" ].

Definition table_get {A} (table : list (string * A)) (key : Value)
  : Outcome (option A) :=
  k ← to_text key;
  if bool_decide (k ∈ inherited_names) then Unmodelled
  else Ret (snd <$> find (fun kv => String.eqb k (fst kv)) table).

(** [text.includes(needle)]. *)
Fixpoint contains (needle s : string) : bool :=
  String.prefix needle s
  || match s with
     | EmptyString => false
     | String _ s' => contains needle s'
     end.

(** [v.includes(needle)]: a text or an array has the method, anything
    else makes the call a TypeError. *)
Definition includes (v : Value) (needle : string) : Outcome bool :=
  match v with
  | VStr s => Ret (contains needle s)
  | VArr items => Ret (existsb (fun x => is_text x needle) items)
  | _ => Throws TypeError
  end.

(** *** Helper functions (lines 325-566) *)

Definition logAnalyticsEvent (event : string) (data : list (string * Value))
  : M unit :=
  tell (ConsoleLog ("Analytics: " ++ event) (VObj data)).

Definition updateDeliveryMetrics (channel provider : Value) (success : bool)
  : M unit := mret tt.

(** updateUserEngagement (lines 326-338). *)
Definition updateUserEngagement (E : Env) (userId : Value) (action : string)
    (channel : Value) : M unit :=
  ch ← lift (to_text channel);
  let engagementKey := ch ++ "_" ++ action ++ "_count" in
  profile ← profiles_get userId;
  let currentCount := or_else (default VUndef (profile !! engagementKey)) (vnum 0) in
  next ← lift (plus_one currentCount);
  profiles_merge userId
    [(engagementKey, next); ("last_engagement", VStr (iso_now E))].

Definition positive (v : Value) : Outcome bool :=
  x ← to_number v; Ret (Num.gt x (Num.of_Z 0)).

(** calculateEngagementScore (lines 340-358). *)
Definition calculateEngagementScore (E : Env) (userId : Value) : M Value :=
  profile ← profiles_get userId;
  let attr k := default VUndef (profile !! k) in
  opened ← lift (positive (attr "email_opened_count"));
  clicked ← lift (positive (attr "email_clicked_count"));
  read ← lift (positive (attr "inbox_read_count"));
  let score := (if (opened : bool) then 20 else 0)
               + (if (clicked : bool) then 30 else 0)
               + (if (read : bool) then 25 else 0) in
  let daysSinceEngagement :=
    match Date_of E (attr "last_engagement") with
    | Some t => Num.div (Num.of_Z (now E - t)) (Num.of_Z 86400000)
    | None => Num.NaN
    end in
  let score :=
    if Num.lt daysSinceEngagement (Num.of_Z 1) then score + 25
    else if Num.lt daysSinceEngagement (Num.of_Z 7) then score + 15
    else score in
  mret (vnum (Z.min score 100)).

Definition followUpMap : list (string * string) :=
  [ ("welcome-email", "onboarding-day-2");
    ("trial-halfway", "trial-urgency");
    ("feature-announcement", "feature-tutorial") ].

(** checkForFollowUpActions (lines 360-382). *)
Definition checkForFollowUpActions (userId template : Value) : M unit :=
  nextTemplate ← lift (table_get followUpMap template);
  match nextTemplate with
  | Some next => setTimeout (FollowUpTimer (24 * 60 * 60 * 1000) userId next)
  | None => mret tt
  end.

(** handleInvalidEmail (lines 384-406). *)
Definition handleInvalidEmail (userId : Value) : M unit :=
  _ ← profiles_merge userId
        [("email_valid", VFalse); ("email_bounce_type", VStr "hard")];
  profile ← profiles_get userId;
  if truthy (default VUndef (profile !! "phone_number"))
  then courier_send
         [("message",
           VObj [("to", VObj [("user_id", userId)]);
                 ("template", VStr "email-invalid-sms-fallback");
                 ("channels", VArr [VStr "sms"])])]
  else mret tt.

(** The backoff of scheduleRetry: 5 minutes, 30 minutes, 2 hours, 24
    hours, in milliseconds. *)
Definition retryDelays : list Z :=
  [ 5 * 60 * 1000; 30 * 60 * 1000; 2 * 60 * 60 * 1000; 24 * 60 * 60 * 1000 ].

(** [retryDelays[retryCount]]: the element at the index the count names,
    undefined when it names none. *)
Definition delay_at (retryCount : Value) : Outcome Value :=
  k ← to_text retryCount;
  Ret (default VUndef
         (vnum <$> (snd <$> find (fun kv => String.eqb k (fst kv))
                                 (imap (fun i d => (pretty i, d)) retryDelays)))).

Definition retry_key (messageId : Value) : Outcome string :=
  m ← to_text messageId; Ret ("message_" ++ m ++ "_retry_count").

(** scheduleRetry (lines 408-434). *)
Definition scheduleRetry (messageId userId : Value) : M unit :=
  profile ← profiles_get userId;
  key ← lift (retry_key messageId);
  let retryCount := or_else (default VUndef (profile !! key)) (vnum 0) in
  n ← lift (to_number retryCount);
  if Num.lt n (Num.of_Z (Z.of_nat (length retryDelays)))
  then delay ← lift (delay_at retryCount);
       setTimeout (RetryTimer delay messageId userId retryCount)
  else mret tt.

(** What a timer does when it fires. *)
Definition fire (t : Timer) : M unit :=
  match t with
  | RetryTimer _ messageId userId retryCount =>
      _ ← tell (MessageRetry messageId);
      key ← lift (retry_key messageId);
      next ← lift (plus_one retryCount);
      profiles_merge userId [(key, next)]
  | FollowUpTimer _ userId nextTemplate =>
      courier_send
        [("message",
          VObj [("to", VObj [("user_id", userId)]);
                ("template", VStr nextTemplate);
                ("data", VObj [("triggered_by", VStr "engagement")])])]
  end.

Definition milestones : list (string * (Z * string)) :=
  [ ("complete-profile", (10, "Profile Pro"));
    ("invite-team", (20, "Team Builder"));
    ("create-project", (30, "Project Master")) ].

(** checkMilestones (lines 436-457). *)
Definition checkMilestones (userId completedTask : Value) : M unit :=
  milestone ← lift (table_get milestones completedTask);
  match milestone with
  | Some (points, achievement) =>
      courier_send
        [("message",
          VObj [("to", VObj [("user_id", userId)]);
                ("template", VStr "milestone-achieved");
                ("data", VObj [("achievement", VStr achievement);
                               ("points", vnum points)]);
                ("channels", VArr [VStr "inbox"; VStr "email"])])]
  | None => mret tt
  end.

Definition automationSequence : list (string * string) :=
  [ ("onboarding-welcome-flow", "onboarding-activation-flow");
    ("trial-nurture-sequence", "trial-conversion-sequence");
    ("feature-education-flow", "advanced-features-flow") ].

(** triggerNextAutomation (lines 459-473). *)
Definition triggerNextAutomation (userId completedAutomation : Value) : M unit :=
  nextAutomation ← lift (table_get automationSequence completedAutomation);
  match nextAutomation with
  | Some next => tell (AutomationInvoke next userId)
  | None => mret tt
  end.

(** notifyOpsTeam (lines 488-506). *)
Definition notifyOpsTeam (E : Env) (id issue : Value) : M unit :=
  courier_send
    [("message",
      VObj [("to", VObj [("slack", VObj [("channel", VStr "#ops-alerts");
                                         ("access_token", slack_token E)])]);
            ("template", VStr "ops-alert");
            ("data", VObj [("alert_id", id); ("issue", issue);
                           ("timestamp", VStr (iso_now E))])])].

(** calculateProgress (lines 508-512). *)
Definition calculateProgress (profile : gmap string Value) : Value :=
  let tasks := ["complete-profile"; "invite-team"; "create-project"] in
  let done task :=
    truthy (default VUndef (profile !! ("task_" ++ task ++ "_completed"))) in
  let completed := Z.of_nat (length (filter (fun t => done t = true) tasks)) in
  VNum (Num.mul (Num.div (Num.of_Z completed)
                         (Num.of_Z (Z.of_nat (length tasks))))
                (Num.of_Z 100)).

Definition criticalAutomations : list string :=
  [ "enterprise-onboarding-flow"; "payment-processing-flow";
    "security-alert-flow" ].

Definition isCriticalAutomation (automationId : Value) : bool :=
  existsb (is_text automationId) criticalAutomations.

Definition attemptAutomationRecovery (userId automationId failedStep : Value)
  : M unit := mret tt.

(** handleUnsubscribe (lines 542-550). *)
Definition handleUnsubscribe (E : Env) (userId channel : Value) : M unit :=
  ch ← lift (to_text channel);
  profiles_merge userId
    [(ch ++ "_unsubscribed", VTrue);
     (ch ++ "_unsubscribed_at", VStr (iso_now E))].

(** adjustCommunicationStrategy (lines 552-566). *)
Definition adjustCommunicationStrategy (userId preferences : Value) : M unit :=
  _ ← lift (prop preferences "frequency");
  let strategy :=
    VObj [("frequency", or_else (field preferences "frequency") (VStr "normal"));
          ("channels", or_else (field preferences "channels")
                               (VArr [VStr "email"]));
          ("quiet_hours", or_else (field preferences "quiet_hours") VFalse)] in
  profiles_merge userId [("communication_strategy", strategy)].

(** *** Event handlers (lines 91-323) *)

(** The destructuring at the head of a handler throws on undefined and
    null data; the properties are then read with [field]. *)
Definition destructure (data : Value) : M unit :=
  if nullish data then lift (Throws TypeError) else mret tt.

Definition handleMessageSent (E : Env) (data : Value) : M unit :=
  _ ← destructure data;
  _ ← logAnalyticsEvent "message_sent"
        [("message_id", field data "messageId");
         ("user_id", field data "recipientId");
         ("template", field data "template");
         ("channel", field data "channel");
         ("timestamp", field data "timestamp")];
  updateUserEngagement E (field data "recipientId") "message_sent"
                       (field data "channel").

Definition handleMessageDelivered (data : Value) : M unit :=
  _ ← destructure data;
  _ ← logAnalyticsEvent "message_delivered"
        [("message_id", field data "messageId");
         ("user_id", field data "recipientId");
         ("channel", field data "channel");
         ("provider", field data "provider");
         ("timestamp", field data "timestamp")];
  updateDeliveryMetrics (field data "channel") (field data "provider") true.

Definition handleMessageOpened (E : Env) (data : Value) : M unit :=
  _ ← destructure data;
  let recipientId := field data "recipientId" in
  _ ← logAnalyticsEvent "message_opened"
        [("message_id", field data "messageId");
         ("user_id", recipientId);
         ("template", field data "template");
         ("channel", field data "channel");
         ("timestamp", field data "timestamp")];
  score ← calculateEngagementScore E recipientId;
  _ ← profiles_merge recipientId
        [("last_email_opened", field data "timestamp");
         ("email_engagement", VStr "active");
         ("engagement_score", score)];
  checkForFollowUpActions recipientId (field data "template").

Definition handleMessageClicked (data : Value) : M unit :=
  _ ← destructure data;
  let recipientId := field data "recipientId" in
  let link := field data "link" in
  _ ← logAnalyticsEvent "message_clicked"
        [("message_id", field data "messageId");
         ("user_id", recipientId);
         ("template", field data "template");
         ("clicked_link", link);
         ("timestamp", field data "timestamp")];
  _ ← profiles_merge recipientId
        [("last_click", field data "timestamp");
         ("clicked_links", VArr [link]);
         ("engagement_level", VStr "high")];
  pricing ← lift (includes link "/pricing");
  if (pricing : bool)
  then tell (AutomationInvoke "pricing-interest-nurture" recipientId)
  else
    demo ← lift (includes link "/demo");
    if (demo : bool)
    then tell (AutomationInvoke "demo-scheduling-flow" recipientId)
    else mret tt.

(** handleMessageUndeliverable (lines 184-220). *)
Definition handleMessageUndeliverable (E : Env) (data : Value) : M unit :=
  _ ← destructure data;
  let messageId := field data "messageId" in
  let recipientId := field data "recipientId" in
  let channel := field data "channel" in
  let reason := field data "reason" in
  let provider := field data "provider" in
  m ← lift (to_text messageId);
  _ ← tell (ConsoleError ("Message undeliverable: " ++ m) reason);
  _ ← logAnalyticsEvent "message_failed"
        [("message_id", messageId); ("user_id", recipientId);
         ("channel", channel); ("reason", reason); ("provider", provider)];
  _ ← (if is_text reason "invalid_email" || is_text reason "hard_bounce"
       then handleInvalidEmail recipientId
       else if is_text reason "soft_bounce" || is_text reason "temporary_failure"
       then scheduleRetry messageId recipientId
       else if is_text reason "unsubscribed"
       then handleUnsubscribe E recipientId channel
       else notifyOpsTeam E messageId reason);
  updateDeliveryMetrics channel provider false.

Definition handleInboxRead (data : Value) : M unit :=
  _ ← destructure data;
  let recipientId := field data "recipientId" in
  let timestamp := field data "timestamp" in
  _ ← logAnalyticsEvent "inbox_task_completed"
        [("message_id", field data "messageId");
         ("user_id", recipientId);
         ("timestamp", timestamp)];
  profile ← profiles_get recipientId;
  let taskId := field (field data "metadata") "task_id" in
  if truthy taskId then
    t ← lift (to_text taskId);
    _ ← profiles_merge recipientId
          [("task_" ++ t ++ "_completed", VTrue);
           ("task_" ++ t ++ "_completed_at", timestamp);
           ("onboarding_progress", calculateProgress profile)];
    checkMilestones recipientId taskId
  else mret tt.

Definition handleInboxArchived (data : Value) : M unit :=
  _ ← destructure data;
  logAnalyticsEvent "inbox_message_archived"
    [("message_id", field data "messageId");
     ("user_id", field data "recipientId");
     ("timestamp", field data "timestamp")].

Definition handlePreferencesUpdated (data : Value) : M unit :=
  _ ← destructure data;
  let recipientId := field data "recipientId" in
  let preferences := field data "preferences" in
  let timestamp := field data "timestamp" in
  _ ← logAnalyticsEvent "preferences_updated"
        [("user_id", recipientId); ("preferences", preferences);
         ("timestamp", timestamp)];
  _ ← profiles_merge recipientId
        [("notification_preferences", preferences);
         ("preferences_updated_at", timestamp)];
  adjustCommunicationStrategy recipientId preferences.

Definition handleAutomationCompleted (data : Value) : M unit :=
  _ ← destructure data;
  let automationId := field data "automationId" in
  let recipientId := field data "recipientId" in
  steps ← lift (prop (field data "completedSteps") "length");
  _ ← logAnalyticsEvent "automation_completed"
        [("automation_id", automationId); ("user_id", recipientId);
         ("run_id", field data "runId"); ("steps_completed", steps)];
  triggerNextAutomation recipientId automationId.

Definition handleAutomationFailed (E : Env) (data : Value) : M unit :=
  _ ← destructure data;
  let automationId := field data "automationId" in
  let recipientId := field data "recipientId" in
  let error := field data "error" in
  let failedStep := field data "failedStep" in
  a ← lift (to_text automationId);
  _ ← tell (ConsoleError ("Automation failed: " ++ a) error);
  _ ← logAnalyticsEvent "automation_failed"
        [("automation_id", automationId); ("user_id", recipientId);
         ("run_id", field data "runId"); ("error", error);
         ("failed_step", failedStep)];
  _ ← (if isCriticalAutomation automationId
       then notifyOpsTeam E automationId error
       else mret tt);
  attemptAutomationRecovery recipientId automationId failedStep.

(** *** The route (lines 27-89) *)

(** The switch on the event type. *)
Definition dispatch (E : Env) (type data : Value) : M unit :=
  if is_text type "message:sent" then handleMessageSent E data
  else if is_text type "message:delivered" then handleMessageDelivered data
  else if is_text type "message:opened" then handleMessageOpened E data
  else if is_text type "message:clicked" then handleMessageClicked data
  else if is_text type "message:undeliverable"
  then handleMessageUndeliverable E data
  else if is_text type "inbox:read" then handleInboxRead data
  else if is_text type "inbox:archived" then handleInboxArchived data
  else if is_text type "preferences:updated" then handlePreferencesUpdated data
  else if is_text type "automation:completed"
  then handleAutomationCompleted data
  else if is_text type "automation:failed" then handleAutomationFailed E data
  else t ← lift (to_text type);
       tell (ConsoleLog ("Unhandled webhook type: " ++ t) VUndef).

(** A request as the route sees it: the x-courier-signature header and
    the body, already parsed by the time the route runs. *)
Record Request := {
  signature : option string;
  body : Value
}.

(** How a request ends: a response, or the handler's promise rejecting
    with nothing sent. *)
Inductive Reply :=
| Responded (status : Z) (json : Value)
| Rejected (e : JsError)
| OutOfModel.

Definition error_name (e : JsError) : Value :=
  VStr match e with
       | TypeError => "TypeError"
       | RangeError => "RangeError"
       | ReferenceError _ => "ReferenceError"
       | ApiError => "Error"
       end.

(** router.post('/webhooks/courier', ...). *)
Definition post_webhooks_courier (E : Env) (req : Request) (w : World)
  : World * Reply :=
  match payload ← stringify (body req);
        verifyWebhookSignature payload (signature req) (webhook_secret E) with
  | Ret false =>
      (w, Responded 401 (VObj [("error", VStr "Invalid signature")]))
  | Ret true =>
      match prop (body req) "type" with
      | Ret type =>
          match run (dispatch E type (field (body req) "data")) w with
          | (w1, Ret _) => (w1, Responded 200 (VObj [("received", VTrue)]))
          | (w1, Throws e) =>
              (fst (run (tell (ConsoleError "Webhook processing error:"
                                            (error_name e))) w1),
               Responded 500 (VObj [("error", VStr "Processing failed")]))
          | (w1, Unmodelled) => (w1, OutOfModel)
          end
      | Throws e => (w, Rejected e)
      | Unmodelled => (w, OutOfModel)
      end
  | Throws e => (w, Rejected e)
  | Unmodelled => (w, OutOfModel)
  end.

(** The pending timers fire, oldest first; a callback that throws is an
    unhandled rejection and does not stop the others. *)
Definition fire_all (w : World) : World :=
  foldl (fun w t => fst (run (fire t) w)) (with_timers w []) (timers w).

(** *** Vocabulary of the statements and scenarios *)

(** The stored attribute [key] of recipient [userId]. *)
Definition stored (w : World) (userId key : string) : option Value :=
  profiles w !! userId ≫= (.!! key).

Definition is_retry_of (messageId : string) (e : Effect) : bool :=
  match e with
  | MessageRetry (VStr m) => String.eqb m messageId
  | _ => false
  end.

(** How many times [courier.messages.retry] was called for a message. *)
Definition retries (messageId : string) (w : World) : nat :=
  length (List.filter (is_retry_of messageId) (effects w)).

Definition is_analytics (event : string) (e : Effect) : bool :=
  match e with
  | ConsoleLog line _ => String.eqb line ("Analytics: " ++ event)
  | _ => false
  end.

(** How many analytics entries of a kind were logged. *)
Definition analytics (event : string) (w : World) : nat :=
  length (List.filter (is_analytics event) (effects w)).

(** The data of a message:undeliverable event. *)
Definition undeliverable (messageId userId reason : string) : Value :=
  VObj [("messageId", VStr messageId); ("recipientId", VStr userId);
        ("channel", VStr "email"); ("reason", VStr reason);
        ("provider", VStr "sendgrid")].

(** One failure of a message followed by the firing of whatever retry it
    scheduled: the attempt fails, the event is handled, the timer runs. *)
Definition failure_round (E : Env) (data : Value) (w : World) : World :=
  fire_all (fst (run (handleMessageUndeliverable E data) w)).

(** Failures of a message handled one after the other while the retries
    they schedule are still waiting for their timers. *)
Definition failure_burst (n : nat) (E : Env) (data : Value) (w : World) : World :=
  Nat.iter n (fun w => fst (run (handleMessageUndeliverable E data) w)) w.

(** [profile[key] || 0]: the count that updateUserEngagement starts from,
    for a stored attribute [old]. *)
Definition currentCount (old : option Value) : Value :=
  or_else (default VUndef old) (vnum 0).

(** A count held in a profile: absent for 0, the number otherwise. *)
Definition count_attr (n : Z) : option Value :=
  if n =? 0 then None else Some (vnum n).

(** The profile attribute that counts the retries of a message. *)
Definition retry_count_key (m : string) : string :=
  "message_" ++ m ++ "_retry_count".

(** The profile attribute that counts the messages sent on a channel. *)
Definition sent_count_key (ch : string) : string := ch ++ "_message_sent_count".

(** What the handler logs for a failure before acting on its reason. *)
Definition failure_log (m u reason : string) : list Effect :=
  [ ConsoleError ("Message undeliverable: " ++ m) (VStr reason);
    ConsoleLog "Analytics: message_failed"
      (VObj [("message_id", VStr m); ("user_id", VStr u);
             ("channel", VStr "email"); ("reason", VStr reason);
             ("provider", VStr "sendgrid")]) ].

(** What handleMessageSent logs. *)
Definition sent_log (data : Value) : Effect :=
  ConsoleLog "Analytics: message_sent"
    (VObj [("message_id", field data "messageId");
           ("user_id", field data "recipientId");
           ("template", field data "template");
           ("channel", field data "channel");
           ("timestamp", field data "timestamp")]).

(** The signature of a request passes the check. *)
Definition accepted (E : Env) (req : Request) : Prop :=
  (payload ← stringify (body req);
   verifyWebhookSignature payload (signature req) (webhook_secret E)) = Ret true.

(** The request a sender that signs [JSON.stringify(body)] would send. *)
Definition signed (E : Env) (b : Value) : Request :=
  {| signature :=
       key ← webhook_secret E;
       match stringify b with
       | Ret (Some text) => Some (hex (Sha256.hmac (utf8 key) (utf8 text)))
       | _ => None
       end;
     body := b |}.

Definition test_env : Env :=
  {| now := 1767603600000;
     iso_now := "2026-01-05T09:00:00.000Z";
     Date_of := fun _ => None;
     webhook_secret := Some "whsec_test";
     slack_token := VStr "xoxb-test" |}.

Definition empty_world : World :=
  {| profiles := ∅; effects := []; timers := [] |}.

Definition sent_event : Value :=
  VObj [("id", VStr "evt_1");
        ("type", VStr "message:sent");
        ("data", VObj [("messageId", VStr "m1"); ("recipientId", VStr "u1");
                       ("template", VStr "welcome-email");
                       ("channel", VStr "email");
                       ("timestamp", VStr "2026-01-05T08:59:58.000Z")])].

(** The message:sent event ingested once and twice: the two replies, the
    counter after each and the analytics entries after each. *)
Definition replay : Reply * Reply * option Value * option Value * nat * nat :=
  let once := post_webhooks_courier test_env (signed test_env sent_event)
                                    empty_world in
  let twice := post_webhooks_courier test_env (signed test_env sent_event)
                                     (fst once) in
  (snd once, snd twice,
   stored (fst once) "u1" "email_message_sent_count",
   stored (fst twice) "u1" "email_message_sent_count",
   analytics "message_sent" (fst once),
   analytics "message_sent" (fst twice)).

(** A ping, as the sender wrote it (with a space after the colon) and as
    JSON.parse reads it. *)
Definition ping_raw : string :=
  "{" ++ dquote ++ "type" ++ dquote ++ ": " ++ dquote ++ "ping" ++ dquote ++ "}".
Definition ping_body : Value := VObj [("type", VStr "ping")].

End Webhook.

(** * webhook_handler.js: vocabulary for further statements *)

Module WebhookEvents.
Import Webhook.

(** The event types the switch of the route has a case for. *)
Definition handled_types : list string :=
  [ "message:sent"; "message:delivered"; "message:opened"; "message:clicked";
    "message:undeliverable"; "inbox:read"; "inbox:archived";
    "preferences:updated"; "automation:completed"; "automation:failed" ].

(** The failure reasons the switch of handleMessageUndeliverable has a
    case for. *)
Definition known_reasons : list string :=
  [ "invalid_email"; "hard_bounce"; "soft_bounce"; "temporary_failure";
    "unsubscribed" ].

(** What the catch block of the route logs for a TypeError. *)
Definition processing_error : Effect :=
  ConsoleError "Webhook processing error:" (VStr "TypeError").

(** The message handleInvalidEmail sends to a recipient with a phone
    number. *)
Definition sms_fallback (userId : string) : Effect :=
  CourierSend
    (VObj [("message",
            VObj [("to", VObj [("user_id", VStr userId)]);
                  ("template", VStr "email-invalid-sms-fallback");
                  ("channels", VArr [VStr "sms"])])]).

(** The message notifyOpsTeam sends. *)
Definition ops_alert (E : Env) (id issue : string) : Effect :=
  CourierSend
    (VObj [("message",
            VObj [("to", VObj [("slack", VObj [("channel", VStr "#ops-alerts");
                                               ("access_token", slack_token E)])]);
                  ("template", VStr "ops-alert");
                  ("data", VObj [("alert_id", VStr id); ("issue", VStr issue);
                                 ("timestamp", VStr (iso_now E))])])]).

(** The data of an inbox:read event that completes a task. *)
Definition task_read (userId task timestamp : string) : Value :=
  VObj [("messageId", VStr "m1"); ("recipientId", VStr userId);
        ("timestamp", VStr timestamp);
        ("metadata", VObj [("task_id", VStr task)])].

(** A message:clicked event whose data has no link. *)
Definition click_without_link : Value :=
  VObj [("id", VStr "evt_2");
        ("type", VStr "message:clicked");
        ("data", VObj [("messageId", VStr "m1"); ("recipientId", VStr "u1");
                       ("template", VStr "welcome-email");
                       ("timestamp", VStr "2026-01-05T08:59:58.000Z")])].

(** An event of a type the route has no case for, and a message:opened
    event with no data. *)
Definition ping_event : Value := VObj [("type", VStr "ping")].
Definition opened_without_data : Value := VObj [("type", VStr "message:opened")].

End WebhookEvents.

(** * Facts about the numbers *)

Module NumFacts.

Lemma check_below_spec n P :
  Num.check_below n P = true -> forall z, 0 <= z < Z.of_nat n -> P z = true.
Proof.
  induction n as [|k IH]; simpl; intros H z Hz; [lia|].
  apply andb_prop in H as [Hk Hrest].
  destruct (decide (z = Z.of_nat k)) as [->|Hne]; [exact Hk|].
  apply IH; [exact Hrest|lia].
Qed.

Lemma mul_compare a b p : 0 < p -> (a * p ?= b * p) = (a ?= b).
Proof.
  intros Hp. destruct (Z.compare_spec a b) as [->|Hlt|Hgt].
  - apply Z.compare_refl.
  - apply Z.compare_lt_iff. nia.
  - apply Z.compare_gt_iff. nia.
Qed.

(** On the grid, the order of doubles is the order of integers. *)
Lemma grid_compare x y p q :
  Num.grid x = Some p -> Num.grid y = Some q ->
  SFcompare x y = Some (p ?= q).
Proof.
  unfold Num.grid.
  destruct x as [sx|sx| |[] mx ex]; try discriminate;
    destruct y as [sy|sy| |[] my ey]; try discriminate.
  - intros [= <-] [= <-]. reflexivity.
  - destruct ((-52 <=? ey) && (2 ^ 52 <=? Z.pos my) && (Z.pos my <? 2 ^ 53)) eqn:Hy;
      [|discriminate].
    intros [= <-] [= <-]. cbn [SFcompare].
    assert (0 < 2 ^ (ey + 52)) by (apply Z.pow_pos_nonneg; lia).
    f_equal. symmetry. apply Z.compare_lt_iff. nia.
  - destruct ((-52 <=? ex) && (2 ^ 52 <=? Z.pos mx) && (Z.pos mx <? 2 ^ 53)) eqn:Hx;
      [|discriminate].
    intros [= <-] [= <-]. cbn [SFcompare].
    assert (0 < 2 ^ (ex + 52)) by (apply Z.pow_pos_nonneg; lia).
    f_equal. symmetry. apply Z.compare_gt_iff. nia.
  - destruct ((-52 <=? ex) && (2 ^ 52 <=? Z.pos mx) && (Z.pos mx <? 2 ^ 53)) eqn:Hx;
      [|discriminate].
    destruct ((-52 <=? ey) && (2 ^ 52 <=? Z.pos my) && (Z.pos my <? 2 ^ 53)) eqn:Hy;
      [|discriminate].
    intros [= <-] [= <-].
    apply andb_prop in Hx as [Hx Hx3]. apply andb_prop in Hx as [Hx1 Hx2].
    apply andb_prop in Hy as [Hy Hy3]. apply andb_prop in Hy as [Hy1 Hy2].
    apply Z.leb_le in Hx1, Hx2, Hy1, Hy2. apply Z.ltb_lt in Hx3, Hy3.
    cbn [SFcompare]. f_equal.
    assert (Hpow : forall a b, 0 <= a -> a < b -> 2 * 2 ^ a <= 2 ^ b).
    { intros a b Ha Hab. replace b with (Z.succ a + (b - Z.succ a)) by lia.
      rewrite Z.pow_add_r, Z.pow_succ_r by lia.
      assert (0 < 2 ^ (b - Z.succ a)) by (apply Z.pow_pos_nonneg; lia).
      assert (0 < 2 ^ a) by (apply Z.pow_pos_nonneg; lia). nia. }
    assert (0 < 2 ^ (ex + 52)) by (apply Z.pow_pos_nonneg; lia).
    assert (0 < 2 ^ (ey + 52)) by (apply Z.pow_pos_nonneg; lia).
    destruct (Z.compare_spec ex ey) as [->|Hlt|Hgt].
    + rewrite Pos.compare_cont_spec, mul_compare by lia.
      change (Z.pos mx ?= Z.pos my) with (Pos.compare mx my).
      destruct (Pos.compare mx my); reflexivity.
    + symmetry. apply Z.compare_lt_iff.
      specialize (Hpow (ex + 52) (ey + 52)). nia.
    + symmetry. apply Z.compare_gt_iff.
      specialize (Hpow (ey + 52) (ex + 52)). nia.
Qed.


(** Integers below [small] are on the grid at their own value. *)
Lemma of_Z_grid n :
  0 <= n < Num.small -> Num.grid (Num.of_Z n) = Some (n * 2 ^ 52).
Proof.
  intros Hn.
  assert (H : Num.check_below (Z.to_nat Num.small)
                (fun n => match Num.grid (Num.of_Z n) with
                          | Some z => z =? n * 2 ^ 52
                          | None => false
                          end)
              = true) by (vm_compute; reflexivity).
  eapply check_below_spec in H; [|rewrite Z2Nat.id; [exact Hn|discriminate]].
  destruct (Num.grid (Num.of_Z n)); [|discriminate].
  apply Z.eqb_eq in H. congruence.
Qed.

Lemma compare_of_Z a b :
  0 <= a < Num.small -> 0 <= b < Num.small ->
  SFcompare (Num.of_Z a) (Num.of_Z b) = Some (a ?= b).
Proof.
  intros Ha Hb.
  rewrite (grid_compare _ _ _ _ (of_Z_grid a Ha) (of_Z_grid b Hb)).
  f_equal. apply mul_compare. reflexivity.
Qed.

Lemma lt_of_Z a b :
  0 <= a < Num.small -> 0 <= b < Num.small ->
  Num.lt (Num.of_Z a) (Num.of_Z b) = (a <? b).
Proof.
  intros Ha Hb. unfold Num.lt, SFltb. rewrite compare_of_Z by assumption.
  unfold Z.ltb. destruct (a ?= b); reflexivity.
Qed.

Lemma gt_of_Z a b :
  0 <= a < Num.small -> 0 <= b < Num.small ->
  Num.gt (Num.of_Z a) (Num.of_Z b) = (b <? a).
Proof. intros Ha Hb. unfold Num.gt. apply (lt_of_Z b a); assumption. Qed.

Lemma ge_of_Z a b :
  0 <= a < Num.small -> 0 <= b < Num.small ->
  Num.ge (Num.of_Z a) (Num.of_Z b) = (b <=? a).
Proof.
  intros Ha Hb. unfold Num.ge, SFleb. rewrite compare_of_Z by assumption.
  unfold Z.leb. destruct (b ?= a); reflexivity.
Qed.

(** hours * 60 + minutes is computed without rounding. *)
Lemma minutes_exact h m :
  0 <= h < 100 -> 0 <= m < 100 ->
  Num.add (Num.mul (Num.of_Z h) (Num.of_Z 60)) (Num.of_Z m)
  = Num.of_Z (h * 60 + m).
Proof.
  intros Hh Hm.
  assert (H : Num.check_below 100%nat (fun h => Num.check_below 100%nat (fun m =>
                bool_decide
                  (Num.add (Num.mul (Num.of_Z h) (Num.of_Z 60)) (Num.of_Z m)
                   = Num.of_Z (h * 60 + m)))) = true)
    by (vm_compute; reflexivity).
  eapply check_below_spec in H; [|exact Hh]. cbv beta in H.
  eapply check_below_spec in H; [|exact Hm].
  apply bool_decide_eq_true in H. exact H.
Qed.

(** Swapping the operands of a comparison reverses its answer. *)
Lemma SFcompare_swap x y : SFcompare y x = CompOpp <$> SFcompare x y.
Proof.
  destruct x as [sx|sx| |sx mx ex], y as [sy|sy| |sy my ey];
    try reflexivity;
    try (destruct sx; reflexivity); try (destruct sy; reflexivity);
    try (destruct sx, sy; reflexivity).
  assert (Hm : Pos.compare_cont Eq my mx = CompOpp (Pos.compare_cont Eq mx my))
    by (symmetry; apply (Pos.compare_cont_antisym mx my Eq)).
  cbn [SFcompare fmap option_fmap option_map].
  destruct sx, sy; try reflexivity; f_equal;
    rewrite (Z.compare_antisym ex ey), Hm;
    destruct (ex ?= ey); cbn [CompOpp]; try reflexivity.
Qed.

(** Math.max(1, Math.min(100, x)) lies between 1 and 100 for every number
    x other than NaN. *)
Lemma clamp_in_range x :
  Num.is_nan x = false ->
  Num.in_range (Num.of_Z 1) (Num.clamp x) (Num.of_Z 100).
Proof.
  intros Hx. unfold Num.clamp, Num.in_range, Num.le, SFleb.
  assert (H100 : forall c, SFcompare (Num.of_Z 100) x = Some c ->
                           SFcompare x (Num.of_Z 100) = Some (CompOpp c)).
  { intros c Hc. rewrite SFcompare_swap, Hc. reflexivity. }
  unfold Num.min.
  destruct (SFcompare (Num.of_Z 100) x) as [[]|] eqn:Hc.
  - (* x = 100 *)
    destruct (Num.is_neg_zero x) eqn:Hz.
    + destruct x as [[]| | |]; discriminate.
    + split; vm_compute; reflexivity.
  - (* 100 < x *) split; vm_compute; reflexivity.
  - (* x < 100 *)
    specialize (H100 _ eq_refl). cbn [CompOpp] in H100.
    unfold Num.max.
    destruct (SFcompare (Num.of_Z 1) x) as [[]|] eqn:H1.
    + split; vm_compute; reflexivity.
    + rewrite H1, H100. split; reflexivity.
    + split; vm_compute; reflexivity.
    + destruct x; try discriminate; vm_compute in H1; discriminate.
  - destruct x; try discriminate; vm_compute in Hc; discriminate.
Qed.

Lemma clamp_nan : Num.clamp Num.NaN = Num.NaN.
Proof. reflexivity. Qed.

Lemma nan_out_of_range lo hi : ~ Num.in_range lo Num.NaN hi.
Proof.
  unfold Num.in_range, Num.le, SFleb. intros [_ H].
  cbn [SFcompare Num.NaN] in H. discriminate.
Qed.

End NumFacts.

(** * Facts about the preference manager *)

Module PrefsFacts.
Import Js Prefs NumFacts.

Ltac run_in H :=
  cbn [mbind Outcome_bind default from_option id own_props negb] in H.
Tactic Notation "run" := cbn [mbind Outcome_bind default from_option id own_props negb].
Tactic Notation "run" "in" hyp(H) := run_in H.

Lemma hour_minute_clock_text h m :
  0 <= h < 100 -> 0 <= m < 100 ->
  hour_minute (JStr (clock_text h m)) = Ret (Num.of_Z h, Num.of_Z m).
Proof.
  intros Hh Hm.
  assert (H : Num.check_below 100%nat (fun h => Num.check_below 100%nat (fun m =>
                bool_decide (hour_minute (JStr (clock_text h m))
                             = Ret (Num.of_Z h, Num.of_Z m)))) = true)
    by (vm_compute; reflexivity).
  eapply check_below_spec in H; [|exact Hh]. cbv beta in H.
  eapply check_below_spec in H; [|exact Hm].
  apply bool_decide_eq_true in H. exact H.
Qed.

Lemma user_clock_range E tz h mi :
  user_clock E tz = Ret (h, mi) -> 0 <= h < 24 /\ 0 <= mi < 60.
Proof.
  unfold user_clock. intros H.
  destruct tz as [| | | |name|]; try discriminate.
  - injection H as <- <-. split; apply Z.mod_pos_bound; lia.
  - destruct (zone_offset E name); [|discriminate].
    injection H as <- <-. split; apply Z.mod_pos_bound; lia.
Qed.

(** C1.  For an enabled window from start to end, given as hh:mm texts,
    and a wall clock showing t in the window's time zone, isQuietHours
    answers true exactly when t >= start or t < end if start > end, and
    when start <= t < end otherwise. *)
Theorem C1_quiet_hours_window
    (E : Env) (cfg : gmap string JsVal) (enabled : JsVal)
    (sh sm eh em h mi : Z) :
  cfg !! "enabled" = Some enabled -> truthy enabled = true ->
  cfg !! "start" = Some (JStr (clock_text sh sm)) ->
  cfg !! "end" = Some (JStr (clock_text eh em)) ->
  0 <= sh < 24 -> 0 <= sm < 60 -> 0 <= eh < 24 -> 0 <= em < 60 ->
  user_clock E (default JUndef (cfg !! "timezone")) = Ret (h, mi) ->
  let t := h * 60 + mi in
  let s := sh * 60 + sm in
  let e := eh * 60 + em in
  isQuietHours E (JObj cfg)
  = Ret (if e <? s then (s <=? t) || (t <? e) else (s <=? t) && (t <? e)).
Proof.
  intros Hen Htr Hs He Hsh Hsm Heh Hem Hclock t s e.
  destruct (user_clock_range _ _ _ _ Hclock) as [Hh Hmi].
  unfold isQuietHours, get. run.
  rewrite Hen, Hs, He. run. rewrite Htr. run.
  rewrite Hclock. run.
  rewrite !hour_minute_clock_text by lia. run.
  unfold minutes_of. cbn [fst snd].
  rewrite !minutes_exact by lia.
  fold t s e.
  assert (0 <= t < Num.small) by (unfold Num.small; lia).
  assert (0 <= s < Num.small) by (unfold Num.small; lia).
  assert (0 <= e < Num.small) by (unfold Num.small; lia).
  rewrite gt_of_Z, ge_of_Z, lt_of_Z by assumption.
  destruct (e <? s); reflexivity.
Qed.

(** The window 21:00 to 09:00 of the default record: quiet at 23:30, not
    quiet at 10:00 and not quiet at 09:00 sharp. *)
Lemma C1_quiet_hours_window_witness :
  isQuietHours (at_new_york 23 30) default_quiet_hours = Ret true
  /\ isQuietHours (at_new_york 10 0) default_quiet_hours = Ret false
  /\ isQuietHours (at_new_york 9 0) default_quiet_hours = Ret false.
Proof.
  unfold default_quiet_hours.
  split; [|split];
    (eapply eq_trans;
     [ eapply (C1_quiet_hours_window _ _ JTrue 21 0 9 0);
       [reflexivity|reflexivity|reflexivity|reflexivity
       |lia|lia|lia|lia|vm_compute; reflexivity]
     | reflexivity ]).
Defined.

(** At 23:30 the default record holds the send back, by reason of quiet
    hours and with a time to try again. *)
Lemma quiet_hours_hold_the_send :
  exists next,
    applyPreferences (at_new_york 23 30) (account ["alice"] ∅) "alice"
                     (to_js defaultPreferences)
    = Ret {| send := false; reason := Some "quiet_hours";
             reschedule := Some next |}.
Proof. eexists. vm_compute. reflexivity. Qed.

(** *** Writes into the shared objects *)

Lemma assign_lookup_ne k x obj j :
  k <> j -> assign k x obj !! j = obj !! j.
Proof.
  intros Hne. unfold assign.
  destruct (decide (k = "__proto__")); [destruct (obj !! k)|];
    try reflexivity; apply lookup_insert_ne; exact Hne.
Qed.

Lemma assign_lookup_eq k x obj :
  k <> "__proto__" -> assign k x obj !! k = Some x.
Proof.
  intros Hne. unfold assign.
  destruct (decide (k = "__proto__")); [contradiction|apply lookup_insert_eq].
Qed.

Lemma assign_lookup k x obj : assign k x obj !! k = assigned k x (obj !! k).
Proof.
  unfold assign, assigned. destruct (decide (k = "__proto__")).
  - destruct (obj !! k) eqn:Hk; [apply lookup_insert_eq|exact Hk].
  - apply lookup_insert_eq.
Qed.

(** The channel loop, property by property. *)
Lemma validate_channels_lookup src target k :
  validate_channels src target !! k
  = match src !! k with
    | Some (JBool b) => assigned k (JBool b) (target !! k)
    | _ => target !! k
    end.
Proof.
  unfold validate_channels. revert k.
  apply (map_fold_weak_ind
           (fun r m => forall k,
              r !! k = match m !! k with
                       | Some (JBool b) => assigned k (JBool b) (target !! k)
                       | _ => target !! k
                       end)).
  - intros k. rewrite lookup_empty. reflexivity.
  - intros i x m r Hi IH k.
    destruct (decide (i = k)) as [->|Hne].
    + rewrite lookup_insert_eq.
      destruct x; cbn [typeof_boolean];
        try (rewrite IH, Hi; reflexivity).
      rewrite assign_lookup, IH, Hi.
      unfold assigned. destruct (decide (k = "__proto__")); [|reflexivity].
      reflexivity.
    + rewrite lookup_insert_ne by exact Hne.
      destruct (typeof_boolean x); [rewrite assign_lookup_ne by exact Hne|];
        apply IH.
Qed.

(** The category loop, property by property. *)
Lemma validate_categories_lookup src target k :
  validate_categories src target !! k
  = match src !! k with
    | Some (JBool b) =>
        assigned k (if required k then JTrue else JBool b) (target !! k)
    | _ => target !! k
    end.
Proof.
  unfold validate_categories. revert k.
  apply (map_fold_weak_ind
           (fun r m => forall k,
              r !! k = match m !! k with
                       | Some (JBool b) =>
                           assigned k (if required k then JTrue else JBool b)
                                    (target !! k)
                       | _ => target !! k
                       end)).
  - intros k. rewrite lookup_empty. reflexivity.
  - intros i x m r Hi IH k.
    destruct (decide (i = k)) as [->|Hne].
    + rewrite lookup_insert_eq.
      destruct x; cbn [typeof_boolean];
        try (rewrite IH, Hi; reflexivity).
      fold (required k).
      destruct (required k); rewrite assign_lookup, IH, Hi; reflexivity.
    + rewrite lookup_insert_ne by exact Hne.
      destruct (typeof_boolean x); [|apply IH].
      destruct (_ || _); rewrite assign_lookup_ne by exact Hne; apply IH.
Qed.

Lemma validatePreferences_throws this preferences :
  nullish preferences = true ->
  validatePreferences this preferences = Throws TypeError.
Proof. destruct preferences; try discriminate; reflexivity. Qed.

Lemma validatePreferences_returns this preferences :
  nullish preferences = false ->
  validatePreferences this preferences
  = Ret {| channels :=
             let ch := get_opt preferences "channels" in
             if truthy ch then validate_channels (own_props ch) (channels this)
             else channels this;
           categories :=
             let cat := get_opt preferences "categories" in
             if truthy cat
             then validate_categories (own_props cat) (categories this)
             else categories this;
           frequency :=
             validate_frequency (get_opt preferences "frequency")
                                (frequency this);
           language := language this;
           unsubscribed := unsubscribed this |}.
Proof. destruct preferences; try discriminate; reflexivity. Qed.

Lemma required_on_defaults : required_on defaultPreferences.
Proof. split; reflexivity. Qed.

(** As long as the default record has the required categories switched
    on, so has the record validatePreferences returns, whatever the update
    holds. *)
Lemma validatePreferences_keeps_required (this : Preferences) (updates : JsVal) :
  required_on this ->
  nullish updates = false ->
  exists validated,
    validatePreferences this updates = Ret validated
    /\ categories validated !! "security" = Some JTrue
    /\ categories validated !! "billing" = Some JTrue.
Proof.
  intros [Hsec Hbil] Hnn.
  rewrite (validatePreferences_returns _ _ Hnn).
  eexists; split; [reflexivity|]. cbn [categories].
  destruct (truthy (get_opt updates "categories")); [|split; assumption].
  rewrite !validate_categories_lookup, Hsec, Hbil.
  split.
  - destruct (own_props _ !! "security") as [[]|]; reflexivity.
  - destruct (own_props _ !! "billing") as [[]|]; reflexivity.
Qed.

(** C4.  A required category can be switched off.  zoe has no stored
    record, so getUserPreferences hands updateCategoryPreference the
    default record itself and line 101 writes the caller's value into its
    categories.  validatePreferences starts from that record and overwrites
    a category only when the update holds a boolean for it: with the value
    0 the record it validates and stores for zoe has security = 0, which is
    falsy.  The default record keeps it: every update validated afterwards,
    bob's empty one included, and bob's effective record have security = 0
    as well. *)
Theorem C4_required_category_switched_off :
  let r := updateCategoryPreference noon fresh_state "zoe" "security" (num 0) in
  let st := fst r in
  required_on (fst fresh_state)
  /\ snd r = Ret JUndef
  /\ category_of (default JUndef (pref_store (snd st) !! "zoe")) "security"
     = num 0
  /\ truthy (num 0) = false
  /\ categories (fst st) !! "security" = Some (num 0)
  /\ (validated ← validatePreferences (fst st) (JObj ∅);
      Ret (categories validated !! "security")) = Ret (Some (num 0))
  /\ (validated ← validatePreferences (fst st) email_off;
      Ret (categories validated !! "security")) = Ret (Some (num 0))
  /\ category_of (effectivePreferences st "bob") "security" = num 0.
Proof. cbv zeta. repeat split; vm_compute; reflexivity. Qed.

(** Switching security off with the boolean false through
    updateCategoryPreference stores it switched on, for a recipient with a
    stored record (alice) and for one without (zoe), whose write lands in
    the default record first and is overwritten by validation. *)
Lemma security_cannot_be_switched_off :
  let stored_security (st : State) userId :=
    category_of (default JUndef (pref_store (snd st) !! userId)) "security" in
  stored_security
    (fst (updateCategoryPreference noon fresh_state "alice" "security" JFalse))
    "alice" = JTrue
  /\ stored_security
       (fst (updateCategoryPreference noon fresh_state "zoe" "security" JFalse))
       "zoe" = JTrue.
Proof. cbv zeta. split; vm_compute; reflexivity. Qed.

(** *** The daily cap written by validation *)

Lemma chars_props_lookup s k v :
  chars_props s !! k = Some v -> exists c, v = JStr (String c EmptyString).
Proof.
  unfold chars_props. intros Hv.
  apply elem_of_list_to_map_2 in Hv.
  apply elem_of_lookup_imap in Hv as (i & c & Heq & _).
  injection Heq as _ ->. eauto.
Qed.

Lemma validate_max_per_day this updates :
  nullish updates = false ->
  exists validated,
    validatePreferences this updates = Ret validated
    /\ max_per_day (frequency validated)
       = match get_opt (get_opt updates "frequency") "max_per_day" with
         | JNum x => Num.clamp x
         | _ => max_per_day (frequency this)
         end.
Proof.
  intros Hnn. rewrite (validatePreferences_returns _ _ Hnn).
  eexists; split; [reflexivity|]. cbn [frequency].
  unfold validate_frequency.
  destruct (get_opt updates "frequency") as [| |[]|x|fs|fm] eqn:Hf;
    cbn [truthy get_opt own_props]; try (rewrite ?lookup_empty; reflexivity).
  - (* a number *)
    rewrite lookup_empty. cbn [default from_option].
    destruct (negb _); reflexivity.
  - (* a text: its own properties are one-character texts *)
    destruct (chars_props fs !! "max_per_day") as [v|] eqn:Hv;
      cbn [default from_option id].
    + apply chars_props_lookup in Hv as [c ->].
      destruct (negb _); reflexivity.
    + destruct (negb _); reflexivity.
Qed.

(** Every number other than NaN supplied as max_per_day is stored clamped
    to the range 1..100. *)
Lemma validate_max_per_day_in_range this updates x :
  nullish updates = false ->
  get_opt (get_opt updates "frequency") "max_per_day" = JNum x ->
  Num.is_nan x = false ->
  exists validated,
    validatePreferences this updates = Ret validated
    /\ Num.in_range (Num.of_Z 1) (max_per_day (frequency validated))
                    (Num.of_Z 100).
Proof.
  intros Hnn Hx Hnan.
  destruct (validate_max_per_day this updates Hnn) as (v & Hv & Hmax).
  exists v. split; [exact Hv|]. rewrite Hmax, Hx. apply clamp_in_range, Hnan.
Qed.

(** C10.  The clamp of lines 432-434 lets NaN through: [typeof NaN] is
    'number', Math.min(100, NaN) and Math.max(1, NaN) are NaN, and the
    record validated from [nan_update] carries max_per_day = NaN, which is
    neither at least 1 nor at most 100. *)
Theorem C10_clamp_lets_nan_through :
  exists validated,
    validatePreferences defaultPreferences nan_update = Ret validated
    /\ max_per_day (frequency validated) = Num.NaN
    /\ Num.le (Num.of_Z 1) (max_per_day (frequency validated)) = false
    /\ Num.le (max_per_day (frequency validated)) (Num.of_Z 100) = false.
Proof.
  eexists. split; [reflexivity|]. split; [|split]; reflexivity.
Qed.

(** *** Unsubscribing *)

(** An unsubscribed record is refused before quiet hours, the daily cap or
    any channel or category setting is looked at. *)
Lemma unsubscribed_short_circuits E c userId preferences flag :
  get preferences "unsubscribed" = Ret flag -> truthy flag = true ->
  applyPreferences E c userId preferences
  = Ret {| send := false; reason := Some "user_unsubscribed";
           reschedule := None |}.
Proof.
  intros Hget Hflag. unfold applyPreferences. rewrite Hget. run.
  rewrite Hflag. reflexivity.
Qed.

(** C5.  applyPreferences does stop at the unsubscribed flag, but
    unsubscribeAll does not get the flag into the record it stores:
    validatePreferences starts from the default record and copies channels,
    categories and frequency only.  For alice, who has a stored record,
    the call sets the flag on her profile and switches her channels off,
    yet her effective record afterwards has unsubscribed = false and
    applyPreferences answers send:true at noon. *)
Theorem C5_unsubscribeAll_loses_the_flag :
  let st := fst (unsubscribeAll noon fresh_state "alice" "too many emails") in
  let effective := effectivePreferences st "alice" in
  snd (unsubscribeAll noon fresh_state "alice" "too many emails") = Ret JUndef
  /\ (profile_store (snd st) !! "alice") ≫= (.!! "unsubscribed") = Some JTrue
  /\ channel_of effective "email" = JFalse
  /\ get effective "unsubscribed" = Ret JFalse
  /\ applyPreferences noon (snd st) "alice" effective
     = Ret {| send := true; reason := None; reschedule := None |}.
Proof. cbv zeta. repeat split; vm_compute; reflexivity. Qed.

(** *** Repeating an update, merging twice *)

Lemma assigned_idem k x old : assigned k x (assigned k x old) = assigned k x old.
Proof. unfold assigned. destruct (decide _), old; reflexivity. Qed.

Lemma validate_channels_idem src target :
  validate_channels src (validate_channels src target)
  = validate_channels src target.
Proof.
  apply map_eq. intros k. rewrite !validate_channels_lookup.
  destruct (src !! k) as [[]|]; try reflexivity. apply assigned_idem.
Qed.

Lemma validate_categories_idem src target :
  validate_categories src (validate_categories src target)
  = validate_categories src target.
Proof.
  apply map_eq. intros k. rewrite !validate_categories_lookup.
  destruct (src !! k) as [[]|]; try reflexivity. apply assigned_idem.
Qed.

Lemma validate_frequency_idem src target :
  validate_frequency src (validate_frequency src target)
  = validate_frequency src target.
Proof.
  unfold validate_frequency. destruct (truthy src); [|reflexivity].
  cbn [digest max_per_day quiet_hours].
  destruct (truthy (get_opt src "digest")), (get_opt src "max_per_day"),
    (truthy (get_opt src "quiet_hours")); reflexivity.
Qed.

(** Validating the same update against the record a first validation left
    behind gives that record again. *)
Lemma validatePreferences_idem this updates validated :
  validatePreferences this updates = Ret validated ->
  validatePreferences validated updates = Ret validated.
Proof.
  destruct (nullish updates) eqn:Hnn.
  { rewrite validatePreferences_throws by exact Hnn. discriminate. }
  rewrite !(validatePreferences_returns _ _ Hnn). intros [= <-].
  cbn [channels categories frequency language unsubscribed]. f_equal. f_equal.
  - destruct (truthy (get_opt updates "channels")); [|reflexivity].
    apply validate_channels_idem.
  - destruct (truthy (get_opt updates "categories")); [|reflexivity].
    apply validate_categories_idem.
  - apply validate_frequency_idem.
Qed.

Lemma effectivePreferences_ext this c c' userId :
  pref_store c = pref_store c' ->
  effectivePreferences (this, c) userId = effectivePreferences (this, c') userId.
Proof.
  intros H. unfold effectivePreferences, getUserPreferences, preferences_get.
  cbn [fst snd]. rewrite H. reflexivity.
Qed.

Lemma updatePreferences_state E this c userId updates validated :
  validatePreferences this updates = Ret validated ->
  fst (updatePreferences E (this, c) userId updates)
  = (validated,
     profiles_merge (preferences_update c userId (to_js validated)) userId
       (<["preferences_updated_at" := JStr (iso_now E)]>
       (<["preferences_version" := num (now E)]> ∅))).
Proof. intros H. unfold updatePreferences. rewrite H. reflexivity. Qed.

Lemma updatePreferences_state_throws E this c userId updates :
  (forall validated, validatePreferences this updates <> Ret validated) ->
  fst (updatePreferences E (this, c) userId updates) = (this, c).
Proof.
  intros H. unfold updatePreferences.
  destruct (validatePreferences this updates) as [v| |]; try reflexivity.
  destruct (H v eq_refl).
Qed.

(** Applying an update a second time leaves the default record, the stored
    records and every effective record as the first application left
    them. *)
Lemma updatePreferences_twice E1 E2 st userId updates :
  let st1 := fst (updatePreferences E1 st userId updates) in
  let st2 := fst (updatePreferences E2 st1 userId updates) in
  fst st2 = fst st1
  /\ pref_store (snd st2) = pref_store (snd st1)
  /\ forall r, effectivePreferences st2 r = effectivePreferences st1 r.
Proof.
  destruct st as [this c]. cbv zeta.
  destruct (validatePreferences this updates) as [v| |] eqn:Hv.
  - rewrite (updatePreferences_state E1 _ _ _ _ _ Hv).
    rewrite (updatePreferences_state E2 _ _ _ _ _ (validatePreferences_idem _ _ _ Hv)).
    cbn [fst snd preferences_update profiles_merge pref_store].
    rewrite insert_insert_eq. repeat split.
    intros r. apply effectivePreferences_ext.
    cbn [pref_store]. apply insert_insert_eq.
  - rewrite (updatePreferences_state_throws E1) by (intros ?; congruence).
    rewrite (updatePreferences_state_throws E2) by (intros ?; congruence).
    repeat split.
  - rewrite (updatePreferences_state_throws E1) by (intros ?; congruence).
    rewrite (updatePreferences_state_throws E2) by (intros ?; congruence).
    repeat split.
Qed.

Lemma union_absorb (A B : gmap string JsVal) : (A ∪ B) ∪ B = A ∪ B.
Proof.
  apply map_eq. intros i. rewrite !lookup_union.
  destruct (A !! i), (B !! i); reflexivity.
Qed.

Lemma mergeWithDefaults_shape this preferences :
  nullish preferences = false ->
  mergeWithDefaults this preferences
  = Ret (merged_record this (own_props preferences)
           (own_props (get_opt preferences "channels"))
           (own_props (get_opt preferences "categories"))
           (own_props (get_opt preferences "frequency"))
           (own_props (get_opt (get_opt preferences "frequency") "quiet_hours"))).
Proof. destruct preferences; try discriminate; reflexivity. Qed.

Lemma merged_record_channels this top ch cat fr qh :
  get_opt (merged_record this top ch cat fr qh) "channels"
  = JObj (ch ∪ channels this).
Proof.
  unfold merged_record, get_opt. cbn [own_props].
  rewrite !lookup_insert_ne, lookup_insert_eq by done. reflexivity.
Qed.

Lemma merged_record_categories this top ch cat fr qh :
  get_opt (merged_record this top ch cat fr qh) "categories"
  = JObj (cat ∪ categories this).
Proof.
  unfold merged_record, get_opt. cbn [own_props].
  rewrite lookup_insert_ne, lookup_insert_eq by done. reflexivity.
Qed.

Lemma merged_record_frequency this top ch cat fr qh :
  get_opt (merged_record this top ch cat fr qh) "frequency"
  = JObj (<["quiet_hours" :=
              JObj (qh ∪ own_props (quiet_hours (frequency this)))]>
            (fr ∪ frequency_props (frequency this))).
Proof.
  unfold merged_record, get_opt. cbn [own_props].
  rewrite lookup_insert_eq. reflexivity.
Qed.

(** Merging a merged record with the defaults again changes nothing. *)
Lemma merged_record_again this top ch cat fr qh :
  mergeWithDefaults this (merged_record this top ch cat fr qh)
  = Ret (merged_record this top ch cat fr qh).
Proof.
  rewrite mergeWithDefaults_shape by reflexivity.
  rewrite merged_record_channels, merged_record_categories,
    merged_record_frequency.
  unfold get_opt at 1. cbn [own_props]. rewrite lookup_insert_eq. run.
  unfold merged_record. rewrite !union_absorb.
  assert (HF : forall (X : JsVal) (A B : gmap string JsVal),
             <["quiet_hours" := X]> (<["quiet_hours" := X]> (A ∪ B) ∪ B)
             = <["quiet_hours" := X]> (A ∪ B)).
  { intros X A B. apply map_eq. intros i.
    destruct (decide (i = "quiet_hours")) as [->|Hi];
      [rewrite !lookup_insert_eq; reflexivity|].
    rewrite !lookup_insert_ne, !lookup_union, !lookup_insert_ne by congruence.
    rewrite lookup_union. destruct (A !! i), (B !! i); reflexivity. }
  rewrite HF. do 2 f_equal.
  apply map_eq. intros i.
  destruct (decide (i = "frequency")) as [->|Hf];
    [rewrite !lookup_insert_eq; reflexivity|].
  rewrite !(lookup_insert_ne _ "frequency") by congruence.
  destruct (decide (i = "categories")) as [->|Hc];
    [rewrite !lookup_insert_eq; reflexivity|].
  rewrite !(lookup_insert_ne _ "categories") by congruence.
  destruct (decide (i = "channels")) as [->|Hh];
    [rewrite !lookup_insert_eq; reflexivity|].
  rewrite !(lookup_insert_ne _ "channels") by congruence.
  cbn [own_props].
  rewrite !lookup_union, !lookup_insert_ne, lookup_union by congruence.
  destruct (top !! i), (preferences_props this !! i); reflexivity.
Qed.

Lemma mergeWithDefaults_idem this preferences merged :
  mergeWithDefaults this preferences = Ret merged ->
  mergeWithDefaults this merged = Ret merged.
Proof.
  destruct (nullish preferences) eqn:Hnn.
  { destruct preferences; discriminate. }
  rewrite (mergeWithDefaults_shape _ _ Hnn). intros [= <-].
  apply merged_record_again.
Qed.

(** *** Defaults shared between recipients *)

(** C9.  The copy on line 402 is shallow, so an update writes into the
    default record of the manager.  After alice switches email off, bob,
    whose stored record is empty, gets email = false in his effective
    record, although the built-in default is true and nothing he stored
    says otherwise: the effective record is no longer the built-in
    defaults overridden by the stored values. *)
Theorem C9_update_rewrites_the_defaults :
  let st := fst (updatePreferences noon fresh_state "alice" email_off) in
  snd (updatePreferences noon fresh_state "alice" email_off) = Ret JUndef
  /\ pref_store (snd st) !! "bob" = Some (JObj ∅)
  /\ channel_of (effectivePreferences fresh_state "bob") "email" = JTrue
  /\ channel_of (effectivePreferences st "bob") "email" = JFalse
  /\ (merged ← mergeWithDefaults defaultPreferences (JObj ∅);
      Ret (channel_of merged "email")) = Ret JTrue
  /\ channels (fst st) !! "email" = Some JFalse.
Proof. cbv zeta. repeat split; vm_compute; reflexivity. Qed.

(** *** The daily cap *)

Lemma quiet_then_next E qh :
  isQuietHours E qh = Ret true -> exists d, getNextAvailableTime E qh = Ret d.
Proof.
  unfold isQuietHours, getNextAvailableTime. intros H.
  destruct (get qh "enabled") as [en| |]; try discriminate. run in H.
  destruct (negb (truthy en)); try discriminate.
  destruct (get qh "timezone") as [tz| |]; try discriminate. run in H.
  destruct (user_clock E tz) as [[h mi]| |]; try discriminate. run in H.
  destruct (get qh "start") as [st| |]; try discriminate. run in H.
  destruct (hour_minute st) as [shm| |]; try discriminate. run in H.
  destruct (get qh "end") as [en'| |]; try discriminate. run in H. run.
  destruct (hour_minute en') as [[eh em]| |]; try discriminate. run.
  destruct (Num.trunc eh), (Num.trunc em); eauto.
  destruct (time_clip _); eauto. destruct (_ <? _); eauto.
Qed.

(** C8, as the code has it.  The count is of the messages logged for the
    recipient since the last midnight on the process's own clock, and, for
    a record with a numeric cap whose quiet-hours check runs to an answer,
    applyPreferences reports daily_limit_reached exactly when the recipient
    is not unsubscribed, it is not quiet hours, and the count has reached
    max_per_day. *)
Theorem C8_daily_cap_after_the_other_checks
    (E : Env) (c : Courier) (userId : string)
    (record freq : gmap string JsVal) (cap : spec_float) (quiet : bool) :
  record !! "frequency" = Some (JObj freq) ->
  freq !! "max_per_day" = Some (JNum cap) ->
  isQuietHours E (default JUndef (freq !! "quiet_hours")) = Ret quiet ->
  getTodayMessageCount E c userId
  = Z.of_nat (length (filter (fun t => local_midnight E <= t)
                             (default [] (log_store c !! userId))))
  /\ exists d,
      applyPreferences E c userId (JObj record) = Ret d
      /\ (reason d = Some "daily_limit_reached" <->
          truthy (default JUndef (record !! "unsubscribed")) = false
          /\ quiet = false
          /\ Num.ge (Num.of_Z (getTodayMessageCount E c userId)) cap = true)
      /\ (reason d = Some "daily_limit_reached" -> send d = false).
Proof.
  intros Hfreq Hcap Hquiet. split; [reflexivity|].
  unfold applyPreferences, get. run.
  destruct (truthy (default JUndef (record !! "unsubscribed"))) eqn:Hunsub.
  { eexists. split; [reflexivity|]. cbn [reason send].
    split; [|discriminate]. split; [discriminate|]. intros (? & _); discriminate. }
  rewrite Hfreq. run. rewrite Hquiet. run.
  destruct quiet.
  { destruct (quiet_then_next _ _ Hquiet) as [d Hd]. rewrite Hd. run.
    eexists. split; [reflexivity|]. cbn [reason send].
    split; [|discriminate]. split; [discriminate|]. intros (_ & ? & _); discriminate. }
  rewrite Hcap. run. cbn [to_number]. run.
  destruct (Num.ge _ cap) eqn:Hge.
  - eexists. split; [reflexivity|]. cbn [reason send]. split; [|reflexivity].
    split; [intros _; repeat split|reflexivity].
  - eexists. split; [reflexivity|]. cbn [reason send].
    split; [|discriminate]. split; [discriminate|]. intros (_ & _ & ?); discriminate.
Qed.

(** Erin's record at noon with one message logged today and a cap of one. *)
Lemma C8_daily_cap_after_the_other_checks_witness :
  exists d,
    applyPreferences noon (account ["erin"] {[ "erin" := [now noon] ]}) "erin"
                     (capped_record false 1) = Ret d
    /\ reason d = Some "daily_limit_reached".
Proof.
  destruct (C8_daily_cap_after_the_other_checks
              noon (account ["erin"] {[ "erin" := [now noon] ]}) "erin"
              (<["unsubscribed" := JFalse]>
               (<["frequency" :=
                    JObj (<["max_per_day" := num 1]>
                         (<["quiet_hours" :=
                              JObj (<["enabled" := JFalse]>
                                   (<["timezone" := JStr "America/New_York"]> ∅))]>
                          ∅))]> ∅))
              (<["max_per_day" := num 1]>
               (<["quiet_hours" :=
                    JObj (<["enabled" := JFalse]>
                         (<["timezone" := JStr "America/New_York"]> ∅))]> ∅))
              (Num.of_Z 1) false)
    as (_ & d & Hd & Hiff & _);
    [reflexivity|reflexivity|reflexivity|].
  exists d. split; [exact Hd|].
  apply Hiff. repeat split; reflexivity.
Defined.

(** C8 as stated does not hold.  First, a recipient who is unsubscribed and
    has reached the cap is refused as user_unsubscribed, not as
    daily_limit_reached.  Second, the day starts at the process's midnight,
    not the recipient's: at 22:00 in New York a message sent at 18:00 the
    same New York day is no longer counted by a process on UTC, so erin,
    whose cap is one, is still allowed. *)
Lemma C8_counterexample :
  (getTodayMessageCount noon (account ["erin"] {[ "erin" := [now noon] ]}) "erin" = 1
   /\ applyPreferences noon (account ["erin"] {[ "erin" := [now noon] ]}) "erin"
                       (capped_record true 1)
      = Ret {| send := false; reason := Some "user_unsubscribed";
               reschedule := None |})
  /\ (user_clock late_evening (JStr "America/New_York") = Ret (22, 0)
      /\ spec_today_count_in_zone late_evening erin_account "erin" (-300) = 1
      /\ getTodayMessageCount late_evening erin_account "erin" = 0
      /\ applyPreferences late_evening erin_account "erin" (capped_record false 1)
         = Ret {| send := true; reason := None; reschedule := None |}).
Proof. repeat split; vm_compute; reflexivity. Qed.

End PrefsFacts.

(** * Facts about the escalation check *)

Module EscalationFacts.
Import Js Escalation.

(** Without a global [profile], markAsEscalated throws before it reaches
    the merge and leaves the world as it found it. *)
Lemma markAsEscalated_throws iso w userId :
  global_object w !! "profile" = None ->
  markAsEscalated iso w userId = (w, Throws (ReferenceError "profile")).
Proof.
  intros H. unfold markAsEscalated, free_identifier. rewrite H. reflexivity.
Qed.

(** An eligible recipient is alerted on every call: the alert goes out,
    then markAsEscalated throws, and the profile is never marked. *)
Lemma checkAndEscalate_alerts iso w userId found :
  shouldEscalate (profiles_get w userId) = Ret true ->
  identifyBlockers w userId = Ret found ->
  global_object w !! "profile" = None ->
  checkAndEscalate iso w userId
  = (with_sent w (sent w ++ [{| about := userId;
                                snapshot := default ∅ (profiles w !! userId);
                                blockers := found |}])%list,
     Throws (ReferenceError "profile")).
Proof.
  intros Hshould Hfound Hglobal. unfold checkAndEscalate.
  rewrite Hshould. unfold sendSlackAlert. rewrite Hfound.
  rewrite markAsEscalated_throws by exact Hglobal. reflexivity.
Qed.

Lemma checkAndEscalate_repeats iso w userId found :
  shouldEscalate (profiles_get w userId) = Ret true ->
  identifyBlockers w userId = Ret found ->
  global_object w !! "profile" = None ->
  let alert := {| about := userId;
                  snapshot := default ∅ (profiles w !! userId);
                  blockers := found |} in
  let r1 := checkAndEscalate iso w userId in
  let r2 := checkAndEscalate iso (fst r1) userId in
  snd r1 = Throws (ReferenceError "profile")
  /\ snd r2 = Throws (ReferenceError "profile")
  /\ sent (fst r2) = (sent w ++ [alert; alert])%list
  /\ profiles (fst r2) = profiles w.
Proof.
  intros Hshould Hfound Hglobal alert. cbv zeta.
  rewrite (checkAndEscalate_alerts iso w userId found) by assumption.
  cbn [fst snd].
  rewrite (checkAndEscalate_alerts iso (with_sent w _) userId found)
    by assumption.
  cbn [fst snd sent with_sent profiles]. rewrite <- app_assoc.
  repeat split.
Qed.

(** C3.  Two consecutive checkAndEscalate calls for an eligible enterprise
    recipient send two alerts, not one: each call sends the alert and then
    fails in markAsEscalated with ReferenceError (profile is not defined),
    so the escalated flag, timestamp and count are never written. *)
Theorem C3_checkAndEscalate_alerts_twice :
  let iso := "2026-01-05T09:00:00.000Z" in
  let r1 := checkAndEscalate iso stuck_world "acme-admin" in
  let r2 := checkAndEscalate iso (fst r1) "acme-admin" in
  shouldEscalate (JObj stuck_profile) = Ret true
  /\ snd r1 = Throws (ReferenceError "profile")
  /\ length (sent (fst r1)) = 1%nat
  /\ snd r2 = Throws (ReferenceError "profile")
  /\ length (sent (fst r2)) = 2%nat
  /\ profiles (fst r2) !! "acme-admin" = Some stuck_profile
  /\ stuck_profile !! "escalated" = None.
Proof. cbv zeta. repeat split; vm_compute; reflexivity. Qed.

End EscalationFacts.

(** * Facts about the webhook handler *)

Module WebhookFacts.
Import Webhook NumFacts.

(** *** Test vectors *)

(** FIPS 180-4, the one-block message abc; RFC 4231, test case 2. *)
Lemma sha256_abc :
  hex (Sha256.digest (utf8 "abc"))
  = "ba7816bf8f01cfea414140de5dae2223b00361a396177a9cb410ff61f20015ad".
Proof. vm_compute. reflexivity. Qed.

Lemma hmac_sha256_rfc4231 :
  hex (Sha256.hmac (utf8 "Jefe") (utf8 "what do ya want for nothing?"))
  = "5bdcc146bf60754e6a042426089575c75a003f089d2739839dec58b964ec3843".
Proof. vm_compute. reflexivity. Qed.

Lemma round_constants :
  length Sha256.K = 64%nat /\ length Sha256.H0 = 8%nat
  /\ hd 0 Sha256.K = 0x428a2f98 /\ last Sha256.K = Some 0xc67178f2
  /\ hd 0 Sha256.H0 = 0x6a09e667.
Proof. vm_compute. repeat split; reflexivity. Qed.

(** *** The digest is 32 bytes, its hex text 64 characters *)

Lemma round_length st kw : length st = 8%nat -> length (Sha256.round st kw) = 8%nat.
Proof.
  intros H. do 9 (destruct st as [|? st]; try discriminate H). reflexivity.
Qed.

Lemma rounds_length l st :
  length st = 8%nat -> length (fold_left Sha256.round l st) = 8%nat.
Proof.
  revert st. induction l as [|kw l IH]; intros st H; [exact H|].
  apply IH, round_length, H.
Qed.

Lemma compress_length h block :
  length h = 8%nat -> length (Sha256.compress h block) = 8%nat.
Proof.
  intros H. unfold Sha256.compress.
  rewrite length_zip_with, rounds_length, H by exact H. reflexivity.
Qed.

Lemma compress_all_length blocks h :
  length h = 8%nat -> length (fold_left Sha256.compress blocks h) = 8%nat.
Proof.
  revert h. induction blocks as [|b blocks IH]; intros h H; [exact H|].
  apply IH, compress_length, H.
Qed.

Lemma be_bytes_bytes n x : Forall is_byte (Sha256.be_bytes n x).
Proof.
  induction n as [|k IH]; constructor; [|exact IH].
  apply Z.mod_pos_bound. reflexivity.
Qed.

Lemma words_bytes (ws : list Z) :
  length (concat (Sha256.be_bytes 4 <$> ws)) = (4 * length ws)%nat
  /\ Forall is_byte (concat (Sha256.be_bytes 4 <$> ws)).
Proof.
  induction ws as [|x ws [IHl IHb]]; [split; [reflexivity|constructor]|].
  cbn [fmap list_fmap concat]. split.
  - rewrite length_app, IHl. cbn [Sha256.be_bytes length]. lia.
  - apply Forall_app. split; [apply be_bytes_bytes|exact IHb].
Qed.

Lemma digest_length msg : length (Sha256.digest msg) = 32%nat.
Proof.
  unfold Sha256.digest.
  rewrite (proj1 (words_bytes _)), compress_all_length; reflexivity.
Qed.

Lemma digest_bytes msg : Forall is_byte (Sha256.digest msg).
Proof. unfold Sha256.digest. apply words_bytes. Qed.

Lemma hmac_length key msg : length (Sha256.hmac key msg) = 32%nat.
Proof. apply digest_length. Qed.

Lemma hmac_bytes key msg : Forall is_byte (Sha256.hmac key msg).
Proof. apply digest_bytes. Qed.

Lemma hex_digit_ascii d :
  0 <= d < 16 -> utf8_char (hex_digit d) = [Z.of_N (N_of_ascii (hex_digit d))].
Proof.
  intros Hd.
  assert (H : Num.check_below 16 (fun d =>
                bool_decide (utf8_char (hex_digit d)
                             = [Z.of_N (N_of_ascii (hex_digit d))])) = true)
    by (vm_compute; reflexivity).
  eapply check_below_spec in H; [|exact Hd].
  apply bool_decide_eq_true in H. exact H.
Qed.

Lemma utf8_hex_length bs :
  Forall is_byte bs -> length (utf8 (hex bs)) = (2 * length bs)%nat.
Proof.
  induction 1 as [|b bs Hb _ IH]; [reflexivity|].
  cbn [hex utf8]. unfold is_byte in Hb.
  rewrite !hex_digit_ascii.
  - cbn [app length]. rewrite IH. lia.
  - apply Z.mod_pos_bound. reflexivity.
  - split; [apply Z.div_pos; lia|apply Z.div_lt_upper_bound; lia].
Qed.

(** The hex digest the route compares with is 64 bytes long. *)
Lemma expected_length key text :
  length (utf8 (hex (Sha256.hmac (utf8 key) (utf8 text)))) = 64%nat.
Proof. rewrite utf8_hex_length, hmac_length by apply hmac_bytes. reflexivity. Qed.

(** *** Texts with different code units have different UTF-8 bytes *)

Lemma in_all_ascii c : In c all_ascii.
Proof.
  unfold all_ascii. rewrite <- (ascii_nat_embedding c).
  apply in_map, in_seq. pose proof (nat_ascii_bounded c). lia.
Qed.

Lemma apart_all c1 c2 : apart c1 c2 = true.
Proof.
  assert (H : forallb (fun c1 => forallb (apart c1) all_ascii) all_ascii = true)
    by (vm_compute; reflexivity).
  rewrite forallb_forall in H. specialize (H c1 (in_all_ascii c1)).
  rewrite forallb_forall in H. exact (H c2 (in_all_ascii c2)).
Qed.

Lemma utf8_char_inj c1 c2 r1 r2 :
  (utf8_char c1 ++ r1 = utf8_char c2 ++ r2)%list -> c1 = c2 /\ r1 = r2.
Proof.
  intros H. pose proof (apart_all c1 c2) as Ha. unfold apart in Ha.
  apply orb_prop in Ha as [Ha|Ha].
  - apply bool_decide_eq_true in Ha. subst c2.
    split; [reflexivity|]. exact (app_inv_head _ _ _ H).
  - apply negb_true_iff, bool_decide_eq_false in Ha. exfalso. apply Ha.
    set (k := Nat.min _ _) in *.
    rewrite <- (take_app_le (utf8_char c1) r1 k) by (unfold k; lia).
    rewrite <- (take_app_le (utf8_char c2) r2 k) by (unfold k; lia).
    rewrite H. reflexivity.
Qed.

Lemma utf8_char_nonempty c : utf8_char c <> [].
Proof. unfold utf8_char. destruct (_ <? _); discriminate. Qed.

Lemma utf8_inj s1 s2 : utf8 s1 = utf8 s2 -> s1 = s2.
Proof.
  revert s2. induction s1 as [|c1 s1 IH]; intros [|c2 s2]; cbn [utf8]; intros H.
  - reflexivity.
  - symmetry in H. apply app_eq_nil in H as [H _].
    destruct (utf8_char_nonempty _ H).
  - apply app_eq_nil in H as [H _]. destruct (utf8_char_nonempty _ H).
  - apply utf8_char_inj in H as [-> H]. f_equal. apply IH, H.
Qed.

(** *** Requests with a bad signature *)

(** C2, as the code has it.  The digest is taken over the text
    JSON.stringify gives for the parsed body, and the signature supplied is
    compared with its hex form: a signature equal to it passes the check,
    and a signature of the same length (64 bytes) that differs from it is
    answered 401; no handler runs and the world is left as it was. *)
Theorem C2_bad_signature_is_refused
    (E : Env) (req : Request) (w : World) (key text given : string) :
  webhook_secret E = Some key ->
  stringify (body req) = Ret (Some text) ->
  signature req = Some given ->
  (given = hex (Sha256.hmac (utf8 key) (utf8 text)) -> accepted E req)
  /\ (length (utf8 given) = 64%nat ->
      given <> hex (Sha256.hmac (utf8 key) (utf8 text)) ->
      post_webhooks_courier E req w
      = (w, Responded 401 (VObj [("error", VStr "Invalid signature")]))).
Proof.
  intros Hkey Htext Hsig. split.
  - intros ->. unfold accepted. rewrite Htext, Hsig, Hkey.
    cbn [mbind Outcome_bind verifyWebhookSignature].
    rewrite Nat.eqb_refl, bool_decide_eq_true_2 by reflexivity. reflexivity.
  - intros Hlen Hne.
    unfold post_webhooks_courier. rewrite Htext, Hsig, Hkey.
    cbn [mbind Outcome_bind verifyWebhookSignature].
    rewrite Hlen, expected_length. cbn [Nat.eqb].
    rewrite bool_decide_eq_false_2; [reflexivity|].
    intros Heq. apply Hne, utf8_inj, Heq.
Qed.

(** A signature of 64 zeros on the message:sent event. *)
Lemma C2_bad_signature_is_refused_witness :
  post_webhooks_courier test_env
    {| signature :=
         Some "0000000000000000000000000000000000000000000000000000000000000000";
       body := sent_event |} empty_world
  = (empty_world, Responded 401 (VObj [("error", VStr "Invalid signature")])).
Proof.
  edestruct (C2_bad_signature_is_refused test_env
               {| signature :=
                    Some "0000000000000000000000000000000000000000000000000000000000000000";
                  body := sent_event |} empty_world "whsec_test")
    as [_ Hrefused];
    [reflexivity|vm_compute; reflexivity|reflexivity|].
  apply Hrefused; [reflexivity|vm_compute; discriminate].
Defined.

(** C2 as stated does not hold.  A signature shorter than the digest is
    not answered 401: timingSafeEqual throws, outside the try block, and
    the request gets no response.  And the digest is not taken over the
    raw payload: a ping signed over the bytes the sender wrote, which have
    a space that JSON.stringify does not write back, is refused. *)
Lemma C2_counterexample :
  post_webhooks_courier test_env
    {| signature := Some "deadbeef"; body := sent_event |} empty_world
  = (empty_world, Rejected RangeError)
  /\ stringify ping_body <> Ret (Some ping_raw)
  /\ post_webhooks_courier test_env
       {| signature := Some (hex (Sha256.hmac (utf8 "whsec_test") (utf8 ping_raw)));
          body := ping_body |} empty_world
     = (empty_world, Responded 401 (VObj [("error", VStr "Invalid signature")])).
Proof.
  split; [vm_compute; reflexivity|].
  split; [vm_compute; discriminate|vm_compute; reflexivity].
Qed.

(** *** Counts kept in a profile *)

Lemma add_one_exact n :
  0 <= n < Num.small - 1 ->
  Num.add (Num.of_Z n) (Num.of_Z 1) = Num.of_Z (n + 1).
Proof.
  intros Hn.
  assert (H : Num.check_below (Z.to_nat (Num.small - 1)) (fun n =>
                bool_decide (Num.add (Num.of_Z n) (Num.of_Z 1)
                             = Num.of_Z (n + 1))) = true)
    by (vm_compute; reflexivity).
  eapply check_below_spec in H; [|rewrite Z2Nat.id; [exact Hn|discriminate]].
  apply bool_decide_eq_true in H. exact H.
Qed.

Lemma truthy_vnum n : 0 < n < Num.small -> truthy (vnum n) = true.
Proof.
  intros Hn. unfold vnum. cbn [truthy].
  pose proof (of_Z_grid n ltac:(lia)) as Hg.
  destruct (Num.of_Z n) as [s| | |s m e]; try discriminate Hg; [|reflexivity].
  cbn [Num.grid] in Hg. injection Hg as Hg.
  assert (0 < 2 ^ 52) by reflexivity. nia.
Qed.

(** A count read back from a profile with [|| 0]. *)
Lemma or_else_count n :
  0 <= n < Num.small ->
  or_else (default VUndef (count_attr n)) (vnum 0) = vnum n.
Proof.
  intros Hn. unfold count_attr. destruct (Z.eqb_spec n 0) as [->|Hne].
  - reflexivity.
  - cbn [default from_option id]. unfold or_else.
    rewrite truthy_vnum by lia. reflexivity.
Qed.

Lemma plus_one_vnum n :
  0 <= n < Num.small - 1 -> plus_one (vnum n) = Ret (vnum (n + 1)).
Proof.
  intros Hn. unfold plus_one, vnum. cbn [to_number mbind Outcome_bind].
  rewrite add_one_exact by exact Hn. reflexivity.
Qed.

Lemma stored_get w userId key :
  default ∅ (profiles w !! userId) !! key = stored w userId key.
Proof. unfold stored. destruct (profiles w !! userId); reflexivity. Qed.

Lemma count_attr_succ n : 0 <= n -> count_attr (n + 1) = Some (vnum (n + 1)).
Proof.
  intros Hn. unfold count_attr. destruct (Z.eqb_spec (n + 1) 0); [lia|reflexivity].
Qed.

(** *** Retries *)

Lemma retry_key_text m : retry_key (VStr m) = Ret ("message_" ++ m ++ "_retry_count").
Proof. reflexivity. Qed.

Lemma delay_at_count k :
  0 <= k < 4 ->
  delay_at (vnum k) = Ret (vnum (nth (Z.to_nat k) retryDelays 0)).
Proof.
  intros Hk.
  assert (Hcases : k = 0 \/ k = 1 \/ k = 2 \/ k = 3) by lia.
  destruct Hcases as [->|[->|[->| ->]]]; vm_compute; reflexivity.
Qed.

Lemma retries_app m w es :
  retries m (log_to w es)
  = (retries m w + length (List.filter (is_retry_of m) es))%nat.
Proof.
  unfold retries. cbn [effects log_to].
  rewrite List.filter_app, length_app. reflexivity.
Qed.

Ltac exec :=
  cbn [run mbind M_bind mret M_ret lift tell nullish field assoc String.eqb
       Ascii.eqb Bool.eqb default from_option id to_text is_text orb fst snd
       profiles_get profiles effects timers log_to with_timers with_profile
       retry_key Outcome_bind destructure logAnalyticsEvent
       updateDeliveryMetrics setTimeout profiles_merge to_number].

(** scheduleRetry while fewer than four retries are on record. *)
Lemma run_scheduleRetry w m u k :
  0 <= k < 4 ->
  stored w u (retry_count_key m) = count_attr k ->
  run (scheduleRetry (VStr m) (VStr u)) w
  = (with_timers w
       (timers w ++ [RetryTimer (vnum (nth (Z.to_nat k) retryDelays 0))
                                (VStr m) (VStr u) (vnum k)])%list,
     Ret tt).
Proof.
  intros Hk Hstored. unfold scheduleRetry, retry_count_key in *. exec.
  rewrite stored_get, Hstored, or_else_count by (unfold Num.small; lia).
  unfold vnum at 1. exec.
  change (Z.of_nat (length retryDelays)) with 4.
  rewrite lt_of_Z by (unfold Num.small; lia).
  destruct (Z.ltb_spec k 4); [|lia].
  rewrite delay_at_count by exact Hk. exec. reflexivity.
Qed.

(** scheduleRetry once four retries are on record. *)
Lemma run_scheduleRetry_exhausted w m u :
  stored w u (retry_count_key m) = count_attr 4 ->
  run (scheduleRetry (VStr m) (VStr u)) w = (w, Ret tt).
Proof.
  intros Hstored. unfold scheduleRetry, retry_count_key in *. exec.
  rewrite stored_get, Hstored, or_else_count by (unfold Num.small; lia).
  unfold vnum at 1. exec.
  change (Z.of_nat (length retryDelays)) with 4.
  rewrite lt_of_Z by (unfold Num.small; lia). reflexivity.
Qed.

(** The retry callback. *)
Lemma run_fire_retry w d m u k :
  0 <= k < 4 ->
  run (fire (RetryTimer d (VStr m) (VStr u) (vnum k))) w
  = (with_profile (log_to w [MessageRetry (VStr m)]) u
       (<[retry_count_key m := vnum (k + 1)]> (default ∅ (profiles w !! u))),
     Ret tt).
Proof.
  intros Hk. unfold fire. exec.
  rewrite plus_one_vnum by (unfold Num.small; lia). exec. reflexivity.
Qed.

Lemma log_to_twice w a b : log_to (log_to w a) b = log_to w (a ++ b)%list.
Proof. unfold log_to. cbn [profiles effects timers]. rewrite <- app_assoc. reflexivity. Qed.

Lemma run_undeliverable_retryable E w m u reason :
  reason = "soft_bounce" \/ reason = "temporary_failure" ->
  run (handleMessageUndeliverable E (undeliverable m u reason)) w
  = match run (scheduleRetry (VStr m) (VStr u)) (log_to w (failure_log m u reason)) with
    | (w1, Ret _) => (w1, Ret tt)
    | (w1, Throws e) => (w1, Throws e)
    | (w1, Unmodelled) => (w1, Unmodelled)
    end.
Proof.
  intros [-> | ->]; unfold handleMessageUndeliverable, undeliverable; exec;
    rewrite log_to_twice; reflexivity.
Qed.

Lemma timers_log_to w es : timers (log_to w es) = timers w.
Proof. reflexivity. Qed.

Lemma retries_with_profile m w u p :
  retries m (with_profile w u p) = retries m w.
Proof. reflexivity. Qed.

Lemma retries_with_timers m w ts : retries m (with_timers w ts) = retries m w.
Proof. reflexivity. Qed.

Lemma failure_log_no_retry m u reason :
  List.filter (is_retry_of m) (failure_log m u reason) = [].
Proof. reflexivity. Qed.

Lemma stored_with_profile w u p key :
  stored (with_profile w u p) u key = p !! key.
Proof. unfold stored, with_profile. cbn [profiles]. rewrite lookup_insert_eq. reflexivity. Qed.

(** One failure with a retryable reason while fewer than four retries are
    on record: the retry is scheduled with the delay of that rank, fires,
    and raises the count by one. *)
Lemma failure_round_retries E w m u reason k :
  reason = "soft_bounce" \/ reason = "temporary_failure" ->
  0 <= k < 4 ->
  timers w = [] ->
  stored w u (retry_count_key m) = count_attr k ->
  let data := undeliverable m u reason in
  timers (fst (run (handleMessageUndeliverable E data) w))
  = [RetryTimer (vnum (nth (Z.to_nat k) retryDelays 0)) (VStr m) (VStr u) (vnum k)]
  /\ timers (failure_round E data w) = []
  /\ stored (failure_round E data w) u (retry_count_key m) = count_attr (k + 1)
  /\ retries m (failure_round E data w) = S (retries m w).
Proof.
  intros Hreason Hk Htimers Hstored data. unfold failure_round, data.
  rewrite (run_undeliverable_retryable _ _ _ _ _ Hreason).
  rewrite (run_scheduleRetry _ m u k) by assumption.
  cbn [fst]. rewrite timers_log_to, Htimers. cbn [app].
  split; [reflexivity|].
  unfold fire_all. cbn [timers with_timers foldl].
  rewrite (run_fire_retry _ _ m u k) by exact Hk. cbn [fst].
  split; [reflexivity|]. split.
  - rewrite stored_with_profile, lookup_insert_eq, count_attr_succ by lia.
    reflexivity.
  - rewrite retries_with_profile, retries_app, !retries_with_timers, retries_app.
    rewrite failure_log_no_retry. cbn [List.filter is_retry_of].
    rewrite String.eqb_refl. cbn [length]. lia.
Qed.

(** A failure once four retries are on record schedules nothing. *)
Lemma failure_round_exhausted E w m u reason :
  reason = "soft_bounce" \/ reason = "temporary_failure" ->
  timers w = [] ->
  stored w u (retry_count_key m) = count_attr 4 ->
  let data := undeliverable m u reason in
  timers (failure_round E data w) = []
  /\ stored (failure_round E data w) u (retry_count_key m) = count_attr 4
  /\ retries m (failure_round E data w) = retries m w.
Proof.
  intros Hreason Htimers Hstored data. unfold failure_round, data.
  rewrite (run_undeliverable_retryable _ _ _ _ _ Hreason).
  rewrite (run_scheduleRetry_exhausted _ m u) by exact Hstored.
  cbn [fst]. unfold fire_all. rewrite timers_log_to, Htimers.
  cbn [foldl]. split; [reflexivity|]. split; [exact Hstored|].
  rewrite retries_with_timers, retries_app, failure_log_no_retry.
  cbn [length]. lia.
Qed.

Lemma failure_rounds E m u reason n :
  reason = "soft_bounce" \/ reason = "temporary_failure" ->
  forall k w,
    0 <= k <= 4 ->
    timers w = [] ->
    stored w u (retry_count_key m) = count_attr k ->
    let w' := Nat.iter n (failure_round E (undeliverable m u reason)) w in
    retries m w' = (retries m w + Nat.min n (Z.to_nat (4 - k)))%nat
    /\ timers w' = []
    /\ stored w' u (retry_count_key m) = count_attr (Z.min 4 (k + Z.of_nat n)).
Proof.
  intros Hreason. induction n as [|n IH]; intros k w Hk Htimers Hstored.
  - cbn [Nat.iter]. rewrite Z.add_0_r, Z.min_r by lia.
    rewrite Nat.min_0_l, Nat.add_0_r. auto.
  - cbv zeta. rewrite Nat.iter_succ_r.
    destruct (decide (k = 4)) as [->|Hne].
    + destruct (failure_round_exhausted E w m u reason Hreason Htimers Hstored)
        as (Ht & Hs & Hr).
      destruct (IH 4 _ ltac:(lia) Ht Hs) as (Hr' & Ht' & Hs').
      rewrite Hr', Hr. rewrite Hs', !Z.min_l by lia.
      change (Z.to_nat (4 - 4)) with 0%nat. rewrite !Nat.min_0_r. auto.
    + destruct (failure_round_retries E w m u reason k Hreason ltac:(lia)
                  Htimers Hstored) as (_ & Ht & Hs & Hr).
      destruct (IH (k + 1) _ ltac:(lia) Ht Hs) as (Hr' & Ht' & Hs').
      rewrite Hr', Hr, Hs'. split; [|split; [exact Ht'|f_equal; lia]].
      replace (Z.to_nat (4 - k)) with (S (Z.to_nat (4 - (k + 1)))) by lia.
      cbn [Nat.min]. lia.
Qed.

(** A hard failure: nothing is scheduled or retried, and the profile is
    marked at once. *)
Lemma run_undeliverable_hard E w m u reason :
  reason = "invalid_email" \/ reason = "hard_bounce" ->
  let r := run (handleMessageUndeliverable E (undeliverable m u reason)) w in
  snd r = Ret tt
  /\ timers (fst r) = timers w
  /\ retries m (fst r) = retries m w
  /\ stored (fst r) u "email_valid" = Some VFalse
  /\ stored (fst r) u "email_bounce_type" = Some (VStr "hard").
Proof.
  intros Hreason. cbv zeta.
  assert (Hrun : run (handleMessageUndeliverable E (undeliverable m u reason)) w
                 = match run (handleInvalidEmail (VStr u))
                               (log_to w (failure_log m u reason)) with
                   | (w1, Ret _) => (w1, Ret tt)
                   | (w1, Throws e) => (w1, Throws e)
                   | (w1, Unmodelled) => (w1, Unmodelled)
                   end).
  { destruct Hreason as [-> | ->];
      unfold handleMessageUndeliverable, undeliverable; exec;
      rewrite log_to_twice; reflexivity. }
  rewrite Hrun. unfold handleInvalidEmail, courier_send. exec.
  rewrite lookup_insert_eq. exec.
  set (p := merge_attrs _ _).
  assert (Hv : p !! "email_valid" = Some VFalse).
  { unfold p, merge_attrs. cbn [foldl fst snd VFalse].
    rewrite lookup_insert_ne, lookup_insert_eq by done. reflexivity. }
  assert (Hb : p !! "email_bounce_type" = Some (VStr "hard")).
  { unfold p, merge_attrs. cbn [foldl fst snd VFalse].
    rewrite lookup_insert_eq. reflexivity. }
  destruct (truthy (default VUndef (p !! "phone_number"))); exec;
    (split; [reflexivity|]); (split; [reflexivity|]).
  - rewrite retries_app, retries_with_profile, retries_app, failure_log_no_retry.
    change (stored (log_to ?x ?es) u ?k) with (stored x u k).
    rewrite !stored_with_profile. cbn [List.filter is_retry_of length].
    split; [lia|]. split; assumption.
  - rewrite retries_with_profile, retries_app, failure_log_no_retry.
    rewrite !stored_with_profile. cbn [length].
    split; [lia|]. split; assumption.
Qed.

(** One failure with a retryable reason while fewer than four retries are
    on record: one timer is added, with the delay of that rank, and neither
    the profile nor the number of retries changes until it fires. *)
Lemma run_undeliverable_schedules E w m u reason k :
  reason = "soft_bounce" \/ reason = "temporary_failure" ->
  0 <= k < 4 ->
  stored w u (retry_count_key m) = count_attr k ->
  let r := run (handleMessageUndeliverable E (undeliverable m u reason)) w in
  snd r = Ret tt
  /\ timers (fst r)
     = (timers w ++ [RetryTimer (vnum (nth (Z.to_nat k) retryDelays 0))
                                (VStr m) (VStr u) (vnum k)])%list
  /\ profiles (fst r) = profiles w
  /\ retries m (fst r) = retries m w.
Proof.
  intros Hreason Hk Hstored. cbv zeta.
  rewrite (run_undeliverable_retryable _ _ _ _ _ Hreason).
  rewrite (run_scheduleRetry _ m u k) by assumption.
  cbn [fst snd]. rewrite timers_log_to.
  split; [reflexivity|]. split; [reflexivity|]. split; [reflexivity|].
  rewrite retries_with_timers, retries_app, failure_log_no_retry.
  cbn [length]. lia.
Qed.

(** One failure with a retryable reason once four retries are on record:
    nothing is scheduled. *)
Lemma run_undeliverable_gives_up E w m u reason :
  reason = "soft_bounce" \/ reason = "temporary_failure" ->
  stored w u (retry_count_key m) = count_attr 4 ->
  let r := run (handleMessageUndeliverable E (undeliverable m u reason)) w in
  snd r = Ret tt
  /\ timers (fst r) = timers w
  /\ profiles (fst r) = profiles w
  /\ retries m (fst r) = retries m w.
Proof.
  intros Hreason Hstored. cbv zeta.
  rewrite (run_undeliverable_retryable _ _ _ _ _ Hreason).
  rewrite (run_scheduleRetry_exhausted _ m u) by exact Hstored.
  cbn [fst snd]. rewrite timers_log_to.
  split; [reflexivity|]. split; [reflexivity|]. split; [reflexivity|].
  rewrite retries_app, failure_log_no_retry. cbn [length]. lia.
Qed.

(** C7, as the code has it.  The four delays are 5 minutes, 30 minutes, 2
    hours and 24 hours, each longer than the one before.  A failure with a
    retryable reason, handled while k < 4 retries are on record for the
    message, schedules one retry with the delay of rank k and changes
    neither the record nor the number of retries made; handled when four
    are on record it schedules nothing.  The record is raised, to k + 1,
    only when the retry fires.  So over n failures, each handled after the
    retry scheduled by the one before has fired, messages.retry is called
    min(n, 4) times.  A hard failure schedules and retries nothing and sets
    email_valid = false on the profile at once. *)
Theorem C7_retries_follow_the_count_on_record
    (E : Env) (w : World) (m u : string) (n : nat) :
  timers w = [] ->
  stored w u (retry_count_key m) = None ->
  (retryDelays = [300000; 1800000; 7200000; 86400000]
   /\ StronglySorted Z.lt retryDelays)
  /\ (forall reason,
        reason = "soft_bounce" \/ reason = "temporary_failure" ->
        let data := undeliverable m u reason in
        (forall w0 k,
           0 <= k < 4 ->
           stored w0 u (retry_count_key m) = count_attr k ->
           let r := run (handleMessageUndeliverable E data) w0 in
           snd r = Ret tt
           /\ timers (fst r)
              = (timers w0
                 ++ [RetryTimer (vnum (nth (Z.to_nat k) retryDelays 0))
                                (VStr m) (VStr u) (vnum k)])%list
           /\ profiles (fst r) = profiles w0
           /\ retries m (fst r) = retries m w0)
        /\ (forall w0,
              stored w0 u (retry_count_key m) = count_attr 4 ->
              let r := run (handleMessageUndeliverable E data) w0 in
              snd r = Ret tt
              /\ timers (fst r) = timers w0
              /\ profiles (fst r) = profiles w0
              /\ retries m (fst r) = retries m w0)
        /\ (let w' := Nat.iter n (failure_round E data) w in
            retries m w' = (retries m w + Nat.min n (length retryDelays))%nat
            /\ (retries m w' <= retries m w + length retryDelays)%nat))
  /\ (forall d k w0,
        0 <= k < 4 ->
        let w1 := fst (run (fire (RetryTimer d (VStr m) (VStr u) (vnum k))) w0) in
        retries m w1 = S (retries m w0)
        /\ stored w1 u (retry_count_key m) = Some (vnum (k + 1)))
  /\ (forall reason,
        reason = "invalid_email" \/ reason = "hard_bounce" ->
        let r := run (handleMessageUndeliverable E (undeliverable m u reason)) w in
        snd r = Ret tt
        /\ timers (fst r) = []
        /\ retries m (fst r) = retries m w
        /\ retries m (fire_all (fst r)) = retries m w
        /\ stored (fst r) u "email_valid" = Some VFalse).
Proof.
  intros Htimers Hstored. split; [|split; [|split]].
  - split; [reflexivity|].
    repeat (constructor; [|repeat constructor; reflexivity]). constructor.
  - intros reason Hreason. cbv zeta. split; [|split].
    + intros w0 k Hk Hk0.
      exact (run_undeliverable_schedules E w0 m u reason k Hreason Hk Hk0).
    + intros w0 Hk0.
      exact (run_undeliverable_gives_up E w0 m u reason Hreason Hk0).
    + destruct (failure_rounds E m u reason n Hreason 0 w ltac:(lia) Htimers Hstored)
        as (Hr & _ & _).
      rewrite Hr. change (Z.to_nat (4 - 0)) with (length retryDelays).
      split; [reflexivity|lia].
  - intros d k w0 Hk. cbv zeta.
    rewrite (run_fire_retry _ _ m u k) by exact Hk. cbn [fst].
    split.
    + rewrite retries_with_profile, retries_app.
      cbn [List.filter is_retry_of]. rewrite String.eqb_refl. cbn [length]. lia.
    + rewrite stored_with_profile. apply lookup_insert_eq.
  - intros reason Hreason. cbv zeta.
    destruct (run_undeliverable_hard E w m u reason Hreason)
      as (Hret & Ht & Hr & Hv & _).
    rewrite Ht, Htimers in *. repeat split; try assumption.
    unfold fire_all. rewrite Ht. cbn [foldl]. exact Hr.
Qed.

(** Six soft bounces of one message in an empty world, each handled after
    the retry of the one before has fired: four retries. *)
Lemma C7_retries_follow_the_count_on_record_witness :
  retries "m1" (Nat.iter 6 (failure_round test_env
                              (undeliverable "m1" "u1" "soft_bounce"))
                         empty_world) = 4%nat.
Proof.
  destruct (C7_retries_follow_the_count_on_record test_env empty_world "m1" "u1" 6
              eq_refl eq_refl) as (_ & Hsoft & _).
  destruct (Hsoft "soft_bounce" (or_introl eq_refl)) as (_ & _ & Hrounds).
  exact (proj1 Hrounds).
Defined.

(** C7 as stated does not hold: the bound rests on the count on record,
    which handling a failure does not raise.  Six soft bounces of one
    message handled before any retry has fired (the first retry is five
    minutes away) schedule six retries, all with the first delay; once the
    timers fire messages.retry has been called six times, more than the
    four delays of the sequence, and the count on record is 1. *)
Lemma C7_counterexample :
  let w6 := failure_burst 6 test_env (undeliverable "m1" "u1" "soft_bounce")
                          empty_world in
  length retryDelays = 4%nat
  /\ timers w6
     = repeat (RetryTimer (vnum 300000) (VStr "m1") (VStr "u1") (vnum 0)) 6
  /\ retries "m1" w6 = 0%nat
  /\ retries "m1" (fire_all w6) = 6%nat
  /\ stored (fire_all w6) "u1" (retry_count_key "m1") = Some (vnum 1).
Proof. cbv zeta. repeat split; vm_compute; reflexivity. Qed.

(** *** Replayed events *)

Lemma length_append (s t : string) :
  String.length (s ++ t) = (String.length s + String.length t)%nat.
Proof. induction s as [|c s IH]; simpl; [reflexivity|]. f_equal. exact IH. Qed.

Lemma sent_count_key_ne ch : "last_engagement" <> sent_count_key ch.
Proof.
  intros H. apply (f_equal String.length) in H. unfold sent_count_key in H.
  rewrite length_append in H. cbn [String.length] in H. lia.
Qed.

Lemma field_not_nullish v k s : field v k = VStr s -> nullish v = false.
Proof. destruct v; try discriminate; reflexivity. Qed.

(** [v + 1] is a text or a number. *)
Lemma plus_one_defined v c : plus_one v = Ret c -> c <> VUndef.
Proof.
  unfold plus_one. destruct v; cbn [to_number mbind Outcome_bind];
    try (intros [= <-]; discriminate); discriminate.
Qed.

Lemma merge_count key c iso old :
  c <> VUndef ->
  merge_attrs [(key, c); ("last_engagement", VStr iso)] old
  = <["last_engagement" := VStr iso]> (<[key := c]> old).
Proof. intros Hc. destruct c; try reflexivity. destruct (Hc eq_refl). Qed.

(** One ingestion of a message:sent event: one analytics entry, and the
    counter c becomes (c || 0) + 1. *)
Lemma ingest_sent E req w rid ch c :
  accepted E req ->
  field (body req) "type" = VStr "message:sent" ->
  field (field (body req) "data") "recipientId" = VStr rid ->
  field (field (body req) "data") "channel" = VStr ch ->
  plus_one (currentCount (stored w rid (sent_count_key ch))) = Ret c ->
  post_webhooks_courier E req w
  = (with_profile (log_to w [sent_log (field (body req) "data")]) rid
       (<["last_engagement" := VStr (iso_now E)]>
        (<[sent_count_key ch := c]> (default ∅ (profiles w !! rid)))),
     Responded 200 (VObj [("received", VTrue)])).
Proof.
  intros Hacc Htype Hrid Hch Hplus.
  unfold post_webhooks_courier. unfold accepted in Hacc. rewrite Hacc.
  unfold prop. rewrite (field_not_nullish _ _ _ Htype), Htype.
  unfold dispatch. cbn [is_text String.eqb Ascii.eqb Bool.eqb].
  unfold handleMessageSent, updateUserEngagement.
  set (data := field (body req) "data") in *.
  unfold destructure, sent_log.
  rewrite (field_not_nullish _ _ _ Hrid), Hrid, Hch. exec.
  change (ch ++ "_" ++ "message_sent" ++ "_count") with (sent_count_key ch).
  rewrite stored_get.
  change (or_else (default VUndef ?x) (vnum 0)) with (currentCount x).
  rewrite Hplus. exec.
  rewrite (merge_count _ _ _ _ (plus_one_defined _ _ Hplus)). reflexivity.
Qed.

(** A counter that holds an integer n, or is absent for 0, becomes n + 1. *)
Lemma plus_one_count n :
  0 <= n < Num.small - 1 ->
  plus_one (currentCount (count_attr n)) = Ret (vnum (n + 1)).
Proof.
  intros Hn. unfold currentCount.
  rewrite or_else_count, plus_one_vnum by lia. reflexivity.
Qed.

Lemma plus_one_counted n :
  0 <= n < Num.small - 2 ->
  plus_one (currentCount (Some (vnum (n + 1)))) = Ret (vnum (n + 2)).
Proof.
  intros Hn. rewrite <- (count_attr_succ n) by lia.
  rewrite plus_one_count by lia. do 2 f_equal. lia.
Qed.

Lemma analytics_app ev w es :
  analytics ev (log_to w es)
  = (analytics ev w + length (List.filter (is_analytics ev) es))%nat.
Proof.
  unfold analytics. cbn [effects log_to].
  rewrite List.filter_app, length_app. reflexivity.
Qed.

Lemma stored_after_sent w rid ch p v old :
  stored (with_profile w rid
            (<["last_engagement" := p]> (<[sent_count_key ch := v]> old)))
         rid (sent_count_key ch) = Some v.
Proof.
  rewrite stored_with_profile.
  rewrite lookup_insert_ne, lookup_insert_eq by apply sent_count_key_ne.
  reflexivity.
Qed.

Lemma analytics_after_sent w data rid p :
  analytics "message_sent" (with_profile (log_to w [sent_log data]) rid p)
  = S (analytics "message_sent" w).
Proof.
  change (analytics ?ev (with_profile ?x ?u ?q)) with (analytics ev x).
  rewrite analytics_app.
  replace (List.filter _ [sent_log data]) with [sent_log data] by reflexivity.
  cbn [length]. lia.
Qed.

(** C6, as the code has it.  The route keeps no record of the events it
    has seen.  Every ingestion of a message:sent event whose signature is
    accepted and whose recipient and channel are texts is answered 200,
    logs one message_sent analytics entry and replaces the recipient's
    counter c for the channel by (c || 0) + 1.  Ingesting the same event
    twice therefore logs two entries and applies the increment twice, where
    a single ingestion logs one and applies it once; a counter that holds
    an integer n below 6000 (or is absent, for 0) holds n + 1 after one
    ingestion and n + 2 after two. *)
Theorem C6_every_ingestion_counts
    (E : Env) (req : Request) (w : World) (rid ch : string) (c1 c2 : Value) :
  accepted E req ->
  field (body req) "type" = VStr "message:sent" ->
  field (field (body req) "data") "recipientId" = VStr rid ->
  field (field (body req) "data") "channel" = VStr ch ->
  plus_one (currentCount (stored w rid (sent_count_key ch))) = Ret c1 ->
  plus_one (currentCount (Some c1)) = Ret c2 ->
  let once := post_webhooks_courier E req w in
  let twice := post_webhooks_courier E req (fst once) in
  snd once = Responded 200 (VObj [("received", VTrue)])
  /\ snd twice = Responded 200 (VObj [("received", VTrue)])
  /\ stored (fst once) rid (sent_count_key ch) = Some c1
  /\ stored (fst twice) rid (sent_count_key ch) = Some c2
  /\ analytics "message_sent" (fst once) = S (analytics "message_sent" w)
  /\ analytics "message_sent" (fst twice) = S (S (analytics "message_sent" w))
  /\ (forall n,
        0 <= n < 6000 ->
        stored w rid (sent_count_key ch) = count_attr n ->
        c1 = vnum (n + 1) /\ c2 = vnum (n + 2)).
Proof.
  intros Hacc Htype Hrid Hch Hc1 Hc2. cbv zeta.
  rewrite (ingest_sent E req w rid ch c1) by assumption.
  cbn [fst snd].
  set (w1 := with_profile _ rid _).
  assert (Hst1 : stored w1 rid (sent_count_key ch) = Some c1)
    by (unfold w1; apply stored_after_sent).
  rewrite (ingest_sent E req w1 rid ch c2)
    by (try assumption; rewrite Hst1; exact Hc2).
  cbn [fst snd].
  rewrite stored_after_sent, analytics_after_sent.
  unfold w1. rewrite stored_after_sent, analytics_after_sent.
  do 6 (split; [reflexivity|]).
  intros n Hn Hcount.
  rewrite Hcount, plus_one_count in Hc1 by (unfold Num.small; lia).
  injection Hc1 as <-.
  rewrite plus_one_counted in Hc2 by (unfold Num.small; lia).
  injection Hc2 as <-. split; reflexivity.
Qed.

(** The signed message:sent event of the scenario, in an empty world. *)
Lemma C6_every_ingestion_counts_witness :
  let once := post_webhooks_courier test_env (signed test_env sent_event)
                                    empty_world in
  let twice := post_webhooks_courier test_env (signed test_env sent_event)
                                     (fst once) in
  stored (fst once) "u1" "email_message_sent_count" = Some (vnum 1)
  /\ stored (fst twice) "u1" "email_message_sent_count" = Some (vnum 2).
Proof.
  destruct (C6_every_ingestion_counts test_env (signed test_env sent_event)
              empty_world "u1" "email" (vnum 1) (vnum 2))
    as (_ & _ & H1 & H2 & _);
    [vm_compute; reflexivity|reflexivity|reflexivity|reflexivity
    |vm_compute; reflexivity|vm_compute; reflexivity|].
  split; [exact H1|exact H2].
Defined.

(** C6 as stated does not hold: the identical event, id and all, ingested
    twice is answered 200 twice and counted twice. *)
Lemma C6_counterexample :
  replay = (Responded 200 (VObj [("received", VTrue)]),
            Responded 200 (VObj [("received", VTrue)]),
            Some (vnum 1), Some (vnum 2), 1%nat, 2%nat).
Proof. vm_compute. reflexivity. Qed.

End WebhookFacts.

(** * More facts about the preference manager *)

Module PrefsMethodsFacts.
Import Js Prefs PrefsMethods NumFacts PrefsFacts.

(** *** The time to try again *)







(** *** Windows *)

(** The answer of isQuietHours for an enabled window of two times of day,
    in minutes since midnight. *)
Lemma isQuietHours_minutes E (cfg : gmap string JsVal) enabled sh sm eh em h mi :
  cfg !! "enabled" = Some enabled -> truthy enabled = true ->
  cfg !! "start" = Some (JStr (clock_text sh sm)) ->
  cfg !! "end" = Some (JStr (clock_text eh em)) ->
  0 <= sh < 24 -> 0 <= sm < 60 -> 0 <= eh < 24 -> 0 <= em < 60 ->
  user_clock E (default JUndef (cfg !! "timezone")) = Ret (h, mi) ->
  isQuietHours E (JObj cfg)
  = Ret (if eh * 60 + em <? sh * 60 + sm
         then (sh * 60 + sm <=? h * 60 + mi) || (h * 60 + mi <? eh * 60 + em)
         else (sh * 60 + sm <=? h * 60 + mi) && (h * 60 + mi <? eh * 60 + em)).
Proof.
  intros Hen Htr Hs He Hsh Hsm Heh Hem Hclock.
  destruct (user_clock_range _ _ _ _ Hclock) as [Hh Hmi].
  unfold isQuietHours, get. run.
  rewrite Hen, Hs, He. run. rewrite Htr. run.
  rewrite Hclock. run.
  rewrite !hour_minute_clock_text by lia. run.
  unfold minutes_of. cbn [fst snd].
  rewrite !minutes_exact by lia.
  rewrite gt_of_Z, ge_of_Z, lt_of_Z by (unfold Num.small; lia).
  destruct (_ <? _); reflexivity.
Qed.

(** X2.  Exchanging the start and the end of an enabled window whose two
    times differ gives the complementary window: at every instant exactly
    one of the two is quiet. *)
Theorem X2_exchanged_window_is_the_complement
    (E : Env) (cfg : gmap string JsVal) (enabled : JsVal)
    (sh sm eh em h mi : Z) :
  cfg !! "enabled" = Some enabled -> truthy enabled = true ->
  cfg !! "start" = Some (JStr (clock_text sh sm)) ->
  cfg !! "end" = Some (JStr (clock_text eh em)) ->
  0 <= sh < 24 -> 0 <= sm < 60 -> 0 <= eh < 24 -> 0 <= em < 60 ->
  user_clock E (default JUndef (cfg !! "timezone")) = Ret (h, mi) ->
  sh * 60 + sm <> eh * 60 + em ->
  exists quiet,
    isQuietHours E (JObj cfg) = Ret quiet
    /\ isQuietHours E
         (JObj (<["start" := JStr (clock_text eh em)]>
               (<["end" := JStr (clock_text sh sm)]> cfg)))
       = Ret (negb quiet).
Proof.
  intros Hen Htr Hs He Hsh Hsm Heh Hem Hclock Hne.
  rewrite (isQuietHours_minutes E cfg enabled sh sm eh em h mi) by assumption.
  rewrite (isQuietHours_minutes E _ enabled eh em sh sm h mi);
    try assumption;
    [|rewrite !lookup_insert_ne by done; exact Hen
     |apply lookup_insert_eq
     |rewrite lookup_insert_ne, lookup_insert_eq by done; reflexivity
     |rewrite !lookup_insert_ne by done; exact Hclock].
  eexists. split; [reflexivity|]. f_equal.
  destruct (Z.ltb_spec (eh * 60 + em) (sh * 60 + sm)),
    (Z.ltb_spec (sh * 60 + sm) (eh * 60 + em)),
    (Z.leb_spec (sh * 60 + sm) (h * 60 + mi)),
    (Z.leb_spec (eh * 60 + em) (h * 60 + mi)),
    (Z.ltb_spec (h * 60 + mi) (eh * 60 + em)),
    (Z.ltb_spec (h * 60 + mi) (sh * 60 + sm)); cbn; try reflexivity; lia.
Qed.

(** The default window 21:00-09:00 and its exchange 09:00-21:00, at noon
    in New York. *)
Lemma X2_exchanged_window_is_the_complement_witness :
  exists quiet,
    isQuietHours noon default_quiet_hours = Ret quiet
    /\ isQuietHours noon
         (JObj (<["start" := JStr (clock_text 9 0)]>
               (<["end" := JStr (clock_text 21 0)]>
                  (own_props default_quiet_hours))))
       = Ret (negb quiet).
Proof.
  apply (X2_exchanged_window_is_the_complement noon _ JTrue 21 0 9 0 12 0);
    try reflexivity; lia.
Defined.

(** X3.  An enabled window whose start and end are the same time of day is
    never quiet: it is the empty window, not the whole day. *)
Theorem X3_window_of_equal_ends_is_never_quiet
    (E : Env) (cfg : gmap string JsVal) (enabled : JsVal) (sh sm h mi : Z) :
  cfg !! "enabled" = Some enabled -> truthy enabled = true ->
  cfg !! "start" = Some (JStr (clock_text sh sm)) ->
  cfg !! "end" = Some (JStr (clock_text sh sm)) ->
  0 <= sh < 24 -> 0 <= sm < 60 ->
  user_clock E (default JUndef (cfg !! "timezone")) = Ret (h, mi) ->
  isQuietHours E (JObj cfg) = Ret false.
Proof.
  intros Hen Htr Hs He Hsh Hsm Hclock.
  rewrite (isQuietHours_minutes E cfg enabled sh sm sh sm h mi) by assumption.
  rewrite Z.ltb_irrefl. f_equal.
  destruct (Z.leb_spec (sh * 60 + sm) (h * 60 + mi)),
    (Z.ltb_spec (h * 60 + mi) (sh * 60 + sm)); cbn; try reflexivity; lia.
Qed.

Lemma X3_window_of_equal_ends_is_never_quiet_witness :
  isQuietHours noon
    (JObj (<["end" := JStr (clock_text 21 0)]> (own_props default_quiet_hours)))
  = Ret false.
Proof.
  apply (X3_window_of_equal_ends_is_never_quiet noon _ JTrue 21 0 12 0);
    try reflexivity; lia.
Defined.

(** *** What the evaluator does not look at *)

(** X4.  applyPreferences reads the unsubscribed flag and the frequency
    settings only: whatever the channels and the categories of a record
    are set to, the decision is the same. *)
Theorem X4_decision_ignores_channels_and_categories
    (E : Env) (c : Courier) (userId : string)
    (record : gmap string JsVal) (chs cats : JsVal) :
  applyPreferences E c userId
    (JObj (<["channels" := chs]> (<["categories" := cats]> record)))
  = applyPreferences E c userId (JObj record).
Proof.
  unfold applyPreferences, get. cbn [own_props].
  rewrite !lookup_insert_ne by done. reflexivity.
Qed.

(** *** Records read and written *)

Lemma getUserPreferences_fresh this c userId v :
  getUserPreferences this c userId = Fresh v ->
  exists stored,
    pref_store c !! userId = Some stored /\ nullish stored = false
    /\ v = merged_record this (own_props stored)
             (own_props (get_opt stored "channels"))
             (own_props (get_opt stored "categories"))
             (own_props (get_opt stored "frequency"))
             (own_props (get_opt (get_opt stored "frequency") "quiet_hours")).
Proof.
  unfold getUserPreferences, preferences_get.
  destruct (pref_store c !! userId) as [stored|]; [|discriminate].
  cbn [mbind Outcome_bind].
  destruct (nullish stored) eqn:Hnn.
  { destruct stored; discriminate. }
  rewrite mergeWithDefaults_shape by exact Hnn. intros [= <-].
  exists stored. split; [reflexivity|]. split; [exact Hnn|reflexivity].
Qed.

Lemma getUserPreferences_shape this c userId v :
  getUserPreferences this c userId = Fresh v ->
  exists top ch cat fr qh, v = merged_record this top ch cat fr qh.
Proof.
  intros H. apply getUserPreferences_fresh in H as (stored & _ & _ & ->).
  do 5 eexists. reflexivity.
Qed.

(** The effective record of a recipient with a stored record. *)
Lemma effective_stored this c userId stored :
  pref_store c !! userId = Some stored -> nullish stored = false ->
  effectivePreferences (this, c) userId
  = merged_record this (own_props stored)
      (own_props (get_opt stored "channels"))
      (own_props (get_opt stored "categories"))
      (own_props (get_opt stored "frequency"))
      (own_props (get_opt (get_opt stored "frequency") "quiet_hours")).
Proof.
  intros Hs Hnn.
  unfold effectivePreferences, getUserPreferences, preferences_get.
  cbn [fst snd]. rewrite Hs. cbn [mbind Outcome_bind].
  rewrite mergeWithDefaults_shape by exact Hnn. reflexivity.
Qed.

Lemma channel_of_merged this top ch cat fr qh k :
  channel_of (merged_record this top ch cat fr qh) k
  = default JUndef ((ch ∪ channels this) !! k).
Proof. unfold channel_of. rewrite merged_record_channels. reflexivity. Qed.

Lemma category_of_merged this top ch cat fr qh k :
  category_of (merged_record this top ch cat fr qh) k
  = default JUndef ((cat ∪ categories this) !! k).
Proof. unfold category_of. rewrite merged_record_categories. reflexivity. Qed.

(** The effective record of a recipient whose stored record is a validated
    one. *)
Lemma effective_validated this c userId k :
  pref_store c !! userId = Some (to_js this) ->
  channel_of (effectivePreferences (this, c) userId) k
  = default JUndef (channels this !! k).
Proof.
  intros Hs. rewrite (effective_stored _ _ _ _ Hs) by reflexivity.
  rewrite channel_of_merged, lookup_union.
  replace (own_props (get_opt (to_js this) "channels")) with (channels this)
    by reflexivity.
  destruct (channels this !! k); reflexivity.
Qed.

Lemma validated_channels this (P src : gmap string JsVal) validated :
  P !! "channels" = Some (JObj src) ->
  validatePreferences this (JObj P) = Ret validated ->
  channels validated = validate_channels src (channels this).
Proof.
  intros HP. rewrite validatePreferences_returns by reflexivity.
  intros [= <-]. cbn [channels get_opt own_props]. rewrite HP. reflexivity.
Qed.

(** An update with a record leaves the validated record as the default
    record and as the stored record of the recipient. *)
Lemma updatePreferences_record E this c userId (P : gmap string JsVal) :
  exists validated c',
    validatePreferences this (JObj P) = Ret validated
    /\ fst (updatePreferences E (this, c) userId (JObj P)) = (validated, c')
    /\ pref_store c' = <[userId := to_js validated]> (pref_store c).
Proof.
  destruct (validatePreferences this (JObj P)) as [validated| |] eqn:Hv;
    [|discriminate Hv..].
  exists validated. eexists. split; [reflexivity|].
  rewrite (updatePreferences_state _ _ _ _ _ _ Hv). split; reflexivity.
Qed.

Lemma assigned_some k x old : is_Some old -> assigned k x old = Some x.
Proof. intros [v ->]. unfold assigned. destruct (decide _); reflexivity. Qed.

Lemma assigned_plain k x old : k <> "__proto__" -> assigned k x old = Some x.
Proof. intros H. unfold assigned. destruct (decide _); [contradiction|reflexivity]. Qed.

(** *** Unsubscribing and resubscribing *)

(** The state unsubscribeAll leaves: the record it validated is the default
    record and the recipient's stored record, and every channel the default
    record had is switched off in it. *)
Lemma unsubscribeAll_state E this c userId reason_ :
  exists validated c',
    fst (unsubscribeAll E (this, c) userId reason_) = (validated, c')
    /\ pref_store c' = <[userId := to_js validated]> (pref_store c)
    /\ forall k, is_Some (channels this !! k) ->
                 channels validated !! k = Some JFalse.
Proof.
  unfold unsubscribeAll.
  destruct (getUserPreferences this c userId) as [v|] eqn:Hg.
  - apply getUserPreferences_shape in Hg as (top & ch & cat & fr & qh & ->).
    unfold merged_record, set_field, set_all_channels, get_opt. cbn [own_props].
    rewrite !lookup_insert_ne, lookup_insert_eq by done.
    cbn [default from_option id set_field].
    match goal with
    | |- context [updatePreferences ?E (_, ?c1) ?u (JObj ?P)] =>
        destruct (updatePreferences_record E this c1 u P)
          as (validated & c' & Hv & -> & Hstore)
    end.
    exists validated, c'. split; [reflexivity|]. split; [exact Hstore|].
    intros k [v0 Hk].
    rewrite (validated_channels _ _ _ _ (lookup_insert_eq _ _ _) Hv).
    rewrite validate_channels_lookup, lookup_fmap, lookup_union, Hk.
    destruct (ch !! k); simpl; apply assigned_some; eauto.
  - match goal with
    | |- context [updatePreferences ?E (?t, ?c1) ?u (to_js ?t)] =>
        destruct (updatePreferences_record E t c1 u (preferences_props t))
          as (validated & c' & Hv & Hst & Hstore)
    end.
    unfold to_js. rewrite Hst. clear Hst.
    exists validated, c'. split; [reflexivity|]. split; [exact Hstore|].
    intros k [v0 Hk]. unfold preferences_props in Hv.
    rewrite (validated_channels _ _ _ _ (lookup_insert_eq _ _ _) Hv).
    cbn [channels].
    rewrite validate_channels_lookup, lookup_fmap, Hk.
    simpl. apply assigned_some. eauto.
Qed.

(** X5.  unsubscribeAll switches off every channel of the manager's default
    record, which all recipients share: afterwards any other recipient
    whose stored record does not set a channel finds it switched off in the
    effective record. *)
Theorem X5_unsubscribeAll_switches_the_defaults_off
    (E : Env) (this : Preferences) (c : Courier)
    (userId reason_ k other : string) (stored : JsVal) :
  is_Some (channels this !! k) ->
  other <> userId ->
  pref_store c !! other = Some stored -> nullish stored = false ->
  own_props (get_opt stored "channels") !! k = None ->
  let st := fst (unsubscribeAll E (this, c) userId reason_) in
  channels (fst st) !! k = Some JFalse
  /\ channel_of (effectivePreferences st other) k = JFalse.
Proof.
  intros Hk Hother Hs Hnn Hnone. cbv zeta.
  destruct (unsubscribeAll_state E this c userId reason_)
    as (validated & c' & -> & Hstore & Hoff).
  cbn [fst]. split; [apply Hoff, Hk|].
  rewrite (effective_stored validated c' other stored), channel_of_merged;
    [|rewrite Hstore, lookup_insert_ne by congruence; exact Hs|exact Hnn].
  rewrite lookup_union, Hnone, (Hoff k Hk). reflexivity.
Qed.

(** alice unsubscribes; bob, who stored nothing, loses push. *)
Lemma X5_unsubscribeAll_switches_the_defaults_off_witness :
  let st := fst (unsubscribeAll noon fresh_state "alice" "too many emails") in
  channels (fst st) !! "push" = Some JFalse
  /\ channel_of (effectivePreferences st "bob") "push" = JFalse.
Proof.
  apply (X5_unsubscribeAll_switches_the_defaults_off
           noon defaultPreferences (account ["alice"; "bob"] ∅)
           "alice" "too many emails" "push" "bob" (JObj ∅));
    [eexists; reflexivity|discriminate|reflexivity|reflexivity|reflexivity].
Defined.


Lemma resubscribe_channels (src : gmap string JsVal) k :
  k <> "email" -> k <> "inbox" ->
  (<["inbox" := JTrue]> (<["email" := JTrue]> src)) !! k = src !! k.
Proof. intros H1 H2. rewrite !lookup_insert_ne by congruence. reflexivity. Qed.

(** The state resubscribe leaves, from a state in which the recipient's
    stored record is the default record. *)
Lemma resubscribe_state E this c userId :
  pref_store c !! userId = Some (to_js this) ->
  exists validated c',
    fst (resubscribe E (this, c) userId) = (validated, c')
    /\ pref_store c' !! userId = Some (to_js validated)
    /\ channels validated !! "email" = Some JTrue
    /\ channels validated !! "inbox" = Some JTrue
    /\ forall k, k <> "email" -> k <> "inbox" ->
                 channels validated !! k = channels this !! k.
Proof.
  intros Hs. unfold resubscribe.
  assert (Hg : getUserPreferences this c userId
               = Fresh (merged_record this (own_props (to_js this))
                          (channels this) (categories this)
                          (frequency_props (frequency this))
                          (own_props (quiet_hours (frequency this))))).
  { unfold getUserPreferences, preferences_get. rewrite Hs. reflexivity. }
  rewrite Hg.
  unfold merged_record. cbn [set_field get_opt own_props].
  rewrite !lookup_insert_ne, lookup_insert_eq by done.
  cbn [default from_option id own_props].
  match goal with
  | |- context [updatePreferences ?E (_, ?c1) ?u (JObj ?P)] =>
      destruct (updatePreferences_record E this c1 u P)
        as (validated & c' & Hv & -> & Hstore)
  end.
  exists validated, c'. split; [reflexivity|].
  split; [rewrite Hstore; apply lookup_insert_eq|].
  rewrite (validated_channels _ _ _ _ (lookup_insert_eq _ _ _) Hv).
  split; [|split].
  - rewrite validate_channels_lookup, lookup_insert_ne, lookup_insert_eq by done.
    apply assigned_plain. discriminate.
  - rewrite validate_channels_lookup, lookup_insert_eq.
    apply assigned_plain. discriminate.
  - intros k H1 H2.
    rewrite validate_channels_lookup, resubscribe_channels by assumption.
    rewrite lookup_union.
    destruct (channels this !! k) as [[]|] eqn:Hk; simpl; try reflexivity.
    apply assigned_some. eauto.
Qed.

(** X6.  resubscribe does not undo unsubscribeAll: it switches email and
    inbox back on, and every other channel of the default record stays
    switched off for the recipient. *)
Theorem X6_resubscribe_restores_email_and_inbox_only
    (E1 E2 : Env) (this : Preferences) (c : Courier)
    (userId reason_ k : string) :
  is_Some (channels this !! k) -> k <> "email" -> k <> "inbox" ->
  let st1 := fst (unsubscribeAll E1 (this, c) userId reason_) in
  let st2 := fst (resubscribe E2 st1 userId) in
  channel_of (effectivePreferences st2 userId) "email" = JTrue
  /\ channel_of (effectivePreferences st2 userId) "inbox" = JTrue
  /\ channel_of (effectivePreferences st2 userId) k = JFalse.
Proof.
  intros Hk Hemail Hinbox. cbv zeta.
  destruct (unsubscribeAll_state E1 this c userId reason_)
    as (v1 & c1 & -> & Hstore1 & Hoff).
  destruct (resubscribe_state E2 v1 c1 userId)
    as (v2 & c2 & -> & Hstore2 & He & Hi & Hrest);
    [rewrite Hstore1; apply lookup_insert_eq|].
  rewrite !(effective_validated _ _ _ _ Hstore2), He, Hi.
  rewrite (Hrest k Hemail Hinbox), (Hoff k Hk). repeat split.
Qed.

(** alice unsubscribes and resubscribes: push, on by default, stays off. *)
Lemma X6_resubscribe_restores_email_and_inbox_only_witness :
  let st1 := fst (unsubscribeAll noon fresh_state "alice" "") in
  let st2 := fst (resubscribe noon st1 "alice") in
  channel_of (effectivePreferences st2 "alice") "email" = JTrue
  /\ channel_of (effectivePreferences st2 "alice") "inbox" = JTrue
  /\ channel_of (effectivePreferences st2 "alice") "push" = JFalse.
Proof.
  apply (X6_resubscribe_restores_email_and_inbox_only
           noon noon defaultPreferences (account ["alice"; "bob"] ∅)
           "alice" "" "push");
    [eexists; reflexivity|discriminate|discriminate].
Defined.

(** *** Switching one channel *)

(** X7.  After updateChannelPreference with a boolean the channel has that
    value in the recipient's effective record, whether the recipient had a
    stored record or not; the same value is written into the manager's
    default record, which all recipients share. *)
Theorem X7_updateChannelPreference_is_read_back
    (E : Env) (this : Preferences) (c : Courier)
    (userId channel : string) (enabled : bool) :
  channel <> "__proto__" ->
  let st := fst (updateChannelPreference E (this, c) userId channel
                   (JBool enabled)) in
  channel_of (effectivePreferences st userId) channel = JBool enabled
  /\ channels (fst st) !! channel = Some (JBool enabled).
Proof.
  intros Hch. cbv zeta. unfold updateChannelPreference, sets_prototype.
  rewrite andb_false_r.
  destruct (getUserPreferences this c userId) as [v|] eqn:Hg.
  - apply getUserPreferences_shape in Hg as (top & ch & cat & fr & qh & ->).
    rewrite merged_record_channels.
    unfold merged_record. cbn [set_field own_props].
    match goal with
    | |- context [updatePreferences ?E (_, ?c1) ?u (JObj ?P)] =>
        destruct (updatePreferences_record E this c1 u P)
          as (validated & c' & Hv & -> & Hstore)
    end.
    assert (Hval : channels validated !! channel = Some (JBool enabled)).
    { rewrite (validated_channels _ _ _ _ (lookup_insert_eq _ _ _) Hv).
      rewrite validate_channels_lookup, assign_lookup_eq by exact Hch.
      apply assigned_plain, Hch. }
    cbn [fst]. split; [|exact Hval].
    rewrite (effective_validated validated c' userId), Hval;
      [reflexivity|rewrite Hstore; apply lookup_insert_eq].
  - match goal with
    | |- context [updatePreferences ?E (?t, ?c1) ?u (to_js ?t)] =>
        destruct (updatePreferences_record E t c1 u (preferences_props t))
          as (validated & c' & Hv & Hst & Hstore)
    end.
    unfold to_js. rewrite Hst. clear Hst.
    assert (Hval : channels validated !! channel = Some (JBool enabled)).
    { unfold preferences_props in Hv.
      rewrite (validated_channels _ _ _ _ (lookup_insert_eq _ _ _) Hv).
      cbn [channels].
      rewrite validate_channels_lookup, assign_lookup_eq by exact Hch.
      apply assigned_plain, Hch. }
    cbn [fst]. split; [|exact Hval].
    rewrite (effective_validated validated c' userId), Hval;
      [reflexivity|rewrite Hstore; apply lookup_insert_eq].
Qed.

(** zoe, who has no stored record, switches sms on. *)
Lemma X7_updateChannelPreference_is_read_back_witness :
  let st := fst (updateChannelPreference noon fresh_state "zoe" "sms" JTrue) in
  channel_of (effectivePreferences st "zoe") "sms" = JTrue
  /\ channels (fst st) !! "sms" = Some JTrue.
Proof.
  apply (X7_updateChannelPreference_is_read_back
           noon defaultPreferences (account ["alice"; "bob"] ∅) "zoe" "sms" true).
  discriminate.
Defined.

(** *** Quiet hours set field by field *)

Lemma validated_quiet_hours this (P F : gmap string JsVal) (q : JsVal) validated :
  P !! "frequency" = Some (JObj F) -> F !! "quiet_hours" = Some q ->
  truthy q = true ->
  validatePreferences this (JObj P) = Ret validated ->
  quiet_hours (frequency validated) = q.
Proof.
  intros HP HF Hq. rewrite validatePreferences_returns by reflexivity.
  intros [= <-]. cbn [frequency get_opt own_props]. rewrite HP.
  cbn [default from_option id]. unfold validate_frequency.
  cbn [truthy get_opt own_props quiet_hours]. rewrite HF.
  cbn [default from_option id]. rewrite Hq. reflexivity.
Qed.

Lemma validated_own_quiet_hours this validated :
  truthy (quiet_hours (frequency this)) = true ->
  validatePreferences this (to_js this) = Ret validated ->
  quiet_hours (frequency validated) = quiet_hours (frequency this).
Proof.
  intros Hq Hv.
  apply (validated_quiet_hours this (preferences_props this)
           (frequency_props (frequency this)) _ _); try assumption.
  - unfold preferences_props.
    rewrite !lookup_insert_ne, lookup_insert_eq by done. reflexivity.
  - unfold frequency_props.
    rewrite !lookup_insert_ne, lookup_insert_eq by done. reflexivity.
Qed.

Lemma effective_quiet_hours this c userId :
  pref_store c !! userId = Some (to_js this) ->
  quiet_of (effectivePreferences (this, c) userId)
  = JObj (own_props (quiet_hours (frequency this))).
Proof.
  intros Hs. rewrite (effective_stored _ _ _ _ Hs) by reflexivity.
  unfold quiet_of. rewrite merged_record_frequency.
  cbn [get_opt own_props]. rewrite lookup_insert_eq.
  cbn [default from_option id]. f_equal.
  replace (own_props (get_opt (get_opt (to_js this) "frequency") "quiet_hours"))
    with (own_props (quiet_hours (frequency this))) by reflexivity.
  apply map_eq. intros i. rewrite lookup_union.
  destruct (_ !! i); reflexivity.
Qed.

(** X8.  setQuietHours lays the fields it is given over the quiet hours in
    force and keeps every field it is not given: the quiet hours of the
    recipient's effective record afterwards are the given fields, and for
    every other name the field the effective record had before. *)
Theorem X8_setQuietHours_keeps_the_other_fields
    (E : Env) (this : Preferences) (c : Courier) (userId : string)
    (quietHours : JsVal) :
  let st := fst (setQuietHours E (this, c) userId quietHours) in
  quiet_of (effectivePreferences st userId)
  = JObj (own_props quietHours
          ∪ own_props (quiet_of (effectivePreferences (this, c) userId))).
Proof.
  cbv zeta. unfold setQuietHours, effectivePreferences at 2. cbn [fst snd].
  destruct (getUserPreferences this c userId) as [v|] eqn:Hg.
  - apply getUserPreferences_shape in Hg as (top & ch & cat & fr & qh & ->).
    unfold quiet_of at 2. rewrite !merged_record_frequency.
    cbn [get_opt own_props set_field]. rewrite lookup_insert_eq.
    cbn [default from_option id own_props]. unfold merged_record.
    cbn [set_field].
    match goal with
    | |- context [updatePreferences ?E (_, ?c1) ?u (JObj ?P)] =>
        destruct (updatePreferences_record E this c1 u P)
          as (validated & c' & Hv & -> & Hstore)
    end.
    rewrite (effective_quiet_hours validated c' userId)
      by (rewrite Hstore; apply lookup_insert_eq).
    rewrite (validated_quiet_hours _ _ _ (JObj _) _
               (lookup_insert_eq _ _ _) (lookup_insert_eq _ _ _) eq_refl Hv).
    reflexivity.
  - match goal with
    | |- context [updatePreferences ?E (?t, ?c1) ?u (to_js ?t)] =>
        destruct (updatePreferences_record E t c1 u (preferences_props t))
          as (validated & c' & Hv & Hst & Hstore)
    end.
    unfold to_js at 1. rewrite Hst. clear Hst.
    rewrite (effective_quiet_hours validated c' userId)
      by (rewrite Hstore; apply lookup_insert_eq).
    rewrite (fun H => validated_own_quiet_hours _ _ H Hv) by reflexivity.
    reflexivity.
Qed.

(** *** What merging does not enforce *)

(** X9.  Reading does not enforce what validation enforces: a category
    value held in the stored record, whatever it is, is the value of the
    effective record, for the required categories as for any other. *)
Theorem X9_stored_category_is_handed_out
    (this : Preferences) (c : Courier) (userId category : string)
    (stored cats : gmap string JsVal) (v : JsVal) :
  pref_store c !! userId = Some (JObj stored) ->
  stored !! "categories" = Some (JObj cats) ->
  cats !! category = Some v ->
  category_of (effectivePreferences (this, c) userId) category = v.
Proof.
  intros Hs Hcats Hv.
  rewrite (effective_stored _ _ _ _ Hs) by reflexivity.
  rewrite category_of_merged. cbn [get_opt own_props].
  rewrite Hcats. cbn [default from_option id own_props].
  rewrite lookup_union, Hv. destruct (categories this !! category); reflexivity.
Qed.

(** A record stored with security switched off is handed out with
    security switched off. *)
Lemma X9_stored_category_is_handed_out_witness :
  category_of
    (effectivePreferences
       (defaultPreferences,
        {| pref_store := {[ "mallory" := disable_required ]};
           profile_store := ∅; log_store := ∅; update_reply := JUndef |})
       "mallory") "security" = JFalse.
Proof.
  eapply (X9_stored_category_is_handed_out _ _ "mallory" "security");
    reflexivity.
Defined.

(** *** The shape validation keeps *)

Lemma assigned_boolean k b old v :
  assigned k (JBool b) old = Some v -> typeof_boolean v = true.
Proof.
  unfold assigned. destruct (decide _), old; intros [= <-]; reflexivity.
Qed.

Lemma assigned_keeps k x old : is_Some old -> is_Some (assigned k x old).
Proof. intros H. rewrite assigned_some by exact H. eauto. Qed.

Lemma validate_channels_boolean src target :
  all_boolean target -> all_boolean (validate_channels src target).
Proof.
  intros H k v. rewrite validate_channels_lookup.
  destruct (src !! k) as [[]|]; try apply H. apply assigned_boolean.
Qed.

Lemma validate_categories_boolean src target :
  all_boolean target -> all_boolean (validate_categories src target).
Proof.
  intros H k v. rewrite validate_categories_lookup.
  destruct (src !! k) as [[]|]; try apply H.
  destruct (required k); apply assigned_boolean.
Qed.

Lemma validate_channels_keeps src target k :
  is_Some (target !! k) -> is_Some (validate_channels src target !! k).
Proof.
  intros H. rewrite validate_channels_lookup.
  destruct (src !! k) as [[]|]; try exact H. apply assigned_keeps, H.
Qed.

Lemma validate_categories_keeps src target k :
  is_Some (target !! k) -> is_Some (validate_categories src target !! k).
Proof.
  intros H. rewrite validate_categories_lookup.
  destruct (src !! k) as [[]|]; try exact H. apply assigned_keeps, H.
Qed.

(** X10.  Validation keeps the channel and category switches well formed:
    when the default record holds only booleans there, so does the record
    returned, whatever the update holds, and no channel or category of the
    default record is missing from it. *)
Theorem X10_validation_keeps_switches_boolean
    (this : Preferences) (updates : JsVal) (validated : Preferences) :
  all_boolean (channels this) -> all_boolean (categories this) ->
  validatePreferences this updates = Ret validated ->
  all_boolean (channels validated) /\ all_boolean (categories validated)
  /\ (forall k, is_Some (channels this !! k) -> is_Some (channels validated !! k))
  /\ (forall k, is_Some (categories this !! k) ->
                is_Some (categories validated !! k)).
Proof.
  intros Hch Hcat.
  destruct (nullish updates) eqn:Hnn.
  { rewrite validatePreferences_throws by exact Hnn. discriminate. }
  rewrite validatePreferences_returns by exact Hnn. intros [= <-].
  cbn [channels categories]. split; [|split; [|split]].
  - destruct (truthy _); [apply validate_channels_boolean|]; exact Hch.
  - destruct (truthy (get_opt updates "categories"));
      [apply validate_categories_boolean|]; exact Hcat.
  - intros k H. destruct (truthy _); [apply validate_channels_keeps|]; exact H.
  - intros k H. destruct (truthy (get_opt updates "categories"));
      [apply validate_categories_keeps|]; exact H.
Qed.

Lemma defaults_boolean :
  all_boolean (channels defaultPreferences)
  /\ all_boolean (categories defaultPreferences).
Proof.
  split; intros k v; unfold defaultPreferences; cbn [channels categories];
    rewrite !lookup_insert; repeat case_decide;
    try (intros [= <-]; reflexivity); rewrite lookup_empty; discriminate.
Qed.

(** An update that gives email a text and sms a boolean, validated against
    the built-in defaults. *)
Lemma X10_validation_keeps_switches_boolean_witness :
  match validatePreferences defaultPreferences
          (JObj {[ "channels" := JObj (<["email" := JStr "no"]>
                                      (<["sms" := JTrue]> ∅)) ]}) with
  | Ret validated =>
      all_boolean (channels validated) /\ all_boolean (categories validated)
  | _ => False
  end.
Proof.
  pose proof (X10_validation_keeps_switches_boolean defaultPreferences
                (JObj {[ "channels" := JObj (<["email" := JStr "no"]>
                                            (<["sms" := JTrue]> ∅)) ]})) as H.
  destruct (validatePreferences _ _) as [validated| |] eqn:Hv;
    [|discriminate Hv..].
  destruct (H validated (proj1 defaults_boolean) (proj2 defaults_boolean) eq_refl)
    as (Hch & Hcat & _).
  split; assumption.
Defined.

(** *** A start without minutes *)

Lemma append_empty (s : string) : s ++ "" = s.
Proof.
  induction s as [|c s IH]; [reflexivity|].
  change (String c (s ++ "") = String c s). f_equal. exact IH.
Qed.

Lemma rev_app_append (s t u : string) :
  String.rev_app s t ++ u = String.rev_app s (t ++ u).
Proof.
  revert t. induction s as [|c s IH]; intros t; [reflexivity|].
  cbn [String.rev_app]. rewrite IH. reflexivity.
Qed.

(** A run of digits has no colon to split at. *)
Lemma split_digits s cur :
  all_digits s = true -> split_on ":" cur s = [String.rev cur ++ s].
Proof.
  revert cur. induction s as [|c s IH]; intros cur Hs.
  - cbn [split_on]. rewrite append_empty. reflexivity.
  - cbn [all_digits] in Hs. apply andb_prop in Hs as [Hc Hs].
    cbn [split_on].
    destruct (Ascii.eqb_spec c ":") as [->|_]; [discriminate Hc|].
    rewrite (IH _ Hs). unfold String.rev. cbn [String.rev_app].
    rewrite !rev_app_append. reflexivity.
Qed.

Lemma hour_minute_digits s :
  all_digits s = true ->
  hour_minute (JStr s) = Ret (Num.of_Z (digits_value 0 s), Num.NaN).
Proof.
  intros Hs. unfold hour_minute, split. rewrite (split_digits _ _ Hs).
  change (String.rev "" ++ s) with s.
  cbn [mapM]. unfold Number_of_text. rewrite Hs. reflexivity.
Qed.

Lemma add_nan x : Num.add x Num.NaN = Num.NaN.
Proof. destruct x as [[]|[]| |[]]; reflexivity. Qed.

Lemma minutes_of_nan x : minutes_of (x, Num.NaN) = Num.NaN.
Proof. unfold minutes_of. cbn [fst snd]. apply add_nan. Qed.

Lemma compare_nan_r x : SFcompare x Num.NaN = None.
Proof. destruct x as [[]|[]| |[]]; reflexivity. Qed.

(** X11.  A start written as a run of digits without a colon (2100 for
    21:00) does not raise an error: its minutes are read as NaN, every
    comparison with the start is false, and the enabled window is never
    quiet. *)
Theorem X11_start_without_minutes_is_never_quiet
    (E : Env) (cfg : gmap string JsVal) (enabled : JsVal)
    (start : string) (eh em h mi : Z) :
  cfg !! "enabled" = Some enabled -> truthy enabled = true ->
  cfg !! "start" = Some (JStr start) -> all_digits start = true ->
  cfg !! "end" = Some (JStr (clock_text eh em)) ->
  0 <= eh < 24 -> 0 <= em < 60 ->
  user_clock E (default JUndef (cfg !! "timezone")) = Ret (h, mi) ->
  isQuietHours E (JObj cfg) = Ret false.
Proof.
  intros Hen Htr Hs Hdigits He Heh Hem Hclock.
  unfold isQuietHours, get. run.
  rewrite Hen, Hs, He. run. rewrite Htr. run.
  rewrite Hclock. run.
  rewrite (hour_minute_digits _ Hdigits), hour_minute_clock_text by lia. run.
  rewrite !minutes_of_nan.
  unfold Num.gt, Num.ge, SFltb, SFleb. rewrite compare_nan_r. reflexivity.
Qed.

(** The default window with its start written 2100, at 23:30 in New York,
    when the window as written by default is quiet. *)
Lemma X11_start_without_minutes_is_never_quiet_witness :
  isQuietHours (at_new_york 23 30)
    (JObj (<["start" := JStr "2100"]> (own_props default_quiet_hours)))
  = Ret false.
Proof.
  apply (X11_start_without_minutes_is_never_quiet
           (at_new_york 23 30) _ JTrue "2100" 9 0 23 30);
    try reflexivity; lia.
Defined.

End PrefsMethodsFacts.

(** * More facts about the escalation check *)

Module EscalationMethodsFacts.
Import Js Escalation EscalationMethods EscalationFacts.

(** *** Blockers *)

(** X12.  identifyBlockers never returns an empty list: when no blocker is
    found the list holds the single entry that says so, and that entry
    never stands beside a blocker. *)
Theorem X12_blockers_are_never_empty
    (w : World) (userId : string) (found : list Blocker) :
  identifyBlockers w userId = Ret found ->
  found <> []
  /\ (In NoSpecificBlockers found -> found = [NoSpecificBlockers]).
Proof.
  unfold identifyBlockers.
  repeat match goal with
         | |- context [mbind _ ?c] =>
             destruct c as [?| |]; cbn [mbind Outcome_bind]; try discriminate
         end.
  match goal with
  | |- Ret (if (0 <? length ?l)%nat then _ else _) = _ -> _ => set (l0 := l)
  end.
  assert (Hno : ~ In NoSpecificBlockers l0).
  { unfold l0. rewrite !in_app_iff.
    repeat match goal with
           | |- context [if ?b then _ else _] => destruct b
           end; cbn [In]; intuition discriminate. }
  destruct (0 <? length l0)%nat eqn:Hlen; intros [= <-].
  - split; [|intros Hin; destruct (Hno Hin)].
    intros Hnil. rewrite Hnil in Hlen. discriminate Hlen.
  - split; [discriminate|reflexivity].
Qed.

(** The account of the scenario has no log entries: the four steps of
    onboarding are reported missing. *)
Lemma X12_blockers_are_never_empty_witness :
  identifyBlockers stuck_world "acme-admin"
  = Ret [NoTeamInvited; NoProjectCreated; NoIntegrationConnected;
         ProfileIncomplete]
  /\ [NoTeamInvited; NoProjectCreated; NoIntegrationConnected;
      ProfileIncomplete] <> [].
Proof.
  split; [reflexivity|].
  apply (X12_blockers_are_never_empty stuck_world "acme-admin").
  reflexivity.
Defined.

(** *** Who is alerted *)

Lemma shouldEscalate_true profile :
  shouldEscalate profile = Ret true ->
  is_text (get_opt profile "plan") "enterprise" = true
  /\ is_text (get_opt profile "onboarding_status") "completed" = false
  /\ truthy (get_opt profile "escalated") = false
  /\ exists days,
       to_number (get_opt profile "days_since_signup") = Ret days
       /\ Num.gt days (Num.of_Z 3) = true.
Proof.
  unfold shouldEscalate.
  destruct (is_text (get_opt profile "plan") "enterprise"); [|discriminate].
  destruct (is_text (get_opt profile "onboarding_status") "completed");
    [discriminate|].
  cbn [negb].
  destruct (to_number (get_opt profile "days_since_signup")) as [days| |];
    cbn [mbind Outcome_bind]; try discriminate.
  destruct (Num.gt days (Num.of_Z 3)) eqn:Hgt; cbn [negb]; [|discriminate].
  destruct (truthy (get_opt profile "escalated")); [discriminate|].
  intros _. repeat split. exists days. split; [reflexivity|exact Hgt].
Qed.

Lemma markAsEscalated_sent iso w userId :
  sent (fst (markAsEscalated iso w userId)) = sent w.
Proof.
  unfold markAsEscalated.
  destruct (_ ≫= _) as [v| |]; reflexivity.
Qed.

(** X13.  A call of checkAndEscalate sends at most one alert, about the
    recipient it was called for and with the profile as stored, and sends
    it only for a profile on the enterprise plan whose onboarding is not
    completed, that is more than three days past signup and not marked
    escalated. *)
Theorem X13_alert_only_for_an_eligible_profile
    (iso : string) (w : World) (userId : string) :
  let r := checkAndEscalate iso w userId in
  let profile := profiles_get w userId in
  sent (fst r) = sent w
  \/ (is_text (get_opt profile "plan") "enterprise" = true
      /\ is_text (get_opt profile "onboarding_status") "completed" = false
      /\ truthy (get_opt profile "escalated") = false
      /\ (exists days,
            to_number (get_opt profile "days_since_signup") = Ret days
            /\ Num.gt days (Num.of_Z 3) = true)
      /\ exists found,
           sent (fst r)
           = (sent w ++ [{| about := userId;
                            snapshot := default ∅ (profiles w !! userId);
                            blockers := found |}])%list).
Proof.
  cbv zeta. unfold checkAndEscalate.
  destruct (shouldEscalate (profiles_get w userId)) as [[]| |] eqn:Hs;
    try (left; reflexivity).
  unfold sendSlackAlert.
  destruct (identifyBlockers w userId) as [found| |]; try (left; reflexivity).
  right. destruct (shouldEscalate_true _ Hs) as (Hp & Hc & He & Hd).
  repeat (split; [assumption|]). exists found.
  match goal with
  | |- context [markAsEscalated iso ?w1 userId] =>
      pose proof (markAsEscalated_sent iso w1 userId) as Hsent;
      destruct (markAsEscalated iso w1 userId) as [w2 [?| |]]
  end; exact Hsent.
Qed.

(** *** The risk score *)

Lemma Ret_inj {A} (a b : A) : Ret a = Ret b -> a = b.
Proof. intros [= ->]. reflexivity. Qed.

(** X14.  The risk score is a whole number from 0 to 10, and at least 2
    for every profile that checkAndEscalate alerts about. *)
Theorem X14_risk_score_is_between_0_and_10
    (C : Clock) (profile : JsVal) (score : spec_float) :
  calculateRiskScore C profile = Ret score ->
  exists n,
    score = Num.of_Z n /\ 0 <= n <= 10
    /\ (shouldEscalate profile = Ret true -> 2 <= n).
Proof.
  unfold calculateRiskScore.
  destruct (get profile "days_since_signup") as [signup| |] eqn:Hget;
    cbn [mbind Outcome_bind]; try discriminate.
  assert (Hsignup : signup = get_opt profile "days_since_signup").
  { destruct profile; try discriminate; injection Hget as <-; reflexivity. }
  destruct (to_number signup) as [days| |] eqn:Hdays;
    cbn [mbind Outcome_bind]; try discriminate.
  destruct (to_number (get_opt profile "onboarding_progress")) as [progress| |];
    cbn [mbind Outcome_bind]; try discriminate.
  destruct (to_number (get_opt profile "account_value")) as [value| |];
    cbn [mbind Outcome_bind]; try discriminate.
  assert (Hel : shouldEscalate profile = Ret true ->
                Num.gt days (Num.of_Z 3) = true).
  { intros Hs. destruct (shouldEscalate_true _ Hs) as (_ & _ & _ & d & Hd & Hgt).
    rewrite <- Hsignup, Hdays in Hd. injection Hd as <-. exact Hgt. }
  set (b7 := Num.gt days (Num.of_Z 7)).
  set (b3 := Num.gt days (Num.of_Z 3)) in *.
  set (never := negb (truthy (get_opt profile "last_login"))).
  set (long_ago := Num.gt (elapsed_since C (get_opt profile "last_login"))
                          (Num.of_Z (72 * 60 * 60 * 1000))).
  set (p20 := Num.lt progress (Num.of_Z 20)).
  set (p50 := Num.lt progress (Num.of_Z 50)).
  set (big := Num.gt value (Num.of_Z 100000)).
  clearbody b7 b3 never long_ago p20 p50 big.
  destruct b7, b3, never, long_ago, p20, p50, big;
    intros Heq; apply Ret_inj in Heq; subst score;
    first [ exists 0; split; [vm_compute; reflexivity|];
            split; [lia|]; intros Hs; specialize (Hel Hs); discriminate Hel
          | exists 1; split; [vm_compute; reflexivity|];
            split; [lia|]; intros Hs; specialize (Hel Hs); discriminate Hel
          | exists 2; split; [vm_compute; reflexivity|]; split; [lia|]; intros _; lia
          | exists 3; split; [vm_compute; reflexivity|]; split; [lia|]; intros _; lia
          | exists 4; split; [vm_compute; reflexivity|]; split; [lia|]; intros _; lia
          | exists 5; split; [vm_compute; reflexivity|]; split; [lia|]; intros _; lia
          | exists 6; split; [vm_compute; reflexivity|]; split; [lia|]; intros _; lia
          | exists 7; split; [vm_compute; reflexivity|]; split; [lia|]; intros _; lia
          | exists 8; split; [vm_compute; reflexivity|]; split; [lia|]; intros _; lia
          | exists 9; split; [vm_compute; reflexivity|]; split; [lia|]; intros _; lia
          | exists 10; split; [vm_compute; reflexivity|]; split; [lia|]; intros _; lia ].
Qed.

(** The stuck account of the scenario: five days past signup (2), never
    logged in (3), no progress on record (0). *)
Lemma X14_risk_score_is_between_0_and_10_witness :
  exists n,
    Num.of_Z 5 = Num.of_Z n /\ 0 <= n <= 10
    /\ (shouldEscalate (JObj stuck_profile) = Ret true -> 2 <= n).
Proof.
  apply (X14_risk_score_is_between_0_and_10 epoch_clock (JObj stuck_profile)).
  vm_compute. reflexivity.
Defined.

(** *** The scheduled check *)

Lemma checkAndEscalate_passes iso w id :
  shouldEscalate (profiles_get w id) = Ret false ->
  checkAndEscalate iso w id = (w, Ret false).
Proof. intros H. unfold checkAndEscalate. rewrite H. reflexivity. Qed.

Lemma scheduleEscalationChecks_skips iso w pre rest :
  Forall (passed_over w) pre ->
  scheduleEscalationChecks iso w (pre ++ rest)
  = scheduleEscalationChecks iso w rest.
Proof.
  induction 1 as [|user pre (id & Hid & Hno) _ IH]; [reflexivity|].
  cbn [app scheduleEscalationChecks]. rewrite Hid.
  rewrite (checkAndEscalate_passes _ _ _ Hno). exact IH.
Qed.

(** X15.  The scheduled check stops at the first user it alerts about.
    checkAndEscalate rejects once it has sent the alert (markAsEscalated
    reads a name that is not bound), the loop of scheduleEscalationChecks
    does not catch it, and the users listed after that one are not
    checked, whoever they are.  With getEnterpriseUsers as the class has
    it, which returns no user, nobody is checked at all. *)
Theorem X15_scheduled_check_stops_at_the_first_alert
    (iso : string) (w : World) (pre post : list JsVal) (user : JsVal)
    (id : string) (found : list Blocker) :
  Forall (passed_over w) pre ->
  get user "id" = Ret (JStr id) ->
  shouldEscalate (profiles_get w id) = Ret true ->
  identifyBlockers w id = Ret found ->
  global_object w !! "profile" = None ->
  scheduleEscalationChecks iso w (pre ++ user :: post)
  = (with_sent w (sent w ++ [{| about := id;
                                snapshot := default ∅ (profiles w !! id);
                                blockers := found |}])%list,
     Throws (ReferenceError "profile"))
  /\ scheduleEscalationChecks iso w getEnterpriseUsers = (w, Ret tt).
Proof.
  intros Hpre Hid Hs Hfound Hglobal. split; [|reflexivity].
  rewrite (scheduleEscalationChecks_skips _ _ _ _ Hpre).
  cbn [scheduleEscalationChecks]. rewrite Hid.
  rewrite (checkAndEscalate_alerts iso w id found) by assumption.
  reflexivity.
Qed.

(** frank is passed over, acme-admin is alerted about, and globex-admin,
    stuck just as long, is never reached. *)
Lemma X15_scheduled_check_stops_at_the_first_alert_witness :
  let r := scheduleEscalationChecks "2026-01-05T09:00:00.000Z" three_accounts
             [user_of "frank"; user_of "acme-admin"; user_of "globex-admin"] in
  (about <$> sent (fst r)) = ["acme-admin"]
  /\ snd r = Throws (ReferenceError "profile").
Proof.
  cbv zeta.
  destruct (X15_scheduled_check_stops_at_the_first_alert
              "2026-01-05T09:00:00.000Z" three_accounts
              [user_of "frank"] [user_of "globex-admin"] (user_of "acme-admin")
              "acme-admin"
              [NoTeamInvited; NoProjectCreated; NoIntegrationConnected;
               ProfileIncomplete]) as [Hrun _];
    [repeat constructor; exists "frank"; split; vm_compute; reflexivity
    |reflexivity|vm_compute; reflexivity|vm_compute; reflexivity|reflexivity|].
  cbn [app] in Hrun. rewrite Hrun. split; reflexivity.
Defined.

End EscalationMethodsFacts.

(** * More facts about the webhook handler *)

Module WebhookEventsFacts.
Import Webhook WebhookEvents NumFacts WebhookFacts.

(** *** Who can change the state *)

(** X16.  The route changes nothing unless the signature header is the hex
    HMAC-SHA256, under the secret, of the text JSON.stringify gives for
    the body: every request that leaves the world different from how it
    found it carried exactly that signature. *)
Theorem X16_only_a_signed_request_changes_the_state
    (E : Env) (req : Request) (w : World) :
  fst (post_webhooks_courier E req w) <> w ->
  exists key text,
    webhook_secret E = Some key
    /\ stringify (body req) = Ret (Some text)
    /\ signature req = Some (hex (Sha256.hmac (utf8 key) (utf8 text))).
Proof.
  unfold post_webhooks_courier. intros Hchanged.
  destruct (stringify (body req)) as [[text|]| |];
    cbn [mbind Outcome_bind] in Hchanged;
    destruct (webhook_secret E) as [key|], (signature req) as [given|];
    cbn [verifyWebhookSignature fst] in Hchanged;
    try (destruct (Hchanged eq_refl)).
  destruct (length (utf8 given) =? length _)%nat;
    [|destruct (Hchanged eq_refl)].
  destruct (bool_decide_reflect
              (utf8 given = utf8 (hex (Sha256.hmac (utf8 key) (utf8 text)))))
    as [Heq|_]; [|destruct (Hchanged eq_refl)].
  apply utf8_inj in Heq. subst given. exists key, text. repeat split.
Qed.

(** The signed message:sent event changes the empty world. *)
Lemma X16_only_a_signed_request_changes_the_state_witness :
  exists key text,
    webhook_secret test_env = Some key
    /\ stringify (body (signed test_env sent_event)) = Ret (Some text)
    /\ signature (signed test_env sent_event)
       = Some (hex (Sha256.hmac (utf8 key) (utf8 text))).
Proof.
  apply (X16_only_a_signed_request_changes_the_state
           test_env (signed test_env sent_event) empty_world).
  intros H. apply (f_equal (fun w => length (effects w))) in H.
  vm_compute in H. discriminate H.
Defined.

(** *** Events the handlers cannot use *)

Lemma accepted_route E req w :
  accepted E req ->
  post_webhooks_courier E req w
  = match prop (body req) "type" with
    | Ret type =>
        match run (dispatch E type (field (body req) "data")) w with
        | (w1, Ret _) => (w1, Responded 200 (VObj [("received", VTrue)]))
        | (w1, Throws e) =>
            (fst (run (tell (ConsoleError "Webhook processing error:"
                                          (error_name e))) w1),
             Responded 500 (VObj [("error", VStr "Processing failed")]))
        | (w1, Unmodelled) => (w1, OutOfModel)
        end
    | Throws e => (w, Rejected e)
    | Unmodelled => (w, OutOfModel)
    end.
Proof.
  intros Hacc. unfold post_webhooks_courier. unfold accepted in Hacc.
  rewrite Hacc. reflexivity.
Qed.

Lemma typed_route E req w t :
  accepted E req -> field (body req) "type" = VStr t ->
  post_webhooks_courier E req w
  = match run (dispatch E (VStr t) (field (body req) "data")) w with
    | (w1, Ret _) => (w1, Responded 200 (VObj [("received", VTrue)]))
    | (w1, Throws e) =>
        (fst (run (tell (ConsoleError "Webhook processing error:"
                                      (error_name e))) w1),
         Responded 500 (VObj [("error", VStr "Processing failed")]))
    | (w1, Unmodelled) => (w1, OutOfModel)
    end.
Proof.
  intros Hacc Htype. rewrite (accepted_route _ _ _ Hacc).
  unfold prop. rewrite (field_not_nullish _ _ _ Htype), Htype. reflexivity.
Qed.

Lemma dispatch_without_data E t data w :
  In t handled_types -> nullish data = true ->
  run (dispatch E (VStr t) data) w = (w, Throws TypeError).
Proof.
  intros Hin Hnull. cbn [In handled_types] in Hin.
  repeat (destruct Hin as [<-|Hin]);
    try (destruct Hin);
    unfold dispatch; cbn [is_text String.eqb Ascii.eqb Bool.eqb];
    unfold handleMessageSent, handleMessageDelivered, handleMessageOpened,
      handleMessageClicked, handleMessageUndeliverable, handleInboxRead,
      handleInboxArchived, handlePreferencesUpdated, handleAutomationCompleted,
      handleAutomationFailed, destructure;
    rewrite Hnull; reflexivity.
Qed.

(** X17.  An accepted event of one of the ten handled types that carries
    no data is answered 500: the handler throws on its first line, the
    route logs the error, and no profile is written and no timer set. *)
Theorem X17_event_without_data_is_answered_500
    (E : Env) (req : Request) (w : World) (t : string) :
  accepted E req ->
  field (body req) "type" = VStr t -> In t handled_types ->
  nullish (field (body req) "data") = true ->
  post_webhooks_courier E req w
  = (log_to w [processing_error],
     Responded 500 (VObj [("error", VStr "Processing failed")])).
Proof.
  intros Hacc Htype Hin Hnull.
  rewrite (typed_route _ _ _ _ Hacc Htype).
  rewrite (dispatch_without_data _ _ _ _ Hin Hnull). reflexivity.
Qed.

Lemma X17_event_without_data_is_answered_500_witness :
  post_webhooks_courier test_env (signed test_env opened_without_data) empty_world
  = (log_to empty_world [processing_error],
     Responded 500 (VObj [("error", VStr "Processing failed")])).
Proof.
  apply (X17_event_without_data_is_answered_500 _ _ _ "message:opened");
    [vm_compute; reflexivity|reflexivity|cbn; tauto|reflexivity].
Defined.

Lemma dispatch_unhandled E t data w :
  ~ In t handled_types ->
  run (dispatch E (VStr t) data) w
  = (log_to w [ConsoleLog ("Unhandled webhook type: " ++ t) VUndef], Ret tt).
Proof.
  intros Hnot. unfold dispatch. cbn [is_text].
  repeat match goal with
         | |- context [String.eqb t ?s] =>
             rewrite (proj2 (String.eqb_neq t s))
               by (intros ->; apply Hnot; cbn; tauto)
         end.
  reflexivity.
Qed.

(** X18.  An accepted event of any other type is acknowledged with 200:
    the route logs the type as unhandled and writes no profile and sets
    no timer. *)
Theorem X18_unhandled_type_is_acknowledged
    (E : Env) (req : Request) (w : World) (t : string) :
  accepted E req ->
  field (body req) "type" = VStr t -> ~ In t handled_types ->
  post_webhooks_courier E req w
  = (log_to w [ConsoleLog ("Unhandled webhook type: " ++ t) VUndef],
     Responded 200 (VObj [("received", VTrue)])).
Proof.
  intros Hacc Htype Hnot.
  rewrite (typed_route _ _ _ _ Hacc Htype).
  rewrite (dispatch_unhandled _ _ _ _ Hnot). reflexivity.
Qed.

Lemma X18_unhandled_type_is_acknowledged_witness :
  post_webhooks_courier test_env (signed test_env ping_event) empty_world
  = (log_to empty_world [ConsoleLog "Unhandled webhook type: ping" VUndef],
     Responded 200 (VObj [("received", VTrue)])).
Proof.
  apply (X18_unhandled_type_is_acknowledged _ _ _ "ping");
    [vm_compute; reflexivity|reflexivity|].
  cbn. intuition discriminate.
Defined.

(** *** The engagement score *)



(** *** Progress and milestones *)

Lemma profiles_checkMilestones userId task w :
  profiles (fst (run (checkMilestones userId task) w)) = profiles w.
Proof.
  unfold checkMilestones, courier_send.
  cbn [run mbind M_bind lift].
  destruct (table_get milestones task) as [[[points achievement]|]| |];
    reflexivity.
Qed.

Lemma task_keys_differ task :
  "task_" ++ task ++ "_completed_at" <> "task_" ++ task ++ "_completed".
Proof.
  intros H. apply (f_equal String.length) in H.
  rewrite !length_append in H. cbn [String.length] in H. lia.
Qed.

(** X20.  The progress handleInboxRead stores is the progress of the
    profile as it was read before the task was marked: the task that the
    event completes is marked completed but is not counted in the
    progress stored with it. *)
Theorem X20_progress_stored_misses_the_task_just_completed
    (w : World) (userId task timestamp : string) :
  task <> "" ->
  let w' := fst (run (handleInboxRead (task_read userId task timestamp)) w) in
  stored w' userId ("task_" ++ task ++ "_completed") = Some VTrue
  /\ stored w' userId "onboarding_progress"
     = Some (calculateProgress (default ∅ (profiles w !! userId))).
Proof.
  intros Htask. cbv zeta. unfold handleInboxRead, task_read.
  cbn [run mbind M_bind mret M_ret lift tell nullish field assoc String.eqb
       Ascii.eqb Bool.eqb default from_option id to_text fst snd
       profiles_get profiles effects timers log_to
       Outcome_bind destructure logAnalyticsEvent profiles_merge truthy].
  rewrite (proj2 (String.eqb_neq task "")) by exact Htask. cbn [negb].
  cbn [run mbind M_bind mret M_ret lift to_text Outcome_bind profiles_merge
       fst snd].
  unfold stored. rewrite !profiles_checkMilestones.
  cbn [profiles with_profile log_to]. rewrite lookup_insert_eq.
  cbn [mbind option_bind].
  set (progress := calculateProgress _).
  assert (Hprogress : progress <> VUndef)
    by (unfold progress, calculateProgress; discriminate).
  unfold merge_attrs. cbn [foldl fst snd VTrue].
  destruct progress; try (destruct (Hprogress eq_refl));
    (split;
     [rewrite lookup_insert_ne by discriminate;
      rewrite lookup_insert_ne by apply task_keys_differ;
      apply lookup_insert_eq
     |apply lookup_insert_eq]).
Qed.

(** The first task completed by a recipient: the task is marked, and the
    progress stored with it is 0. *)
Lemma X20_progress_stored_misses_the_task_just_completed_witness :
  let w' := fst (run (handleInboxRead
                        (task_read "u1" "complete-profile"
                                   "2026-01-05T09:00:00.000Z")) empty_world) in
  stored w' "u1" "task_complete-profile_completed" = Some VTrue
  /\ stored w' "u1" "onboarding_progress" = Some (vnum 0).
Proof.
  apply (X20_progress_stored_misses_the_task_just_completed
           empty_world "u1" "complete-profile" "2026-01-05T09:00:00.000Z").
  discriminate.
Defined.

(** *** A click without a link *)

(** X21.  An accepted message:clicked event whose data has no link is
    answered 500, but only after the recipient's profile has been written:
    reading [link.includes] throws once the merge is done, so the profile
    is marked highly engaged for a click on nothing. *)
Theorem X21_click_without_link_fails_after_the_write
    (E : Env) (req : Request) (w : World) (userId : string) :
  accepted E req ->
  field (body req) "type" = VStr "message:clicked" ->
  field (field (body req) "data") "recipientId" = VStr userId ->
  field (field (body req) "data") "link" = VUndef ->
  let r := post_webhooks_courier E req w in
  snd r = Responded 500 (VObj [("error", VStr "Processing failed")])
  /\ stored (fst r) userId "engagement_level" = Some (VStr "high")
  /\ stored (fst r) userId "clicked_links" = Some (VArr [VUndef]).
Proof.
  intros Hacc Htype Hrid Hlink. cbv zeta.
  rewrite (typed_route _ _ _ _ Hacc Htype).
  unfold dispatch. cbn [is_text String.eqb Ascii.eqb Bool.eqb].
  unfold handleMessageClicked, destructure.
  set (data := field (body req) "data") in *.
  rewrite (field_not_nullish _ _ _ Hrid), Hrid, Hlink.
  cbn [run mbind M_bind mret M_ret lift tell fst snd profiles_get
       Outcome_bind logAnalyticsEvent profiles_merge includes].
  split; [reflexivity|].
  unfold stored. cbn [profiles with_profile log_to].
  rewrite lookup_insert_eq. cbn [mbind option_bind].
  unfold merge_attrs. cbn [foldl fst snd].
  destruct (field data "timestamp");
    (split;
     [apply lookup_insert_eq
     |rewrite lookup_insert_ne by discriminate; apply lookup_insert_eq]).
Qed.

Lemma X21_click_without_link_fails_after_the_write_witness :
  let r := post_webhooks_courier test_env (signed test_env click_without_link)
                                 empty_world in
  snd r = Responded 500 (VObj [("error", VStr "Processing failed")])
  /\ stored (fst r) "u1" "engagement_level" = Some (VStr "high")
  /\ stored (fst r) "u1" "clicked_links" = Some (VArr [VUndef]).
Proof.
  apply (X21_click_without_link_fails_after_the_write
           test_env (signed test_env click_without_link) empty_world "u1");
    [vm_compute; reflexivity|reflexivity|reflexivity|reflexivity].
Defined.

(** *** Failures that are not retried *)

(** X22.  A hard failure sends the SMS fallback exactly when the profile
    holds a phone number: besides its two log lines the handler sends one
    message on the sms channel if phone_number is set, and nothing if it
    is not. *)
Theorem X22_sms_fallback_needs_a_phone_number
    (E : Env) (w : World) (m u reason : string) :
  reason = "invalid_email" \/ reason = "hard_bounce" ->
  let r := run (handleMessageUndeliverable E (undeliverable m u reason)) w in
  effects (fst r)
  = (effects w ++ failure_log m u reason
     ++ (if truthy (default VUndef (stored w u "phone_number"))
         then [sms_fallback u] else []))%list.
Proof.
  intros Hreason. cbv zeta.
  assert (Hrun : run (handleMessageUndeliverable E (undeliverable m u reason)) w
                 = match run (handleInvalidEmail (VStr u))
                               (log_to w (failure_log m u reason)) with
                   | (w1, Ret _) => (w1, Ret tt)
                   | (w1, Throws e) => (w1, Throws e)
                   | (w1, Unmodelled) => (w1, Unmodelled)
                   end).
  { destruct Hreason as [-> | ->];
      unfold handleMessageUndeliverable, undeliverable; exec;
      rewrite log_to_twice; reflexivity. }
  rewrite Hrun. unfold handleInvalidEmail, courier_send. exec.
  rewrite lookup_insert_eq. exec.
  unfold merge_attrs. cbn [foldl fst snd VFalse].
  rewrite !lookup_insert_ne by discriminate.
  rewrite stored_get.
  destruct (truthy (default VUndef (stored w u "phone_number"))); exec.
  - rewrite <- app_assoc. reflexivity.
  - rewrite app_nil_r. reflexivity.
Qed.

Lemma X22_sms_fallback_needs_a_phone_number_witness :
  effects (fst (run (handleMessageUndeliverable test_env
                       (undeliverable "m1" "u1" "hard_bounce")) empty_world))
  = failure_log "m1" "u1" "hard_bounce".
Proof.
  rewrite (X22_sms_fallback_needs_a_phone_number test_env empty_world
             "m1" "u1" "hard_bounce" (or_intror eq_refl)).
  reflexivity.
Defined.

(** X23.  A failure with a reason the handler has no case for writes no
    profile and schedules nothing: it is logged and the ops channel gets
    one alert that names the message and the reason. *)
Theorem X23_unknown_reason_alerts_the_ops_channel
    (E : Env) (w : World) (m u reason : string) :
  ~ In reason known_reasons ->
  run (handleMessageUndeliverable E (undeliverable m u reason)) w
  = (log_to w (failure_log m u reason ++ [ops_alert E m reason]), Ret tt).
Proof.
  intros Hnot.
  unfold handleMessageUndeliverable, undeliverable. exec.
  repeat match goal with
         | |- context [String.eqb reason ?s] =>
             rewrite (proj2 (String.eqb_neq reason s))
               by (intros ->; apply Hnot; cbn; tauto)
         end.
  cbn [orb]. unfold notifyOpsTeam, courier_send. exec.
  rewrite !log_to_twice. reflexivity.
Qed.

Lemma X23_unknown_reason_alerts_the_ops_channel_witness :
  run (handleMessageUndeliverable test_env
         (undeliverable "m1" "u1" "mailbox_full")) empty_world
  = (log_to empty_world (failure_log "m1" "u1" "mailbox_full"
                         ++ [ops_alert test_env "m1" "mailbox_full"]), Ret tt).
Proof.
  apply (X23_unknown_reason_alerts_the_ops_channel test_env empty_world
           "m1" "u1" "mailbox_full").
  cbn. intuition discriminate.
Defined.

End WebhookEventsFacts.
